(** * DevForge PM agent: a shallow embedding of [src/agents/pm/pm_agent.py]

  The Python class [PMAgent] turns a product idea into a feature record
  (a nested dict), writes it as indented JSON and renders a Markdown
  summary.  This file embeds its methods as Rocq functions, keeping the
  names of the source, and proves properties of them.

  Modelling conventions.
  - A Python [str] is a [string]; a character is a code point below 256
    (the Latin-1 range), on which [str.lower] is modelled exactly.
  - A Python [int] is a [Z]; counts and clock fields are [nat].
  - A dict whose iteration order reaches the output (the acceptance
    criteria, every JSON object) is an insertion-ordered association
    list; a dict that is only looked up (the configuration, a directory
    listing) is a [gmap].
  - I/O is explicit state passing over a directory tree; an operation
    that raises in Python returns [None].
  - [datetime.now()] and [random.choice] are inputs of the functions
    that call them.
  - [generate_feature] and [_save_feature] are embedded for their value
    and their effect on the tree; [generate_feature_io] and [main] are
    the method and the script as a whole, with the lines they print and
    the encodings of standard output and of the files as inputs
    ([streams]). *)

From Stdlib Require Import ZArith Ascii String List Bool Lia.
From Stdlib Require Import Decimal DecimalFacts DecimalNat DecimalPos DecimalN DecimalZ.
From Stdlib Require Import DecimalString.
From stdpp Require Import base option list gmap strings fin_maps.

Local Open Scope nat_scope.

#[local] Arguments String.append : simpl nomatch.

(** ** Python strings *)

Module Py.

Definition nl : ascii := "010".
Definition dquote : ascii := "034".

(** [str.lower] on one code point below 256: A-Z and the accented
    capitals U+00C0..U+00DE (U+00D7, the multiplication sign, excepted)
    move up by 32. *)
Definition lower_char (c : ascii) : ascii :=
  let n := N_of_ascii c in
  if ((65 <=? n) && (n <=? 90) ||
      (192 <=? n) && (n <=? 222) && negb (n =? 215))%N
  then ascii_of_N (n + 32) else c.

Fixpoint lower (s : string) : string :=
  match s with
  | EmptyString => EmptyString
  | String c s' => String (lower_char c) (lower s')
  end.

(** [str.upper] on one code point below 256: a-z and the accented small
    letters U+00E0..U+00FE (U+00F7, the division sign, excepted) move
    down by 32, and the sharp s U+00DF becomes SS.  Two small letters
    have their capital beyond 255, the micro sign U+00B5 and the y with
    diaeresis U+00FF: [upper] leaves them as they are, so it is
    [str.upper] on the strings that hold neither ([upper_exact]); the
    source applies it to the priority labels, which are ASCII literals. *)
Definition upper_char (c : ascii) : string :=
  let n := N_of_ascii c in
  if ((97 <=? n) && (n <=? 122) ||
      (224 <=? n) && (n <=? 254) && negb (n =? 247))%N
  then String (ascii_of_N (n - 32)) EmptyString
  else if (n =? 223)%N then "SS"
  else String c EmptyString.

Fixpoint upper (s : string) : string :=
  match s with
  | EmptyString => EmptyString
  | String c s' => upper_char c +:+ upper s'
  end.

Fixpoint upper_exact (s : string) : bool :=
  match s with
  | EmptyString => true
  | String c s' =>
      let n := N_of_ascii c in
      negb (n =? 181)%N && negb (n =? 255)%N && upper_exact s'
  end.

(** [needle in s]: some suffix of [s] starts with [needle]. *)
Fixpoint str_in (needle s : string) : bool :=
  String.prefix needle s ||
  match s with
  | EmptyString => false
  | String _ s' => str_in needle s'
  end.

(** [s.startswith(p)] *)
Definition startswith (s p : string) : bool := String.prefix p s.

(** The characters [str.strip()] removes, among code points below 256. *)
Definition is_space (c : ascii) : bool :=
  let n := N_of_ascii c in
  ((9 <=? n) && (n <=? 13) || (28 <=? n) && (n <=? 32) ||
   (n =? 133) || (n =? 160))%N.

Fixpoint lstrip_by (p : ascii -> bool) (s : string) : string :=
  match s with
  | EmptyString => EmptyString
  | String c s' => if p c then lstrip_by p s' else s
  end.

(** Drops the longest suffix of characters satisfying [p]. *)
Fixpoint rstrip_by (p : ascii -> bool) (s : string) : string :=
  match s with
  | EmptyString => EmptyString
  | String c s' =>
      match rstrip_by p s' with
      | EmptyString => if p c then EmptyString else String c EmptyString
      | r => String c r
      end
  end.

Definition strip_by (p : ascii -> bool) (s : string) : string :=
  rstrip_by p (lstrip_by p s).

(** [s.strip()] and [s.strip(chars)] for a one-character [chars]. *)
Definition strip (s : string) : string := strip_by is_space s.
Definition strip_char (c : ascii) (s : string) : string :=
  strip_by (Ascii.eqb c) s.

(** [s.split(sep, 1)] for a one-character [sep]: the text before the
    first [sep] and the text after it, or [s] alone. *)
Fixpoint split1 (sep : ascii) (s : string) : string * option string :=
  match s with
  | EmptyString => (EmptyString, None)
  | String c s' =>
      if Ascii.eqb c sep then (EmptyString, Some s')
      else let '(a, b) := split1 sep s' in (String c a, b)
  end.

(** [str(n)] for a natural number and for an integer. *)
Definition str_nat (n : nat) : string :=
  NilEmpty.string_of_uint (N.to_uint (N.of_nat n)).
Definition str_int (z : Z) : string :=
  NilEmpty.string_of_int (Z.to_int z).

Fixpoint zeros (k : nat) : string :=
  match k with
  | O => EmptyString
  | S k' => String "0" (zeros k')
  end.

(** [f"{n:0wd}"] for [n >= 0]: at least [w] digits, zero-filled. *)
Definition fmt_0d (w n : nat) : string :=
  let d := str_nat n in zeros (w - String.length d) +:+ d.

(** [truthy(s)] for a string: non-empty. *)
Definition nonempty (s : string) : bool :=
  match s with EmptyString => false | _ => true end.

(** The text of [s] up to its first newline. *)
Fixpoint first_line (s : string) : string :=
  match s with
  | EmptyString => EmptyString
  | String c s' =>
      if Ascii.eqb c nl then EmptyString else String c (first_line s')
  end.

(** Iterating a text file yields its lines, each with its newline. *)
Fixpoint lines_from (cur : string -> string) (s : string) : list string :=
  match s with
  | EmptyString =>
      match cur EmptyString with
      | EmptyString => []
      | l => [l]
      end
  | String c s' =>
      if Ascii.eqb c nl
      then cur (String c EmptyString) :: lines_from (fun t => t) s'
      else lines_from (fun t => cur (String c t)) s'
  end.
Definition readlines (s : string) : list string := lines_from (fun t => t) s.

End Py.


(** ** Insertion-ordered dictionaries

    [d[k] = v] replaces the value of a key already present, in place, and
    appends a new key at the end. *)

Section Dict.
Context {V : Type}.

Fixpoint dict_set (k : string) (v : V) (d : list (string * V)) : list (string * V) :=
  match d with
  | [] => [(k, v)]
  | (k', v') :: d' =>
      if String.eqb k k' then (k', v) :: d' else (k', v') :: dict_set k v d'
  end.

Fixpoint dict_get (k : string) (d : list (string * V)) : option V :=
  match d with
  | [] => None
  | (k', v') :: d' => if String.eqb k k' then Some v' else dict_get k d'
  end.

Definition dict_keys (d : list (string * V)) : list string := map fst d.

End Dict.

(** ** The data model: one record per dict shape of the source *)

Record Spec := mkSpec {
  spec_title : string;
  spec_description : string;
  spec_type : string;
  spec_tech_stack : string;
  spec_mvp_features : list string;
  spec_v2_features : list string;
  spec_target_users : string;
  spec_success_metrics : list string
}.

Record Story := mkStory {
  story_id : string;
  story_role : string;
  story_action : string;
  story_benefit : string;
  story_priority : string;
  story_points : Z
}.

Record CriteriaBlock := mkCriteria {
  cb_story : string;
  cb_criteria : list string
}.

Record TechReq := mkReq {
  req_category : string;
  req_requirement : string;
  req_technologies : list string;
  req_priority : string
}.

(** An endpoint dict has the keys path, method, description, then auth and
    request where the literal has them, then response. *)
Record Endpoint := mkEndpoint {
  ep_path : string;
  ep_method : string;
  ep_description : string;
  ep_auth : option bool;
  ep_request : option (list (string * string));
  ep_response : list (string * string)
}.

Record ApiSpec := mkApi {
  api_version : string;
  api_base_url : string;
  api_endpoints : list Endpoint
}.

(** A column dict has name and type, and at most one key marker. *)
Record Column := mkColumn {
  col_name : string;
  col_type : string;
  col_primary_key : option bool;
  col_unique : option bool;
  col_foreign_key : option string
}.

Record Table := mkTable {
  tbl_name : string;
  tbl_columns : list Column
}.

Record DbSchema := mkSchema {
  db_database : string;
  db_tables : list Table
}.

Record FeatureData := mkFeature {
  fd_id : string;
  fd_idea : string;
  fd_specification : Spec;
  fd_user_stories : list Story;
  fd_acceptance_criteria : list (string * CriteriaBlock);
  fd_technical_requirements : list TechReq;
  fd_api_specification : ApiSpec;
  fd_database_schema : DbSchema;
  fd_status : string;
  fd_created_at : string;
  fd_pm_agent : string
}.

(** ** The clock *)

Record datetime := mkDatetime {
  dt_year : nat;
  dt_month : nat;
  dt_day : nat;
  dt_hour : nat;
  dt_minute : nat;
  dt_second : nat;
  dt_microsecond : nat
}.

(** What [datetime.now()] can return: a date of the proleptic calendar
    with a four-digit year (day-of-month limits are not needed here). *)
Definition valid_datetime (d : datetime) : bool :=
  (1000 <=? dt_year d) && (dt_year d <? 10 * 1000) &&
  (1 <=? dt_month d) && (dt_month d <=? 12) &&
  (1 <=? dt_day d) && (dt_day d <=? 31) &&
  (dt_hour d <=? 23) && (dt_minute d <=? 59) && (dt_second d <=? 59) &&
  (dt_microsecond d <? 1000 * 1000).

(** [d.strftime("%Y%m%d")] as the C library of Linux prints it: [%Y] is
    the year without padding, [%m] and [%d] have two digits.  A year
    below 1000, which [datetime.now()] does not return, has fewer than
    four digits there (other C libraries pad it). *)
Definition strftime_Ymd (d : datetime) : string :=
  Py.str_nat (dt_year d) +:+ Py.fmt_0d 2 (dt_month d) +:+ Py.fmt_0d 2 (dt_day d).

(** [d.isoformat()]: the microseconds are printed when they are not zero. *)
Definition isoformat (d : datetime) : string :=
  Py.fmt_0d 4 (dt_year d) +:+ "-" +:+ Py.fmt_0d 2 (dt_month d) +:+ "-" +:+
  Py.fmt_0d 2 (dt_day d) +:+ "T" +:+ Py.fmt_0d 2 (dt_hour d) +:+ ":" +:+
  Py.fmt_0d 2 (dt_minute d) +:+ ":" +:+ Py.fmt_0d 2 (dt_second d) +:+
  (if dt_microsecond d =? 0 then EmptyString
   else "." +:+ Py.fmt_0d 6 (dt_microsecond d)).

(** ** The generators of [PMAgent] *)

Definition feature_types : list string :=
  [ "web_application"; "mobile_app"; "api_service";
    "cli_tool"; "data_pipeline"; "automation_script" ].

(** [random.choice(l)] with the generator's draw [r] made explicit: the
    element at index [r] reduced below [len(l)]. *)
Definition random_choice (r : nat) (l : list string) : string :=
  nth (r mod length l) l EmptyString.

Definition default_tech_stack : string := "Modern web stack (TBD by Dev team)".

(** [tech_stack or default]: [None] and the empty string are both falsy. *)
Definition tech_stack_or_default (tech_stack : option string) : string :=
  match tech_stack with
  | Some t => if Py.nonempty t then t else default_tech_stack
  | None => default_tech_stack
  end.

Definition _create_feature_spec (r : nat) (idea : string)
    (tech_stack : option string) : Spec :=
  {| spec_title := idea;
     spec_description := "A comprehensive solution for " +:+ idea;
     spec_type := random_choice r feature_types;
     spec_tech_stack := tech_stack_or_default tech_stack;
     spec_mvp_features :=
       [ "Core " +:+ idea +:+ " functionality";
         "User authentication";
         "Basic CRUD operations";
         "Simple dashboard" ];
     spec_v2_features :=
       [ "Advanced analytics";
         "Third-party integrations";
         "Mobile responsiveness";
         "Performance optimizations" ];
     spec_target_users := "End users and administrators";
     spec_success_metrics :=
       [ "User adoption rate";
         "Feature completion";
         "Performance benchmarks" ] |}.

Definition _generate_user_stories (spec : Spec) : list Story :=
  let stories := [] in
  let stories := stories ++
    [ mkStory "US-001" "As a user" ("I want to access " +:+ spec_title spec)
        "So that I can use the core functionality" "high" 3;
      mkStory "US-002" "As a user" "I want to create an account"
        "So that I can save my data" "high" 5;
      mkStory "US-003" "As a user" "I want to manage my content"
        "So that I can organize my work" "high" 5;
      mkStory "US-004" "As an admin" "I want to view user analytics"
        "So that I can understand usage patterns" "medium" 8 ] in
  let stories := stories ++
    [ mkStory "US-005" "As a user" "I want to export my data"
        "So that I can use it elsewhere" "low" 3;
      mkStory "US-006" "As a user" "I want to receive notifications"
        "So that I stay updated" "low" 5 ] in
  stories.

Definition auth_checklist : list string :=
  [ "User can register with email/password";
    "User can login with credentials";
    "User can logout";
    "Password must be at least 8 characters";
    "User receives confirmation email" ].

Definition crud_checklist : list string :=
  [ "User can create new items";
    "User can read/view items";
    "User can update items";
    "User can delete items";
    "Changes persist after refresh" ].

Definition dashboard_checklist : list string :=
  [ "Dashboard displays user count";
    "Charts show activity over time";
    "Data updates in real-time";
    "Export function works" ].

Definition generic_checklist : list string :=
  [ "Feature is accessible from main navigation";
    "Feature works on desktop and mobile";
    "Response time is under 2 seconds";
    "Error handling is implemented" ].

(** The if/elif/else chain in the loop body of
    [_generate_acceptance_criteria]. *)
Definition story_criteria (story : Story) : list string :=
  if Py.str_in "account" (Py.lower (story_action story)) then auth_checklist
  else if Py.str_in "manage" (Py.lower (story_action story)) then crud_checklist
  else if Py.str_in "analytics" (Py.lower (story_action story)) then dashboard_checklist
  else generic_checklist.

Definition _generate_acceptance_criteria (spec : Spec) (stories : list Story)
    : list (string * CriteriaBlock) :=
  fold_left
    (fun criteria story =>
       dict_set (story_id story)
         {| cb_story := story_action story;
            cb_criteria := story_criteria story |} criteria)
    stories [].

Definition _generate_technical_requirements (spec : Spec)
    (tech_stack : option string) : list TechReq :=
  let requirements := [] in
  let requirements := requirements ++
    [ mkReq "Frontend" "Responsive web interface"
        ["React"; "Vue"; "Angular"] "high" ] in
  let requirements := requirements ++
    [ mkReq "Backend" "RESTful API"
        ["Node.js/Express"; "Python/FastAPI"; "Go"] "high" ] in
  let requirements := requirements ++
    [ mkReq "Database" "Persistent data storage"
        ["PostgreSQL"; "MongoDB"; "SQLite"] "high" ] in
  let requirements := requirements ++
    [ mkReq "Authentication" "Secure user authentication"
        ["JWT"; "OAuth2"; "Session-based"] "high" ] in
  let requirements := requirements ++
    [ mkReq "Testing" "Automated test coverage"
        ["Jest"; "PyTest"; "Cypress"] "medium" ] in
  let requirements := requirements ++
    [ mkReq "Deployment" "Containerized deployment"
        ["Docker"; "Docker Compose"] "medium" ] in
  requirements.

Definition _generate_api_spec (spec : Spec) : ApiSpec :=
  {| api_version := "v1";
     api_base_url := "/api/v1";
     api_endpoints :=
       [ mkEndpoint "/auth/register" "POST" "Register new user" None
           (Some [("email", "string"); ("password", "string")])
           [("token", "string"); ("user", "object")];
         mkEndpoint "/auth/login" "POST" "User login" None
           (Some [("email", "string"); ("password", "string")])
           [("token", "string"); ("user", "object")];
         mkEndpoint "/items" "GET" "List all items" (Some true) None
           [("items", "array")];
         mkEndpoint "/items" "POST" "Create new item" (Some true)
           (Some [("title", "string"); ("content", "string")])
           [("item", "object")];
         mkEndpoint "/items/:id" "GET" "Get single item" (Some true) None
           [("item", "object")];
         mkEndpoint "/items/:id" "PUT" "Update item" (Some true)
           (Some [("title", "string"); ("content", "string")])
           [("item", "object")];
         mkEndpoint "/items/:id" "DELETE" "Delete item" (Some true) None
           [("success", "boolean")] ] |}.

Definition _generate_database_schema (spec : Spec) : DbSchema :=
  {| db_database := "PostgreSQL";
     db_tables :=
       [ mkTable "users"
           [ mkColumn "id" "UUID" (Some true) None None;
             mkColumn "email" "VARCHAR(255)" None (Some true) None;
             mkColumn "password_hash" "VARCHAR(255)" None None None;
             mkColumn "created_at" "TIMESTAMP" None None None;
             mkColumn "updated_at" "TIMESTAMP" None None None ];
         mkTable "items"
           [ mkColumn "id" "UUID" (Some true) None None;
             mkColumn "user_id" "UUID" None None (Some "users.id");
             mkColumn "title" "VARCHAR(255)" None None None;
             mkColumn "content" "TEXT" None None None;
             mkColumn "status" "VARCHAR(50)" None None None;
             mkColumn "created_at" "TIMESTAMP" None None None;
             mkColumn "updated_at" "TIMESTAMP" None None None ] ] |}.

(** ** The summary document

    [_generate_readme] builds the text by repeated [readme += ...]. *)

Definition nls : string := String Py.nl EmptyString.

Definition readme_story (data : FeatureData) (readme : string) (story : Story)
    : string :=
  let readme := readme +:+ "### " +:+ story_id story +:+ " (" +:+
                Py.upper (story_priority story) +:+ ")" +:+ nls in
  let readme := readme +:+ nls +:+ "**" +:+ story_role story +:+ ",** " +:+
                story_action story +:+ nls in
  let readme := readme +:+ "*" +:+ story_benefit story +:+ "*" +:+ nls +:+ nls in
  let readme := readme +:+ "**Story Points:** " +:+
                Py.str_int (story_points story) +:+ nls +:+ nls in
  match dict_get (story_id story) (fd_acceptance_criteria data) with
  | Some block =>
      let readme := readme +:+ "**Acceptance Criteria:**" +:+ nls in
      let readme :=
        fold_left (fun readme criteria => readme +:+ "- [ ] " +:+ criteria +:+ nls)
          (cb_criteria block) readme in
      readme +:+ nls
  | None => readme
  end.

Definition _generate_readme (data : FeatureData) : string :=
  let spec := fd_specification data in
  let readme :=
    "# " +:+ spec_title spec +:+ nls +:+
    nls +:+
    "## Description" +:+ nls +:+
    spec_description spec +:+ nls +:+
    nls +:+
    "## Tech Stack" +:+ nls +:+
    spec_tech_stack spec +:+ nls +:+
    nls +:+
    "## MVP Features" +:+ nls in
  let readme :=
    fold_left (fun readme feat => readme +:+ "- " +:+ feat +:+ nls)
      (spec_mvp_features spec) readme in
  let readme := readme +:+ nls +:+ "## User Stories" +:+ nls +:+ nls in
  let readme :=
    fold_left (readme_story data) (firstn 4 (fd_user_stories data)) readme in
  let readme := readme +:+ nls +:+ "## API Endpoints" +:+ nls +:+ nls in
  let readme :=
    fold_left
      (fun readme endpoint =>
         let readme := readme +:+ "### " +:+ ep_method endpoint +:+ " " +:+
                       ep_path endpoint +:+ nls in
         readme +:+ ep_description endpoint +:+ nls +:+ nls)
      (api_endpoints (fd_api_specification data)) readme in
  let readme := readme +:+ nls +:+ "## Status" +:+ nls in
  let readme := readme +:+ "- Current Status: " +:+ fd_status data +:+ nls in
  let readme := readme +:+ "- Created: " +:+ fd_created_at data +:+ nls in
  let readme := readme +:+ "- Next Step: Awaiting development" +:+ nls in
  readme.

(** ** JSON values and the dict layout of each record

    The feature record of the source is a dict of str, int, bool, list and
    dict values.  [json] is that universe; the [*_json] functions give, for
    each record, the dict literal of the source with its keys in source
    order. *)

#[warnings="-register-all"]
Inductive json : Type :=
| JNull
| JBool (b : bool)
| JInt (z : Z)
| JStr (s : string)
| JArr (items : list json)
| JObj (members : list (string * json)).

Definition JStrs (l : list string) : json := JArr (map JStr l).

Definition opt_member {A : Type} (k : string) (f : A -> json) (o : option A)
    : list (string * json) :=
  match o with
  | Some a => [(k, f a)]
  | None => []
  end.

Definition shape_json (d : list (string * string)) : json :=
  JObj (map (fun kv => (fst kv, JStr (snd kv))) d).

Definition spec_json (s : Spec) : json :=
  JObj [ ("title", JStr (spec_title s));
         ("description", JStr (spec_description s));
         ("type", JStr (spec_type s));
         ("tech_stack", JStr (spec_tech_stack s));
         ("mvp_features", JStrs (spec_mvp_features s));
         ("v2_features", JStrs (spec_v2_features s));
         ("target_users", JStr (spec_target_users s));
         ("success_metrics", JStrs (spec_success_metrics s)) ].

Definition story_json (s : Story) : json :=
  JObj [ ("id", JStr (story_id s));
         ("role", JStr (story_role s));
         ("action", JStr (story_action s));
         ("benefit", JStr (story_benefit s));
         ("priority", JStr (story_priority s));
         ("story_points", JInt (story_points s)) ].

Definition criteria_json (d : list (string * CriteriaBlock)) : json :=
  JObj (map (fun kb =>
               (fst kb, JObj [ ("story", JStr (cb_story (snd kb)));
                               ("criteria", JStrs (cb_criteria (snd kb))) ])) d).

Definition req_json (r : TechReq) : json :=
  JObj [ ("category", JStr (req_category r));
         ("requirement", JStr (req_requirement r));
         ("technologies", JStrs (req_technologies r));
         ("priority", JStr (req_priority r)) ].

Definition endpoint_json (e : Endpoint) : json :=
  JObj ([ ("path", JStr (ep_path e));
          ("method", JStr (ep_method e));
          ("description", JStr (ep_description e)) ]
        ++ opt_member "auth" JBool (ep_auth e)
        ++ opt_member "request" shape_json (ep_request e)
        ++ [ ("response", shape_json (ep_response e)) ]).

Definition api_json (a : ApiSpec) : json :=
  JObj [ ("version", JStr (api_version a));
         ("base_url", JStr (api_base_url a));
         ("endpoints", JArr (map endpoint_json (api_endpoints a))) ].

Definition column_json (c : Column) : json :=
  JObj ([ ("name", JStr (col_name c));
          ("type", JStr (col_type c)) ]
        ++ opt_member "primary_key" JBool (col_primary_key c)
        ++ opt_member "unique" JBool (col_unique c)
        ++ opt_member "foreign_key" JStr (col_foreign_key c)).

Definition table_json (t : Table) : json :=
  JObj [ ("name", JStr (tbl_name t));
         ("columns", JArr (map column_json (tbl_columns t))) ].

Definition schema_json (s : DbSchema) : json :=
  JObj [ ("database", JStr (db_database s));
         ("tables", JArr (map table_json (db_tables s))) ].

Definition feature_json (d : FeatureData) : json :=
  JObj [ ("id", JStr (fd_id d));
         ("idea", JStr (fd_idea d));
         ("specification", spec_json (fd_specification d));
         ("user_stories", JArr (map story_json (fd_user_stories d)));
         ("acceptance_criteria", criteria_json (fd_acceptance_criteria d));
         ("technical_requirements",
            JArr (map req_json (fd_technical_requirements d)));
         ("api_specification", api_json (fd_api_specification d));
         ("database_schema", schema_json (fd_database_schema d));
         ("status", JStr (fd_status d));
         ("created_at", JStr (fd_created_at d));
         ("pm_agent", JStr (fd_pm_agent d)) ].

(** The keys of every object are pairwise distinct, as in a dict. *)
Fixpoint distinct (l : list string) : bool :=
  match l with
  | [] => true
  | k :: l' => negb (existsb (String.eqb k) l') && distinct l'
  end.

Fixpoint json_wf (j : json) : bool :=
  match j with
  | JArr l =>
      (fix all (l : list json) : bool :=
         match l with
         | [] => true
         | x :: l' => json_wf x && all l'
         end) l
  | JObj ms =>
      distinct (map fst ms) &&
      (fix all (l : list (string * json)) : bool :=
         match l with
         | [] => true
         | (_, v) :: l' => json_wf v && all l'
         end) ms
  | _ => true
  end.

(** The number of values, items and members of [j]. *)
Fixpoint json_size (j : json) : nat :=
  match j with
  | JArr l =>
      S ((fix sum (l : list json) : nat :=
            match l with
            | [] => 0
            | x :: l' => S (json_size x + sum l')
            end) l)
  | JObj ms =>
      S ((fix sum (l : list (string * json)) : nat :=
            match l with
            | [] => 0
            | (_, v) :: l' => S (json_size v + sum l')
            end) ms)
  | _ => 1
  end.

Definition items_wf : list json -> bool :=
  fix all (l : list json) : bool :=
    match l with
    | [] => true
    | x :: l' => json_wf x && all l'
    end.

Definition members_wf : list (string * json) -> bool :=
  fix all (l : list (string * json)) : bool :=
    match l with
    | [] => true
    | (_, v) :: l' => json_wf v && all l'
    end.

Definition items_size : list json -> nat :=
  fix sum (l : list json) : nat :=
    match l with
    | [] => 0
    | x :: l' => S (json_size x + sum l')
    end.

Definition members_size : list (string * json) -> nat :=
  fix sum (l : list (string * json)) : nat :=
    match l with
    | [] => 0
    | (_, v) :: l' => S (json_size v + sum l')
    end.

(** Induction on JSON values, with the hypothesis for every item and
    member value. *)
Section JsonInduction.
Variable P : json -> Prop.
Hypothesis Hnull : P JNull.
Hypothesis Hbool : forall b, P (JBool b).
Hypothesis Hint : forall z, P (JInt z).
Hypothesis Hstr : forall s, P (JStr s).
Hypothesis Harr : forall l, Forall P l -> P (JArr l).
Hypothesis Hobj : forall ms, Forall (fun kv => P (snd kv)) ms -> P (JObj ms).

Fixpoint json_induction (j : json) : P j :=
  match j with
  | JNull => Hnull
  | JBool b => Hbool b
  | JInt z => Hint z
  | JStr s => Hstr s
  | JArr l =>
      Harr l ((fix all (l : list json) : Forall P l :=
                 match l with
                 | [] => @List.Forall_nil _ P
                 | x :: l' => @List.Forall_cons _ P x l' (json_induction x) (all l')
                 end) l)
  | JObj ms =>
      Hobj ms ((fix all (l : list (string * json))
                  : Forall (fun kv => P (snd kv)) l :=
                  match l with
                  | [] => @List.Forall_nil _ _
                  | kv :: l' =>
                      @List.Forall_cons _ _ kv l' (json_induction (snd kv)) (all l')
                  end) ms)
  end.

End JsonInduction.

(** ** [json.dump(obj, f, indent=2)]

    The encoder of the Python library with its defaults: ASCII-only
    output, [","] between items, [": "] after a key, one item per line,
    two spaces per nesting level, and [[]] / [{}] for empty containers. *)

Module Json.

Definition hex_digit (n : N) : ascii :=
  if (n <? 10)%N then ascii_of_N (48 + n) else ascii_of_N (87 + n).

(** [\u00hh] for a code point below 256. *)
Definition u_escape (n : N) : string :=
  String "\" (String "u" (String "0" (String "0"
    (String (hex_digit (n / 16)) (String (hex_digit (n mod 16)) EmptyString))))).

Definition escape_char (c : ascii) : string :=
  let n := N_of_ascii c in
  if (n =? 34)%N then String "\" (String Py.dquote EmptyString)
  else if (n =? 92)%N then String "\" (String "\" EmptyString)
  else if (n =? 10)%N then String "\" (String "n" EmptyString)
  else if (n =? 13)%N then String "\" (String "r" EmptyString)
  else if (n =? 9)%N then String "\" (String "t" EmptyString)
  else if (n =? 8)%N then String "\" (String "b" EmptyString)
  else if (n =? 12)%N then String "\" (String "f" EmptyString)
  else if ((n <? 32) || (126 <? n))%N then u_escape n
  else String c EmptyString.

Fixpoint escape (s : string) : string :=
  match s with
  | EmptyString => EmptyString
  | String c s' => escape_char c +:+ escape s'
  end.

Definition encode_string (s : string) : string :=
  String Py.dquote (escape s +:+ String Py.dquote EmptyString).

Fixpoint spaces (k : nat) : string :=
  match k with
  | O => EmptyString
  | S k' => String " " (spaces k')
  end.

(** A newline and the indentation of nesting level [level]. *)
Definition newline_indent (level : nat) : string :=
  String Py.nl (spaces (2 * level)).

Fixpoint encode (level : nat) (j : json) : string :=
  match j with
  | JNull => "null"
  | JBool true => "true"
  | JBool false => "false"
  | JInt z => Py.str_int z
  | JStr s => encode_string s
  | JArr [] => "[]"
  | JArr (x :: xs) =>
      "[" +:+ newline_indent (S level) +:+ encode (S level) x +:+
      (fix rest (l : list json) : string :=
         match l with
         | [] => EmptyString
         | y :: l' =>
             "," +:+ newline_indent (S level) +:+ encode (S level) y +:+ rest l'
         end) xs +:+
      newline_indent level +:+ "]"
  | JObj [] => "{}"
  | JObj ((k, v) :: ms) =>
      "{" +:+ newline_indent (S level) +:+ encode_string k +:+ ": " +:+
      encode (S level) v +:+
      (fix rest (l : list (string * json)) : string :=
         match l with
         | [] => EmptyString
         | (k', v') :: l' =>
             "," +:+ newline_indent (S level) +:+ encode_string k' +:+ ": " +:+
             encode (S level) v' +:+ rest l'
         end) ms +:+
      newline_indent level +:+ "}"
  end.

(** The two inner loops of [encode], named: the items and the members
    after the first one. *)
Definition encode_items (level : nat) : list json -> string :=
  fix rest (l : list json) : string :=
    match l with
    | [] => EmptyString
    | y :: l' =>
        "," +:+ newline_indent (S level) +:+ encode (S level) y +:+ rest l'
    end.

Definition encode_members (level : nat) : list (string * json) -> string :=
  fix rest (l : list (string * json)) : string :=
    match l with
    | [] => EmptyString
    | (k', v') :: l' =>
        "," +:+ newline_indent (S level) +:+ encode_string k' +:+ ": " +:+
        encode (S level) v' +:+ rest l'
    end.

Definition dumps (j : json) : string := encode 0 j.

(** ** Reading the file back: a JSON reader

    The source never reads its files; this is the reader a consumer of
    [feature_spec.json] runs ([json.load]): the JSON grammar with
    whitespace between tokens, string escapes, integers, and objects
    built as dicts (a repeated key keeps its first position and its last
    value).  Code points of 256 and more and fractional numbers are
    outside the model and rejected. *)

Definition is_ws (c : ascii) : bool :=
  let n := N_of_ascii c in ((n =? 32) || (n =? 9) || (n =? 10) || (n =? 13))%N.

Fixpoint skip_ws (s : string) : string :=
  match s with
  | EmptyString => EmptyString
  | String c s' => if is_ws c then skip_ws s' else s
  end.

Definition hex_value (c : ascii) : option N :=
  let n := N_of_ascii c in
  if ((48 <=? n) && (n <=? 57))%N then Some (n - 48)%N
  else if ((97 <=? n) && (n <=? 102))%N then Some (n - 87)%N
  else if ((65 <=? n) && (n <=? 70))%N then Some (n - 55)%N
  else None.

Definition hex4 (a b c d : ascii) : option N :=
  x1 ← hex_value a; x2 ← hex_value b; x3 ← hex_value c; x4 ← hex_value d;
  Some (((x1 * 16 + x2) * 16 + x3) * 16 + x4)%N.

(** The body of a string literal, after its opening quote. *)
Fixpoint parse_string (s : string) : option (string * string) :=
  match s with
  | EmptyString => None
  | String c s' =>
      if Ascii.eqb c Py.dquote then Some (EmptyString, s')
      else if Ascii.eqb c "\" then
        match s' with
        | String "u" (String h1 (String h2 (String h3 (String h4 s4)))) =>
            n ← hex4 h1 h2 h3 h4;
            if (n <? 256)%N then
              '(t, r) ← parse_string s4; Some (String (ascii_of_N n) t, r)
            else None
        | String e s'' =>
            ch ← (if Ascii.eqb e Py.dquote then Some Py.dquote
                  else if Ascii.eqb e "\" then Some "\"%char
                  else if Ascii.eqb e "/" then Some "/"%char
                  else if Ascii.eqb e "b" then Some "008"%char
                  else if Ascii.eqb e "f" then Some "012"%char
                  else if Ascii.eqb e "n" then Some "010"%char
                  else if Ascii.eqb e "r" then Some "013"%char
                  else if Ascii.eqb e "t" then Some "009"%char
                  else None);
            '(t, r) ← parse_string s''; Some (String ch t, r)
        | EmptyString => None
        end
      else if (N_of_ascii c <? 32)%N then None
      else '(t, r) ← parse_string s'; Some (String c t, r)
  end.

Definition digit_of (c : ascii) : option (uint -> uint) :=
  match c with
  | "0" => Some D0 | "1" => Some D1 | "2" => Some D2 | "3" => Some D3
  | "4" => Some D4 | "5" => Some D5 | "6" => Some D6 | "7" => Some D7
  | "8" => Some D8 | "9" => Some D9 | _ => None
  end%char.

(** The longest run of decimal digits at the head of [s]. *)
Fixpoint read_digits (s : string) : uint * string :=
  match s with
  | EmptyString => (Nil, EmptyString)
  | String c s' =>
      match digit_of c with
      | Some d => let '(u, r) := read_digits s' in (d u, r)
      | None => (Nil, s)
      end
  end.

Definition starts_fraction (s : string) : bool :=
  match s with
  | String c _ => Ascii.eqb c "." || Ascii.eqb c "e" || Ascii.eqb c "E"
  | EmptyString => false
  end.

(** An unsigned integer literal: [0], or a digit run without leading zero. *)
Definition parse_uint (s : string) : option (uint * string) :=
  match s with
  | String "0" s' => if starts_fraction s' then None else Some (D0 Nil, s')
  | _ =>
      match read_digits s with
      | (Nil, _) => None
      | (u, r) => if starts_fraction r then None else Some (u, r)
      end
  end.

Definition parse_number (s : string) : option (json * string) :=
  match s with
  | String "-" s' =>
      '(u, r) ← parse_uint s'; Some (JInt (Z.of_int (Neg u)), r)
  | _ => '(u, r) ← parse_uint s; Some (JInt (Z.of_int (Pos u)), r)
  end.

(** [s] without the prefix [word], when it starts with it. *)
Fixpoint strip_prefix (word s : string) : option string :=
  match word with
  | EmptyString => Some s
  | String c word' =>
      match s with
      | String d s' => if Ascii.eqb c d then strip_prefix word' s' else None
      | EmptyString => None
      end
  end.

Definition parse_literal (word : string) (v : json) (s : string)
    : option (json * string) :=
  r ← strip_prefix word s; Some (v, r).

(** [dict(pairs)]: later pairs override earlier ones. *)
Definition dict_of_pairs (l : list (string * json)) : list (string * json) :=
  fold_left (fun d kv => dict_set (fst kv) (snd kv) d) l [].

(** One unit of fuel per value, per item and per member. *)
Fixpoint parse_value (fuel : nat) (s : string) : option (json * string) :=
  match fuel with
  | O => None
  | S fuel =>
      match s with
      | String "n" _ => parse_literal "null" JNull s
      | String "t" _ => parse_literal "true" (JBool true) s
      | String "f" _ => parse_literal "false" (JBool false) s
      | String "034" s' => '(t, r) ← parse_string s'; Some (JStr t, r)
      | String "[" s' =>
          match skip_ws s' with
          | String c r =>
              if Ascii.eqb c "]" then Some (JArr [], r)
              else '(l, r') ← parse_items fuel (String c r); Some (JArr l, r')
          | EmptyString => None
          end
      | String "{" s' =>
          match skip_ws s' with
          | String c r =>
              if Ascii.eqb c "}" then Some (JObj [], r)
              else '(l, r') ← parse_members fuel (String c r);
                   Some (JObj (dict_of_pairs l), r')
          | EmptyString => None
          end
      | _ => parse_number s
      end
  end
with parse_items (fuel : nat) (s : string) : option (list json * string) :=
  match fuel with
  | O => None
  | S fuel =>
      '(v, r) ← parse_value fuel s;
      match skip_ws r with
      | String "," r' =>
          '(l, r'') ← parse_items fuel (skip_ws r'); Some (v :: l, r'')
      | String "]" r' => Some ([v], r')
      | _ => None
      end
  end
with parse_members (fuel : nat) (s : string)
    : option (list (string * json) * string) :=
  match fuel with
  | O => None
  | S fuel =>
      match s with
      | String "034" s' =>
          '(k, r) ← parse_string s';
          match skip_ws r with
          | String ":" r' =>
              '(v, r'') ← parse_value fuel (skip_ws r');
              match skip_ws r'' with
              | String "," r3 =>
                  '(l, r4) ← parse_members fuel (skip_ws r3);
                  Some ((k, v) :: l, r4)
              | String "}" r3 => Some ([(k, v)], r3)
              | _ => None
              end
          | _ => None
          end
      | _ => None
      end
  end.

(** [json.loads(s)]: one value, surrounded by optional whitespace. *)
Definition loads (s : string) : option json :=
  '(v, r) ← parse_value (String.length s) (skip_ws s);
  match skip_ws r with
  | EmptyString => Some v
  | _ => None
  end.

End Json.

(** ** The file system

    A directory maps entry names to nodes; the content of a file is its
    text as Python reads it (newlines translated).  A regular file whose
    bytes are not text in the encoding of [open] is [NBinary]: reading it
    raises [UnicodeDecodeError], writing it anew makes it a text file.
    The artifact root is the directory [projects]; the agent creates it
    when it starts.  Permissions and the space left on the device are
    not part of the tree. *)

#[warnings="-register-all"]
Inductive node : Type :=
| NFile (content : string)
| NDir (entries : gmap string node)
| NBinary.

(** [Path.glob("feat_*")]: the entries, files and directories alike, whose
    name starts with [feat_]. *)
Definition is_feat (name : string) : bool := String.prefix "feat_" name.

Definition glob_feat (root : gmap string node) : list string :=
  filter (fun name => is_feat name = true) (map fst (map_to_list root)).

(** [Path.mkdir(exist_ok=True)]: nothing to do on a directory, an error on
    a file of that name. *)
Definition mkdir_exist_ok (root : gmap string node) (name : string)
    : option (gmap string node) :=
  match root !! name with
  | None => Some (<[name := NDir ∅]> root)
  | Some (NDir _) => Some root
  | Some (NFile _) => None
  | Some NBinary => None
  end.

(** [open(dir / name, 'w')] followed by one write: an error when [name]
    is a directory. *)
Definition write_file (dir : gmap string node) (name content : string)
    : option (gmap string node) :=
  match dir !! name with
  | Some (NDir _) => None
  | _ => Some (<[name := NFile content]> dir)
  end.

(** ** Configuration *)

Definition credential_keys : list string :=
  [ "OPENAI_API_KEY"; "ANTHROPIC_API_KEY" ].

(** The body of the loop over the lines of the file.  The unpacking of
    [split('=', 1)] into two names raises when there is one part only. *)
Definition config_line (config : gmap string string) (line : string)
    : option (gmap string string) :=
  if Py.str_in "=" line && negb (Py.startswith line "#") then
    match Py.split1 "=" (Py.strip line) with
    | (key, Some value) => Some (<[key := Py.strip_char Py.dquote value]> config)
    | (_, None) => None
    end
  else Some config.

Fixpoint config_lines (config : gmap string string) (lines : list string)
    : option (gmap string string) :=
  match lines with
  | [] => Some config
  | line :: lines' =>
      config' ← config_line config line; config_lines config' lines'
  end.

(** The overlay of the environment: [os.environ.get(key)] is tested for
    truth, so a variable set to the empty string is passed over. *)
Definition config_env (environ : gmap string string)
    (config : gmap string string) (key : string) : gmap string string :=
  match environ !! key with
  | Some v => if Py.nonempty v then <[key := v]> config else config
  | None => config
  end.

(** [at_path] is what the file system has at [path]: nothing, a file or a
    directory ([os.path.exists] holds of both; [open] fails on the
    second, and iterating over the lines fails on a file that is not
    text). *)
Definition _load_config (at_path : option node) (environ : gmap string string)
    : option (gmap string string) :=
  config ← match at_path with
           | None => Some ∅
           | Some (NFile text) => config_lines ∅ (Py.readlines text)
           | Some (NDir _) => None
           | Some NBinary => None
           end;
  Some (fold_left (config_env environ) credential_keys config).

(** ** Feature identifiers *)

Definition _generate_feature_id (root : gmap string node) (now : datetime)
    : string :=
  let timestamp := strftime_Ymd now in
  let existing := length (glob_feat root) in
  "feat_" +:+ timestamp +:+ "_" +:+ Py.fmt_0d 4 (existing + 1).

(** ** Persistence *)

Definition _save_feature (root : gmap string node) (feature_id : string)
    (feature_data : FeatureData) : option (gmap string node) :=
  match root !! feature_id with
  | Some (NDir dir) =>
      dir ← write_file dir "feature_spec.json"
              (Json.dumps (feature_json feature_data));
      dir ← write_file dir "README.md" (_generate_readme feature_data);
      Some (<[feature_id := NDir dir]> root)
  | _ => None
  end.

(** ** The pipeline

    [now_id] and [now_created] are the two readings of the clock, [r] the
    draw of [random.choice].  This is the method for its value and its
    effect on the tree, on streams that take every character: the
    progress lines it prints and the encodings of standard output and of
    the files are put back in [generate_feature_io] below. *)
Definition generate_feature (root : gmap string node)
    (now_id now_created : datetime) (r : nat)
    (project_idea : string) (tech_stack : option string)
    : option (FeatureData * gmap string node) :=
  let feature_id := _generate_feature_id root now_id in
  root ← mkdir_exist_ok root feature_id;
  let spec := _create_feature_spec r project_idea tech_stack in
  let stories := _generate_user_stories spec in
  let criteria := _generate_acceptance_criteria spec stories in
  let tech_reqs := _generate_technical_requirements spec tech_stack in
  let api_spec := _generate_api_spec spec in
  let db_schema := _generate_database_schema spec in
  let feature_data :=
    {| fd_id := feature_id;
       fd_idea := project_idea;
       fd_specification := spec;
       fd_user_stories := stories;
       fd_acceptance_criteria := criteria;
       fd_technical_requirements := tech_reqs;
       fd_api_specification := api_spec;
       fd_database_schema := db_schema;
       fd_status := "spec_ready";
       fd_created_at := isoformat now_created;
       fd_pm_agent := "v1.0" |} in
  root ← _save_feature root feature_id feature_data;
  Some (feature_data, root).

(** A run of the pipeline: one [generate_feature] per request, each on the
    tree the previous one left. *)
Record request := mkRequest {
  rq_now_id : datetime;
  rq_now_created : datetime;
  rq_draw : nat;
  rq_idea : string;
  rq_tech_stack : option string
}.

Fixpoint run (root : gmap string node) (reqs : list request)
    : option (list FeatureData * gmap string node) :=
  match reqs with
  | [] => Some ([], root)
  | q :: reqs' =>
      '(d, root') ← generate_feature root (rq_now_id q) (rq_now_created q)
                      (rq_draw q) (rq_idea q) (rq_tech_stack q);
      '(ds, root'') ← run root' reqs';
      Some (d :: ds, root'')
  end.

(** ** Vocabulary of the properties *)

(** [word] occurs in [text] whatever the letter case: a substring of
    [text] lower-cases to [word]. *)
Definition mentions (word text : string) : Prop :=
  exists a m b, text = a +:+ m +:+ b /\ Py.lower m = word.

Definition trigger_words : list string := [ "account"; "manage"; "analytics" ].

(** The trigger words a text matches, as the criteria generator tests them. *)
Definition matched_triggers (text : string) : list string :=
  filter (fun w => Py.str_in w (Py.lower text) = true) trigger_words.

(** The three checks of the criteria generator as (trigger, checklist)
    pairs, and the selection they make when tried in a given order. *)
Definition rules : list (string * list string) :=
  [ ("account", auth_checklist);
    ("manage", crud_checklist);
    ("analytics", dashboard_checklist) ].

Fixpoint first_match (order : list (string * list string)) (action : string)
    : list string :=
  match order with
  | [] => generic_checklist
  | (w, checklist) :: order' =>
      if Py.str_in w (Py.lower action) then checklist
      else first_match order' action
  end.

(** The loop body of [_generate_acceptance_criteria], named. *)
Definition criteria_step (criteria : list (string * CriteriaBlock))
    (story : Story) : list (string * CriteriaBlock) :=
  dict_set (story_id story)
    {| cb_story := story_action story; cb_criteria := story_criteria story |}
    criteria.

(** The stories and the criteria the pipeline derives from an idea. *)
Definition stories_of (r : nat) (idea : string) (tech_stack : option string)
    : list Story :=
  _generate_user_stories (_create_feature_spec r idea tech_stack).

Definition criteria_of (r : nat) (idea : string) (tech_stack : option string)
    : list (string * CriteriaBlock) :=
  _generate_acceptance_criteria (_create_feature_spec r idea tech_stack)
    (stories_of r idea tech_stack).

Definition is_dir (o : option node) : bool :=
  match o with
  | Some (NDir _) => true
  | _ => false
  end.

(** The tree lets [generate_feature] create or reuse the directory [name]
    and write its two files. *)
Definition writable (root : gmap string node) (name : string) : bool :=
  match root !! name with
  | None => true
  | Some (NDir dir) =>
      negb (is_dir (dir !! "feature_spec.json")) && negb (is_dir (dir !! "README.md"))
  | Some (NFile _) => false
  | Some NBinary => false
  end.

(** The content of the file [file] of the directory [name] of the root. *)
Definition file_at (root : gmap string node) (name file : string)
    : option string :=
  match root !! name with
  | Some (NDir dir) =>
      match dir !! file with
      | Some (NFile text) => Some text
      | _ => None
      end
  | _ => None
  end.

(** Reading an unsigned decimal back, leading zeros allowed. *)
Definition nat_of_string (s : string) : option nat :=
  option_map (fun d => N.to_nat (N.of_uint d)) (NilEmpty.uint_of_string s).

(** [p] holds of the [k] numbers from [x] on. *)
Fixpoint all_from (k : nat) (x : N) (p : N -> bool) : bool :=
  match k with
  | O => true
  | S k' => p x && all_from k' (N.succ x) p
  end.

Fixpoint all_digits (s : string) : bool :=
  match s with
  | EmptyString => true
  | String c s' =>
      match Json.digit_of c with
      | Some _ => all_digits s'
      | None => false
      end
  end.

(** Sample inputs for the concrete checks. *)
Definition sample_now : datetime := mkDatetime 2026 1 15 9 30 0 0.
Definition later_now : datetime := mkDatetime 2027 3 1 0 0 0 0.
Definition sample_idea : string := "Task management app".
Definition sample_spec : Spec := _create_feature_spec 0 sample_idea None.

Definition story_us002 : Story :=
  mkStory "US-002" "As a user" "I want to create an account"
    "So that I can save my data" "high" 5.

Definition story_us003 : Story :=
  mkStory "US-003" "As a user" "I want to manage my content"
    "So that I can organize my work" "high" 5.

(** An environment where OPENAI_API_KEY is set to the empty string, and
    one where it has a value. *)
Definition empty_key_environ : gmap string string :=
  {[ "OPENAI_API_KEY" := EmptyString ]}.
Definition set_key_environ : gmap string string :=
  {[ "OPENAI_API_KEY" := "sk-env" ]}.

(** [spec] with its category replaced by [ty]. *)
Definition with_type (ty : string) (spec : Spec) : Spec :=
  {| spec_title := spec_title spec;
     spec_description := spec_description spec;
     spec_type := ty;
     spec_tech_stack := spec_tech_stack spec;
     spec_mvp_features := spec_mvp_features spec;
     spec_v2_features := spec_v2_features spec;
     spec_target_users := spec_target_users spec;
     spec_success_metrics := spec_success_metrics spec |}.

(** [d] with the category of its specification replaced by [ty]. *)
Definition with_category (ty : string) (d : FeatureData) : FeatureData :=
  {| fd_id := fd_id d;
     fd_idea := fd_idea d;
     fd_specification := with_type ty (fd_specification d);
     fd_user_stories := fd_user_stories d;
     fd_acceptance_criteria := fd_acceptance_criteria d;
     fd_technical_requirements := fd_technical_requirements d;
     fd_api_specification := fd_api_specification d;
     fd_database_schema := fd_database_schema d;
     fd_status := fd_status d;
     fd_created_at := fd_created_at d;
     fd_pm_agent := fd_pm_agent d |}.

(** The value of an environment variable that is set and not empty. *)
Definition env_value (environ : gmap string string) (key : string)
    : option string :=
  match environ !! key with
  | Some v => if Py.nonempty v then Some v else None
  | None => None
  end.

(** The credential a loaded configuration must show for [key]: the
    variable of the environment when [key] is a credential key with a
    non-empty value there, else what the file gave. *)
Definition overlaid (environ file_config : gmap string string) (key : string)
    : option string :=
  if bool_decide (key ∈ credential_keys) then
    match env_value environ key with
    | Some v => Some v
    | None => file_config !! key
    end
  else file_config !! key.

(** The identifier with date [now] and sequence number [n], and the
    sequence number read back from an identifier of a valid date. *)
Definition feature_id_text (now : datetime) (n : nat) : string :=
  "feat_" +:+ strftime_Ymd now +:+ "_" +:+ Py.fmt_0d 4 n.

Definition feature_seq (id : string) : option nat :=
  nat_of_string (String.substring 14 (String.length id - 14) id).

(** The identifiers a run allocates when [c] entries match [feat_*] at
    its start and every request creates its directory. *)
Fixpoint expected_ids (c : nat) (reqs : list request) : list string :=
  match reqs with
  | [] => []
  | q :: reqs' => feature_id_text (rq_now_id q) (c + 1) :: expected_ids (c + 1) reqs'
  end.

(** Every entry matching [feat_*] is an identifier of a sequence number
    not above the number of such entries. *)
Definition numbered (root : gmap string node) : Prop :=
  forall name, is_Some (root !! name) -> is_feat name = true ->
    exists ts k, String.length ts = 8 /\ k <= length (glob_feat root) /\
                 name = "feat_" +:+ ts +:+ "_" +:+ Py.fmt_0d 4 k.

Definition sample_request : request :=
  mkRequest sample_now sample_now 0 sample_idea None.

(** Three requests, the second on a later day than the third. *)
Definition sample_requests : list request :=
  [ sample_request; mkRequest later_now later_now 1 "Shop" None;
    mkRequest sample_now later_now 2 "Blog" (Some "Go") ].

(** A root with one entry, left over under the number 2. *)
Definition leftover_root : gmap string node :=
  {[ "feat_20260115_0002" := NDir ∅ ]}.

(** A root with 9999 entries that match [feat_*]. *)
Definition crowded_entries (n : nat) : list (string * node) :=
  map (fun i => ("feat_" +:+ Py.str_nat i, NFile EmptyString)) (seq 0 n).

Definition crowded_root : gmap string node :=
  list_to_map (crowded_entries (9 * 1111)).

(** What the encoder writes after a value: nothing, a comma or a newline. *)
Definition value_end (rest : string) : bool :=
  match rest with
  | EmptyString => true
  | String c _ => Ascii.eqb c "," || Ascii.eqb c Py.nl
  end.

(** The reader returns [j] from the text the encoder wrote for it, with
    fuel for the size of [j], whatever follows the value. *)
Definition reads_back (j : json) : Prop :=
  forall level fuel rest,
    json_wf j = true -> json_size j <= fuel -> value_end rest = true ->
    Json.parse_value fuel (Json.encode level j +:+ rest) = Some (j, rest).


(** ** The agent and the command line *)

(** What the file system has at a relative path: [os.path.exists] holds
    when this is [Some]; a file in the place of a directory on the way
    makes the path absent. *)
Fixpoint lookup_path (dir : gmap string node) (path : list string)
    : option node :=
  match path with
  | [] => Some (NDir dir)
  | name :: path' =>
      match path' with
      | [] => dir !! name
      | _ =>
          match dir !! name with
          | Some (NDir d) => lookup_path d path'
          | _ => None
          end
      end
  end.

Definition default_config_path : list string := [ "config"; ".env" ].

(** [PMAgent.__init__]: the configuration is loaded, then the directory
    [projects] is created in the working directory when it is missing.
    The result is the configuration of the agent and the working
    directory it leaves. *)
Definition __init__ (cwd : gmap string node) (environ : gmap string string)
    (config_path : list string)
    : option (gmap string string * gmap string node) :=
  config ← _load_config (lookup_path cwd config_path) environ;
  cwd ← mkdir_exist_ok cwd "projects";
  Some (config, cwd).

(** A method of the agent works in [projects], a path relative to the
    working directory; every operation there fails when [projects] is
    not a directory. *)
Definition in_projects {A : Type} (cwd : gmap string node)
    (f : gmap string node -> option (A * gmap string node))
    : option (A * gmap string node) :=
  match cwd !! "projects" with
  | Some (NDir root) =>
      '(a, root') ← f root; Some (a, <["projects" := NDir root']> cwd)
  | _ => None
  end.

(** The three numbers of the closing progress lines of
    [generate_feature]: [len(stories)], the sum of [len(s['criteria'])]
    over the values of the criteria, and [len(tech_reqs)]. *)
Definition reported_counts (d : FeatureData) : nat * nat * nat :=
  (length (fd_user_stories d),
   list_sum (map (fun kb => length (cb_criteria (snd kb)))
                 (fd_acceptance_criteria d)),
   length (fd_technical_requirements d)).

(** ** Standard output and the encodings

    What is written to a stream is a sequence of code points: the
    characters of a string, below 256, and the emoji of the progress
    lines, which are beyond.  A stream is given by the code points its
    encoding takes (with its error handler: one that replaces takes them
    all); writing a code point the stream does not take raises
    [UnicodeEncodeError].  [stdout_takes] is [sys.stdout], [file_takes]
    the encoding of the locale, in which [open(path, 'w')] writes. *)

Definition codes (s : string) : list N :=
  map N_of_ascii (list_ascii_of_string s).

Record streams := mkStreams {
  stdout_takes : N -> bool;
  file_takes : N -> bool
}.

(** [print(line)] after the lines [out]: the line and its newline. *)
Definition print (st : streams) (out : list (list N)) (line : list N)
    : option (list (list N)) :=
  if forallb (stdout_takes st) (line ++ [10%N]) then Some (out ++ [line])
  else None.

(** [open(dir / name, 'w')] and the write of [content]. *)
Definition write_text (st : streams) (dir : gmap string node)
    (name content : string) : option (gmap string node) :=
  dir ← write_file dir name content;
  if forallb (file_takes st) (codes content) then Some dir else None.

(** The emoji of the progress lines: U+1F3AF, U+2705, U+1F4CB, U+1F527,
    U+1F4C1 and U+1F4C4. *)
Definition emoji_target : N := 127919.
Definition emoji_check : N := 9989.
Definition emoji_clipboard : N := 128203.
Definition emoji_wrench : N := 128295.
Definition emoji_folder : N := 128193.
Definition emoji_page : N := 128196.

(** [_save_feature] with the encoding of its two files. *)
Definition _save_feature_io (st : streams) (root : gmap string node)
    (feature_id : string) (feature_data : FeatureData)
    : option (gmap string node) :=
  match root !! feature_id with
  | Some (NDir dir) =>
      dir ← write_text st dir "feature_spec.json"
              (Json.dumps (feature_json feature_data));
      dir ← write_text st dir "README.md" (_generate_readme feature_data);
      Some (<[feature_id := NDir dir]> root)
  | _ => None
  end.

(** [generate_feature] as a whole: the method with its six progress
    lines, printed after the lines [out], and the encoding of its files.
    It returns the record, what standard output holds and the tree. *)
Definition generate_feature_io (st : streams) (out : list (list N))
    (root : gmap string node) (now_id now_created : datetime) (r : nat)
    (project_idea : string) (tech_stack : option string)
    : option (FeatureData * list (list N) * gmap string node) :=
  let feature_id := _generate_feature_id root now_id in
  root ← mkdir_exist_ok root feature_id;
  out ← print st out
          (emoji_target :: codes " PM Agent: Analyzing feature idea...");
  out ← print st out (codes ("   Idea: " +:+ project_idea));
  let spec := _create_feature_spec r project_idea tech_stack in
  let stories := _generate_user_stories spec in
  let criteria := _generate_acceptance_criteria spec stories in
  let tech_reqs := _generate_technical_requirements spec tech_stack in
  let api_spec := _generate_api_spec spec in
  let db_schema := _generate_database_schema spec in
  let feature_data :=
    {| fd_id := feature_id;
       fd_idea := project_idea;
       fd_specification := spec;
       fd_user_stories := stories;
       fd_acceptance_criteria := criteria;
       fd_technical_requirements := tech_reqs;
       fd_api_specification := api_spec;
       fd_database_schema := db_schema;
       fd_status := "spec_ready";
       fd_created_at := isoformat now_created;
       fd_pm_agent := "v1.0" |} in
  root ← _save_feature_io st root feature_id feature_data;
  out ← print st out
          (emoji_check ::
           codes (" PM Agent: Feature " +:+ feature_id +:+ " specified"));
  out ← print st out
          (codes "   " ++ emoji_clipboard ::
           codes (" " +:+ Py.str_nat (length stories) +:+ " user stories"));
  out ← print st out
          (codes "   " ++ emoji_check ::
           codes (" " +:+
                  Py.str_nat
                    (list_sum (map (fun kb => length (cb_criteria (snd kb)))
                                   criteria)) +:+
                  " acceptance criteria"));
  out ← print st out
          (codes "   " ++ emoji_wrench ::
           codes (" " +:+ Py.str_nat (length tech_reqs) +:+
                  " technical requirements"));
  Some (feature_data, out, root).

(** How the script ends: [sys.exit(1)] after the usage lines, an
    exception, or the end of the script with the record it made; and
    what standard output holds then. *)
Inductive outcome : Type :=
| Usage (status : Z) (printed : list (list N))
| Raised
| Finished (feature : FeatureData) (cwd : gmap string node)
    (printed : list (list N)).

Definition usage_lines : list string :=
  [ "Usage: python3 pm_agent.py 'Your feature idea' [tech_stack]";
    "Example: python3 pm_agent.py 'Task management app' 'React, Node.js'" ].

(** The script body under [if __name__ == "__main__"], for the argument
    vector [argv] (the script name first). *)
Definition main (st : streams) (argv : list string) (cwd : gmap string node)
    (environ : gmap string string) (now_id now_created : datetime) (r : nat)
    : outcome :=
  if length argv <? 2 then
    match
      out ← print st []
              (codes "Usage: python3 pm_agent.py 'Your feature idea' [tech_stack]");
      print st out
        (codes "Example: python3 pm_agent.py 'Task management app' 'React, Node.js'")
    with
    | Some out => Usage 1 out
    | None => Raised
    end
  else
    let idea := nth 1 argv EmptyString in
    let tech_stack := if 2 <? length argv then Some (nth 2 argv EmptyString)
                      else None in
    match
      '(config, cwd) ← __init__ cwd environ default_config_path;
      '(feature, out, cwd) ←
        in_projects cwd
          (fun root =>
             generate_feature_io st [] root now_id now_created r idea tech_stack);
      out ← print st out
              (10%N :: emoji_folder ::
               codes (" Feature saved to: projects/" +:+ fd_id feature +:+ "/"));
      out ← print st out
              (emoji_page ::
               codes (" View spec: projects/" +:+ fd_id feature +:+ "/README.md"));
      Some (feature, cwd, out)
    with
    | Some (feature, cwd, out) => Finished feature cwd out
    | None => Raised
    end.

(** ** Vocabulary of the further properties *)

(** [text] is empty or ends with a newline: it is made of whole lines. *)
Definition whole_lines (text : string) : Prop :=
  text = EmptyString \/ exists t, text = t +:+ nls.

(** [d] with the tech stack of its specification replaced by [ts]. *)
Definition with_tech_stack (ts : string) (d : FeatureData) : FeatureData :=
  {| fd_id := fd_id d;
     fd_idea := fd_idea d;
     fd_specification :=
       {| spec_title := spec_title (fd_specification d);
          spec_description := spec_description (fd_specification d);
          spec_type := spec_type (fd_specification d);
          spec_tech_stack := ts;
          spec_mvp_features := spec_mvp_features (fd_specification d);
          spec_v2_features := spec_v2_features (fd_specification d);
          spec_target_users := spec_target_users (fd_specification d);
          spec_success_metrics := spec_success_metrics (fd_specification d) |};
     fd_user_stories := fd_user_stories d;
     fd_acceptance_criteria := fd_acceptance_criteria d;
     fd_technical_requirements := fd_technical_requirements d;
     fd_api_specification := fd_api_specification d;
     fd_database_schema := fd_database_schema d;
     fd_status := fd_status d;
     fd_created_at := fd_created_at d;
     fd_pm_agent := fd_pm_agent d |}.

(** [part] occurs in [text]. *)
Definition occurs (part text : string) : Prop :=
  exists a b, text = a +:+ part +:+ b.

(** A newline or a printable ASCII character, and the texts made of
    such characters. *)
Definition plain_char (c : ascii) : bool :=
  let n := N_of_ascii c in
  ((n =? 10) || (32 <=? n) && (n <=? 126))%N.

Fixpoint plain_ascii (s : string) : bool :=
  match s with
  | EmptyString => true
  | String c s' => plain_char c && plain_ascii s'
  end.

(** The block the criteria generator files under the id of [story]. *)
Definition block_of (story : Story) : CriteriaBlock :=
  {| cb_story := story_action story; cb_criteria := story_criteria story |}.

(** The entries of the directory [name] of the root, none when there is
    no such directory. *)
Definition dir_at (root : gmap string node) (name : string)
    : gmap string node :=
  match root !! name with
  | Some (NDir dir) => dir
  | _ => ∅
  end.

(** The directory [dir] after [_save_feature] wrote the two files of [d]. *)
Definition saved_dir (d : FeatureData) (dir : gmap string node)
    : gmap string node :=
  <["README.md" := NFile (_generate_readme d)]>
    (<["feature_spec.json" := NFile (Json.dumps (feature_json d))]> dir).

(** The record of the sample idea on an empty root. *)
Definition sample_feature : FeatureData :=
  let spec := sample_spec in
  let stories := _generate_user_stories spec in
  {| fd_id := "feat_20260115_0001";
     fd_idea := sample_idea;
     fd_specification := spec;
     fd_user_stories := stories;
     fd_acceptance_criteria := _generate_acceptance_criteria spec stories;
     fd_technical_requirements := _generate_technical_requirements spec None;
     fd_api_specification := _generate_api_spec spec;
     fd_database_schema := _generate_database_schema spec;
     fd_status := "spec_ready";
     fd_created_at := isoformat sample_now;
     fd_pm_agent := "v1.0" |}.

(** The record a finished script made. *)
Definition record_of (o : outcome) : option FeatureData :=
  match o with
  | Finished feature _ _ => Some feature
  | _ => None
  end.

(** The idea and the tech stack the script takes from its arguments. *)
Definition idea_of (argv : list string) : string := nth 1 argv EmptyString.
Definition tech_stack_of (argv : list string) : option string :=
  if 2 <? length argv then Some (nth 2 argv EmptyString) else None.

(** [part] is a run of whole lines of [text]: it starts the text or
    follows a newline, and it ends with a newline. *)
Definition ends_newline (s : string) : Prop := exists t, s = t +:+ nls.

Definition lines_of (part text : string) : Prop :=
  exists before after,
    text = before +:+ part +:+ after
    /\ whole_lines before /\ ends_newline part.

(** The stream takes every line of [lines] with its newline. *)
Definition takes_lines (takes : N -> bool) (lines : list (list N)) : bool :=
  forallb (fun line => forallb takes (line ++ [10%N])) lines.

(** The six progress lines of [generate_feature] for the record [d] it
    builds, and the two lines that close the script. *)
Definition progress_lines (d : FeatureData) : list (list N) :=
  [ emoji_target :: codes " PM Agent: Analyzing feature idea...";
    codes ("   Idea: " +:+ fd_idea d);
    emoji_check :: codes (" PM Agent: Feature " +:+ fd_id d +:+ " specified");
    codes "   " ++ emoji_clipboard ::
      codes (" " +:+ Py.str_nat (fst (fst (reported_counts d))) +:+
             " user stories");
    codes "   " ++ emoji_check ::
      codes (" " +:+ Py.str_nat (snd (fst (reported_counts d))) +:+
             " acceptance criteria");
    codes "   " ++ emoji_wrench ::
      codes (" " +:+ Py.str_nat (snd (reported_counts d)) +:+
             " technical requirements") ].

Definition closing_lines (d : FeatureData) : list (list N) :=
  [ 10%N :: emoji_folder ::
      codes (" Feature saved to: projects/" +:+ fd_id d +:+ "/");
    emoji_page :: codes (" View spec: projects/" +:+ fd_id d +:+ "/README.md") ].

(** The encoding of the files takes the two texts written for [d]. *)
Definition takes_files (st : streams) (d : FeatureData) : bool :=
  forallb (file_takes st) (codes (Json.dumps (feature_json d))) &&
  forallb (file_takes st) (codes (_generate_readme d)).

(** The loader can read what is at the path of the configuration:
    nothing, or a file of text. *)
Definition loads (o : option node) : bool :=
  match o with
  | None | Some (NFile _) => true
  | _ => false
  end.

(** A stream that takes every character of a string, and the streams
    that take those and the six emoji. *)
Definition takes_text (takes : N -> bool) : Prop :=
  forall n, (n < 256)%N -> takes n = true.

Definition emoji : list N :=
  [ emoji_target; emoji_check; emoji_clipboard; emoji_wrench;
    emoji_folder; emoji_page ].

Definition takes_all (st : streams) : Prop :=
  takes_text (stdout_takes st) /\ forallb (stdout_takes st) emoji = true
  /\ takes_text (file_takes st).

(** UTF-8 on both streams, and ASCII on standard output. *)
Definition utf8_takes (n : N) : bool :=
  ((n <? 55296) || (57343 <? n) && (n <? 1114112))%N.
Definition utf8 : streams := mkStreams utf8_takes utf8_takes.
Definition ascii_stdout : streams :=
  mkStreams (fun n => (n <? 128)%N) utf8_takes.

(** Two environments agree but for the credential variables. *)
Definition same_but_credentials (environ environ' : gmap string string) : Prop :=
  forall key, key ∉ credential_keys -> environ !! key = environ' !! key.

(** [d] with the idea replaced by [idea] in the places that hold it: the
    idea of the record; the title, the description and the first MVP
    feature of the specification; the action of the first story; the
    action text and the checklist of the first criteria block. *)
Definition with_idea (idea : string) (d : FeatureData) : FeatureData :=
  {| fd_id := fd_id d;
     fd_idea := idea;
     fd_specification :=
       {| spec_title := idea;
          spec_description := "A comprehensive solution for " +:+ idea;
          spec_type := spec_type (fd_specification d);
          spec_tech_stack := spec_tech_stack (fd_specification d);
          spec_mvp_features :=
            match spec_mvp_features (fd_specification d) with
            | [] => []
            | _ :: rest => ("Core " +:+ idea +:+ " functionality") :: rest
            end;
          spec_v2_features := spec_v2_features (fd_specification d);
          spec_target_users := spec_target_users (fd_specification d);
          spec_success_metrics := spec_success_metrics (fd_specification d) |};
     fd_user_stories :=
       match fd_user_stories d with
       | [] => []
       | s :: rest =>
           mkStory (story_id s) (story_role s) ("I want to access " +:+ idea)
             (story_benefit s) (story_priority s) (story_points s) :: rest
       end;
     fd_acceptance_criteria :=
       match fd_acceptance_criteria d with
       | [] => []
       | (k, _) :: rest =>
           (k, {| cb_story := "I want to access " +:+ idea;
                  cb_criteria := first_match rules idea |}) :: rest
       end;
     fd_technical_requirements := fd_technical_requirements d;
     fd_api_specification := fd_api_specification d;
     fd_database_schema := fd_database_schema d;
     fd_status := fd_status d;
     fd_created_at := fd_created_at d;
     fd_pm_agent := fd_pm_agent d |}.
(** * Properties

    Sanity checks of the string helpers on concrete inputs. *)

Example lower_mixed : Py.lower "Create an ACCOUNT" = "create an account".
Proof. reflexivity. Qed.

Example str_in_yes : Py.str_in "manage" "task management app" = true.
Proof. reflexivity. Qed.

Example str_in_no : Py.str_in "manage" "i want to export my data" = false.
Proof. reflexivity. Qed.

Example fmt_0d_pad : Py.fmt_0d 4 7 = "0007" /\ Py.fmt_0d 2 123 = "123".
Proof. split; reflexivity. Qed.

Example strip_quotes :
  Py.strip_char Py.dquote (String Py.dquote ("abc" +:+ String Py.dquote EmptyString))
  = "abc".
Proof. reflexivity. Qed.

Example readlines_ex :
  Py.readlines ("A=1" +:+ String Py.nl "B=2") = ["A=1" +:+ String Py.nl EmptyString; "B=2"].
Proof. reflexivity. Qed.

Example isoformat_sample : isoformat sample_now = "2026-01-15T09:30:00".
Proof. reflexivity. Qed.

Example feature_id_first : _generate_feature_id ∅ sample_now = "feat_20260115_0001".
Proof. reflexivity. Qed.

Example dumps_small :
  Json.dumps (JArr [JInt 1; JBool true; JArr []]) =
  "[" +:+ String Py.nl "  1," +:+ String Py.nl "  true," +:+ String Py.nl "  []"
  +:+ String Py.nl "]".
Proof. reflexivity. Qed.

Example loads_small :
  Json.loads " [1 , -20, [ ], {}, null] " =
  Some (JArr [JInt 1; JInt (-20); JArr []; JObj []; JNull]).
Proof. reflexivity. Qed.

Example loads_fraction : Json.loads "[1.5]" = None.
Proof. reflexivity. Qed.

Example criteria_sample :
  map (fun kb => (fst kb, length (cb_criteria (snd kb))))
      (criteria_of 0 sample_idea None) =
  [ ("US-001", 5); ("US-002", 5); ("US-003", 5); ("US-004", 4);
    ("US-005", 4); ("US-006", 4) ].
Proof. reflexivity. Qed.

(** ** Strings: append, lower-casing, substrings *)

Lemma append_nil_r (s : string) : s +:+ EmptyString = s.
Proof. induction s as [|c s IH]; simpl; [reflexivity | now rewrite IH]. Qed.

Lemma append_assoc (a b c : string) : (a +:+ b) +:+ c = a +:+ (b +:+ c).
Proof. induction a as [|x a IH]; simpl; [reflexivity | now rewrite IH]. Qed.

Lemma length_append (a b : string) :
  String.length (a +:+ b) = String.length a + String.length b.
Proof. induction a as [|x a IH]; simpl; [reflexivity | now rewrite IH]. Qed.

Lemma append_inj_length (a a' b b' : string) :
  String.length a = String.length a' ->
  a +:+ b = a' +:+ b' -> a = a' /\ b = b'.
Proof.
  revert a'; induction a as [|x a IH]; intros [|x' a'] Hlen Heq;
    simpl in *; try discriminate.
  - split; [reflexivity | assumption].
  - injection Heq as -> Heq. injection Hlen as Hlen.
    destruct (IH _ Hlen Heq) as [-> ->]. split; reflexivity.
Qed.

Lemma lower_append (a b : string) :
  Py.lower (a +:+ b) = Py.lower a +:+ Py.lower b.
Proof. induction a as [|x a IH]; simpl; [reflexivity | now rewrite IH]. Qed.

Lemma lower_length (s : string) : String.length (Py.lower s) = String.length s.
Proof. induction s as [|c s IH]; simpl; [reflexivity | now rewrite IH]. Qed.

(** A split of the lower-cased text is the lower-casing of a split. *)
Lemma lower_split (s x y : string) :
  Py.lower s = x +:+ y ->
  exists a b, s = a +:+ b /\ Py.lower a = x /\ Py.lower b = y.
Proof.
  revert s; induction x as [|c x IH]; intros s H; simpl in H.
  - exists EmptyString, s. repeat split; assumption.
  - destruct s as [|d s]; simpl in H; [discriminate|].
    injection H as Hc H. destruct (IH _ H) as (a & b & -> & Ha & Hb).
    exists (String d a), b. simpl. rewrite Hc, Ha. repeat split; assumption.
Qed.

Lemma prefix_spec (p s : string) :
  String.prefix p s = true <-> exists b, s = p +:+ b.
Proof.
  revert s; induction p as [|c p IH]; intros s.
  - destruct s; simpl; split; eauto.
  - destruct s as [|d s]; simpl.
    + split; [discriminate | intros [b Hb]; discriminate].
    + destruct (ascii_dec c d) as [->|Hne].
      * rewrite IH. split; intros [b Hb]; exists b; congruence.
      * split; [discriminate | intros [b Hb]; congruence].
Qed.

Lemma str_in_nil (n : string) :
  Py.str_in n EmptyString = String.prefix n EmptyString.
Proof. unfold Py.str_in. apply orb_false_r. Qed.

Lemma str_in_cons (n : string) (c : ascii) (s : string) :
  Py.str_in n (String c s) = String.prefix n (String c s) || Py.str_in n s.
Proof. reflexivity. Qed.

(** [Py.str_in] decides the substring relation. *)
Lemma str_in_spec (n s : string) :
  Py.str_in n s = true <-> exists a b, s = a +:+ n +:+ b.
Proof.
  induction s as [|c s IH].
  - rewrite str_in_nil, prefix_spec. split.
    + intros [b Hb]. exists EmptyString, b. assumption.
    + intros (a & b & H). destruct a; simpl in H; [eauto | discriminate].
  - rewrite str_in_cons, orb_true_iff, IH, prefix_spec. split.
    + intros [[b Hb] | (a & b & ->)].
      * exists EmptyString, b. assumption.
      * exists (String c a), b. reflexivity.
    + intros (a & b & H). destruct a as [|x a]; simpl in H.
      * left. eauto.
      * right. injection H as _ ->. eauto.
Qed.

(** The test of the source, [word in text.lower()], is the case-blind
    substring relation. *)
Lemma mentions_spec (word text : string) :
  mentions word text <-> Py.str_in word (Py.lower text) = true.
Proof.
  rewrite str_in_spec. split.
  - intros (a & m & b & -> & <-). exists (Py.lower a), (Py.lower b).
    now rewrite !lower_append.
  - intros (x & y & H).
    destruct (lower_split _ _ _ H) as (a & t & -> & <- & Ht).
    destruct (lower_split _ _ _ Ht) as (m & b & -> & <- & <-).
    exists a, m, b. split; reflexivity.
Qed.

Lemma mentions_dec (word text : string) :
  {mentions word text} + {~ mentions word text}.
Proof.
  destruct (Py.str_in word (Py.lower text)) eqn:E.
  - left. now apply mentions_spec.
  - right. rewrite mentions_spec, E. discriminate.
Qed.

(** ** The pipeline returns on a writable tree *)

Lemma write_file_ok (dir : gmap string node) (name content : string) :
  is_dir (dir !! name) = false ->
  write_file dir name content = Some (<[name := NFile content]> dir).
Proof.
  unfold write_file. destruct (dir !! name) as [[t|d|]|]; simpl;
    intros H; [reflexivity | discriminate | reflexivity | reflexivity].
Qed.

Lemma save_feature_ok (root dir : gmap string node) (id : string) (d : FeatureData) :
  root !! id = Some (NDir dir) ->
  is_dir (dir !! "feature_spec.json") = false ->
  is_dir (dir !! "README.md") = false ->
  _save_feature root id d =
    Some (<[id := NDir (<["README.md" := NFile (_generate_readme d)]>
                         (<["feature_spec.json" :=
                              NFile (Json.dumps (feature_json d))]> dir))]> root).
Proof.
  intros Hid H1 H2. unfold _save_feature. rewrite Hid.
  rewrite (write_file_ok _ _ _ H1). simpl.
  rewrite write_file_ok; [reflexivity|].
  rewrite lookup_insert_ne by discriminate. exact H2.
Qed.

Lemma glob_feat_perm (l l' : list (string * node)) :
  l ≡ₚ l' ->
  length (filter (fun name => is_feat name = true) (map fst l)) =
  length (filter (fun name => is_feat name = true) (map fst l')).
Proof.
  intros H. apply Permutation_length.
  apply filter_Permutation. now apply Permutation_map.
Qed.

Lemma glob_feat_insert_fresh (root : gmap string node) (name : string) (v : node) :
  root !! name = None ->
  length (glob_feat (<[name := v]> root)) =
    (if is_feat name then 1 else 0) + length (glob_feat root).
Proof.
  intros H. unfold glob_feat.
  rewrite (glob_feat_perm _ _ (map_to_list_insert root name v H)).
  simpl. rewrite filter_cons. destruct (is_feat name); reflexivity.
Qed.

Lemma glob_feat_insert_present (root : gmap string node) (name : string) (v : node) :
  is_Some (root !! name) ->
  length (glob_feat (<[name := v]> root)) = length (glob_feat root).
Proof.
  intros [old Hold].
  rewrite <- (insert_delete_eq root name v).
  rewrite <- (insert_id root name old Hold) at 2.
  rewrite <- (insert_delete_eq root name old).
  rewrite !glob_feat_insert_fresh by apply lookup_delete_eq. reflexivity.
Qed.

Lemma feature_id_is_feat (root : gmap string node) (now : datetime) :
  is_feat (_generate_feature_id root now) = true.
Proof. apply prefix_spec. eexists. reflexivity. Qed.

(** What a run of [generate_feature] returns and leaves on disk. *)
Lemma generate_feature_returns (root : gmap string node)
    (now_id now_created : datetime) (r : nat) (idea : string)
    (tech_stack : option string) :
  writable root (_generate_feature_id root now_id) = true ->
  exists d root',
    generate_feature root now_id now_created r idea tech_stack = Some (d, root')
    /\ fd_id d = _generate_feature_id root now_id
    /\ fd_idea d = idea
    /\ fd_specification d = _create_feature_spec r idea tech_stack
    /\ fd_user_stories d = _generate_user_stories (fd_specification d)
    /\ fd_acceptance_criteria d =
         _generate_acceptance_criteria (fd_specification d) (fd_user_stories d)
    /\ fd_technical_requirements d =
         _generate_technical_requirements (fd_specification d) tech_stack
    /\ fd_api_specification d = _generate_api_spec (fd_specification d)
    /\ fd_database_schema d = _generate_database_schema (fd_specification d)
    /\ fd_status d = "spec_ready"
    /\ fd_created_at d = isoformat now_created
    /\ fd_pm_agent d = "v1.0"
    /\ file_at root' (fd_id d) "feature_spec.json"
         = Some (Json.dumps (feature_json d))
    /\ file_at root' (fd_id d) "README.md" = Some (_generate_readme d)
    /\ (forall name, name <> fd_id d -> root' !! name = root !! name)
    /\ (root !! fd_id d = None ->
        length (glob_feat root') = S (length (glob_feat root))).
Proof.
  intros Hw. unfold generate_feature, writable in *.
  set (id := _generate_feature_id root now_id) in *.
  unfold mkdir_exist_ok.
  destruct (root !! id) as [[t|dir|]|] eqn:Hid; [discriminate | | discriminate |].
  - apply andb_true_iff in Hw as [H1 H2].
    apply negb_true_iff in H1, H2. simpl.
    rewrite (save_feature_ok root dir id _ Hid H1 H2).
    eexists _, _. split; [reflexivity|]. simpl.
    repeat (split; [reflexivity|]).
    unfold file_at. rewrite !lookup_insert_eq.
    rewrite lookup_insert_ne by discriminate. rewrite lookup_insert_eq.
    repeat split.
    + intros name Hne. now rewrite lookup_insert_ne.
    + intros H. congruence.
  - simpl.
    rewrite (save_feature_ok _ ∅ id); [ | apply lookup_insert_eq | reflexivity..].
    eexists _, _. split; [reflexivity|]. simpl.
    repeat (split; [reflexivity|]).
    unfold file_at. rewrite !lookup_insert_eq.
    rewrite lookup_insert_ne by discriminate. rewrite lookup_insert_eq.
    repeat split.
    + intros name Hne. now rewrite !lookup_insert_ne.
    + intros _. rewrite insert_insert_eq.
      rewrite glob_feat_insert_fresh by assumption.
      subst id. now rewrite feature_id_is_feat.
Qed.

(** A run that finds its directory already there leaves the number of
    entries matching [feat_*] as it was, and the directory writable. *)
Lemma generate_feature_reuse (root : gmap string node)
    (now_id now_created : datetime) (r : nat) (idea : string)
    (tech_stack : option string) :
  is_Some (root !! _generate_feature_id root now_id) ->
  writable root (_generate_feature_id root now_id) = true ->
  exists d root',
    generate_feature root now_id now_created r idea tech_stack = Some (d, root')
    /\ fd_id d = _generate_feature_id root now_id
    /\ length (glob_feat root') = length (glob_feat root)
    /\ is_Some (root' !! fd_id d)
    /\ writable root' (fd_id d) = true.
Proof.
  intros Hs Hw. unfold generate_feature, writable in *.
  set (id := _generate_feature_id root now_id) in *.
  unfold mkdir_exist_ok.
  destruct (root !! id) as [[t|dir|]|] eqn:Hid;
    [discriminate | | discriminate | destruct Hs; discriminate].
  apply andb_true_iff in Hw as [H1 H2].
  apply negb_true_iff in H1, H2. simpl.
  rewrite (save_feature_ok root dir id _ Hid H1 H2).
  eexists _, _. split; [reflexivity|]. simpl.
  split; [reflexivity|]. split; [|split].
  - apply glob_feat_insert_present. rewrite Hid. eauto.
  - rewrite lookup_insert_eq. eauto.
  - rewrite lookup_insert_eq, lookup_insert_eq.
    rewrite lookup_insert_ne by discriminate. rewrite lookup_insert_eq.
    reflexivity.
Qed.

(** The pipeline returns only on a writable tree. *)
Lemma generate_feature_writable (root : gmap string node)
    (now_id now_created : datetime) (r : nat) (idea : string)
    (tech_stack : option string) (d : FeatureData) (root' : gmap string node) :
  generate_feature root now_id now_created r idea tech_stack = Some (d, root') ->
  writable root (_generate_feature_id root now_id) = true.
Proof.
  unfold generate_feature, writable, mkdir_exist_ok.
  set (id := _generate_feature_id root now_id).
  destruct (root !! id) as [[t|dir|]|] eqn:Hid; simpl;
    [discriminate | | discriminate | reflexivity].
  unfold _save_feature. rewrite Hid. unfold write_file.
  destruct (dir !! "feature_spec.json") as [[t1|d1|]|] eqn:H1; simpl;
    try discriminate;
    rewrite lookup_insert_ne by discriminate;
    destruct (dir !! "README.md") as [[t2|d2|]|]; simpl;
    try discriminate; reflexivity.
Qed.

(** ** Stories and acceptance criteria *)

Section DictLemmas.
Context {V : Type}.
Implicit Types (d : list (string * V)) (k : string) (v : V).

Lemma dict_get_set_eq d k v : dict_get k (dict_set k v d) = Some v.
Proof.
  induction d as [|[k' v'] d IH]; simpl.
  - now rewrite String.eqb_refl.
  - destruct (String.eqb k k') eqn:E; simpl; rewrite E; [reflexivity | exact IH].
Qed.

Lemma dict_get_set_ne d k k' v :
  k <> k' -> dict_get k (dict_set k' v d) = dict_get k d.
Proof.
  intros Hne. induction d as [|[k0 v0] d IH]; simpl.
  - apply String.eqb_neq in Hne. now rewrite Hne.
  - destruct (String.eqb k' k0) eqn:E; simpl.
    + apply String.eqb_eq in E as ->.
      apply String.eqb_neq in Hne. now rewrite Hne.
    + now rewrite IH.
Qed.

Lemma dict_keys_set_in d k v :
  In k (dict_keys d) -> dict_keys (dict_set k v d) = dict_keys d.
Proof.
  induction d as [|[k0 v0] d IH]; simpl; [intros []|].
  intros Hin. destruct (String.eqb k k0) eqn:E; simpl; [reflexivity|].
  f_equal. apply IH. destruct Hin as [->|Hin]; [|assumption].
  now rewrite String.eqb_refl in E.
Qed.

Lemma dict_keys_set_fresh d k v :
  ~ In k (dict_keys d) -> dict_keys (dict_set k v d) = dict_keys d ++ [k].
Proof.
  induction d as [|[k0 v0] d IH]; simpl; [reflexivity|].
  intros Hnin. destruct (String.eqb k k0) eqn:E; simpl.
  - apply String.eqb_eq in E as ->. exfalso. apply Hnin. now left.
  - f_equal. apply IH. intros Hin. apply Hnin. now right.
Qed.

End DictLemmas.

Lemma criteria_fold_other (stories : list Story) (k : string)
    (d : list (string * CriteriaBlock)) :
  ~ In k (map story_id stories) ->
  dict_get k (fold_left criteria_step stories d) = dict_get k d.
Proof.
  revert d; induction stories as [|s stories IH]; intros d Hnin; simpl.
  - reflexivity.
  - rewrite IH by (intros H; apply Hnin; now right).
    apply dict_get_set_ne. intros ->. apply Hnin. now left.
Qed.

(** With distinct story ids, each story finds its own block. *)
Lemma criteria_lookup (spec : Spec) (stories : list Story) (story : Story) :
  List.NoDup (map story_id stories) -> In story stories ->
  dict_get (story_id story) (_generate_acceptance_criteria spec stories) =
    Some {| cb_story := story_action story; cb_criteria := story_criteria story |}.
Proof.
  unfold _generate_acceptance_criteria. change (fun criteria story => _) with criteria_step.
  generalize (@nil (string * CriteriaBlock)) as d.
  induction stories as [|s stories IH]; intros d Hnd Hin; [destruct Hin|].
  simpl in *. inversion Hnd as [|? ? Hnotin Hnd']; subst.
  destruct Hin as [->|Hin].
  - rewrite criteria_fold_other by assumption. apply dict_get_set_eq.
  - now apply IH.
Qed.

(** Every block of the result is the block of one of the stories. *)
Lemma criteria_fold_origin (stories seen : list Story)
    (d : list (string * CriteriaBlock)) :
  (forall k b, dict_get k d = Some b ->
     exists story, In story seen /\ story_id story = k /\
       b = {| cb_story := story_action story;
              cb_criteria := story_criteria story |}) ->
  forall k b, dict_get k (fold_left criteria_step stories d) = Some b ->
    exists story, In story (seen ++ stories) /\ story_id story = k /\
      b = {| cb_story := story_action story;
             cb_criteria := story_criteria story |}.
Proof.
  revert seen d. induction stories as [|s stories IH]; intros seen d Hd k b Hk.
  - rewrite app_nil_r. now apply Hd.
  - simpl in Hk.
    replace (seen ++ s :: stories) with ((seen ++ [s]) ++ stories)
      by (now rewrite <- app_assoc).
    apply (IH (seen ++ [s]) (criteria_step d s)); [|exact Hk].
    intros k' b' Hk'. unfold criteria_step in Hk'.
    destruct (String.eqb_spec k' (story_id s)) as [->|Hne].
    + rewrite dict_get_set_eq in Hk'. injection Hk' as <-.
      exists s. split; [apply in_or_app; right; now left | split; reflexivity].
    + rewrite dict_get_set_ne in Hk' by assumption.
      destruct (Hd k' b' Hk') as (story & Hin & Hid & Hb).
      exists story. split; [apply in_or_app; now left | split; assumption].
Qed.

Lemma criteria_origin (spec : Spec) (stories : list Story) (k : string)
    (b : CriteriaBlock) :
  dict_get k (_generate_acceptance_criteria spec stories) = Some b ->
  exists story, In story stories /\ story_id story = k /\
    b = {| cb_story := story_action story; cb_criteria := story_criteria story |}.
Proof.
  unfold _generate_acceptance_criteria.
  change (fun criteria story => _) with criteria_step.
  apply (criteria_fold_origin stories [] []). intros k' b' H. discriminate H.
Qed.

(** The if/elif/else chain is the first match over [rules]. *)
Lemma story_criteria_first_match (story : Story) :
  story_criteria story = first_match rules (story_action story).
Proof. reflexivity. Qed.

Lemma story_criteria_cases (story : Story) :
  let a := story_action story in
  (mentions "account" a -> story_criteria story = auth_checklist) /\
  (~ mentions "account" a -> mentions "manage" a ->
     story_criteria story = crud_checklist) /\
  (~ mentions "account" a -> ~ mentions "manage" a -> mentions "analytics" a ->
     story_criteria story = dashboard_checklist) /\
  (~ mentions "account" a -> ~ mentions "manage" a -> ~ mentions "analytics" a ->
     story_criteria story = generic_checklist).
Proof.
  intros a. unfold story_criteria. fold a. rewrite !mentions_spec.
  destruct (Py.str_in "account" (Py.lower a));
    destruct (Py.str_in "manage" (Py.lower a));
    destruct (Py.str_in "analytics" (Py.lower a));
    repeat split; intros; congruence.
Qed.

(** The fixed prefix of story US-001 matches no trigger word and no match
    straddles its end. *)
Lemma access_prefix_transparent (w idea : string) :
  In w trigger_words ->
  Py.str_in w (Py.lower ("I want to access " +:+ idea)) =
  Py.str_in w (Py.lower idea).
Proof.
  intros [<-|[<-|[<-|[]]]]; reflexivity.
Qed.

(** ** C1: sizes of the generated artifacts *)

(** C1, as stated, fails: for the idea "Task management app" the
    generators do not produce six stories, four requirement rows, seven
    endpoints and the tables users and items together, because the
    requirement rows are six. *)
Lemma C1_four_requirement_rows_refuted :
  ~ (length (_generate_user_stories sample_spec) = 6 /\
     length (_generate_technical_requirements sample_spec None) = 4 /\
     length (api_endpoints (_generate_api_spec sample_spec)) = 7 /\
     map tbl_name (db_tables (_generate_database_schema sample_spec))
       = ["users"; "items"]).
Proof. intros (_ & H & _). discriminate H. Qed.

(** C1, amended: for every idea string and any tech stack the
    generators produce exactly six user stories, exactly six technical
    requirement rows, exactly seven API endpoints and a schema with
    exactly two tables, named users and items; and one invocation of the
    pipeline, on every tree it can write to, returns a record with these
    counts.  The counts do not depend on the input. *)
Theorem C1_generator_counts (r : nat) (idea : string)
    (tech_stack : option string) :
  (length (_generate_user_stories (_create_feature_spec r idea tech_stack)) = 6
   /\ length (_generate_technical_requirements
                (_create_feature_spec r idea tech_stack) tech_stack) = 6
   /\ length (api_endpoints
                (_generate_api_spec (_create_feature_spec r idea tech_stack))) = 7
   /\ map tbl_name
        (db_tables
           (_generate_database_schema (_create_feature_spec r idea tech_stack)))
      = ["users"; "items"])
  /\ (forall root now_id now_created,
        writable root (_generate_feature_id root now_id) = true ->
        exists d root',
          generate_feature root now_id now_created r idea tech_stack
            = Some (d, root')
          /\ length (fd_user_stories d) = 6
          /\ length (fd_technical_requirements d) = 6
          /\ length (api_endpoints (fd_api_specification d)) = 7
          /\ map tbl_name (db_tables (fd_database_schema d)) = ["users"; "items"]).
Proof.
  split; [repeat split; reflexivity|].
  intros root now_id now_created Hw.
  destruct (generate_feature_returns root now_id now_created r idea tech_stack Hw)
    as (d & root' & Hrun & _ & _ & _ & Hst & _ & Hreq & Hapi & Hdb & _).
  exists d, root'. split; [exact Hrun|].
  rewrite Hst, Hreq, Hapi, Hdb. repeat split; reflexivity.
Qed.

(** The theorem on a new root, at the sample clock reading and idea. *)
Lemma C1_generator_counts_witness :
  writable ∅ (_generate_feature_id ∅ sample_now) = true /\
  exists d root',
    generate_feature ∅ sample_now sample_now 0 sample_idea None = Some (d, root')
    /\ length (fd_user_stories d) = 6
    /\ length (fd_technical_requirements d) = 6
    /\ length (api_endpoints (fd_api_specification d)) = 7
    /\ map tbl_name (db_tables (fd_database_schema d)) = ["users"; "items"].
Proof.
  split; [reflexivity|].
  apply (proj2 (C1_generator_counts 0 sample_idea None) ∅ sample_now sample_now).
  reflexivity.
Defined.

(** ** C2: precedence of the trigger words *)

(** C2: every block the criteria generator returns is filed under the id
    of one of the stories and holds that story's action text and the
    checklist chosen by case-blind substring tests on that text, first
    match first: "account" gives the auth checklist, else "manage" the
    CRUD checklist, else "analytics" the dashboard checklist, else the
    generic checklist; and when the story ids are distinct, every story
    finds its own block under its id. *)
Theorem C2_first_match_wins (spec : Spec) (stories : list Story) :
  (forall k block,
     dict_get k (_generate_acceptance_criteria spec stories) = Some block ->
     exists story,
       In story stories /\ story_id story = k
       /\ cb_story block = story_action story
       /\ (mentions "account" (story_action story) ->
           cb_criteria block = auth_checklist)
       /\ (~ mentions "account" (story_action story) ->
           mentions "manage" (story_action story) ->
           cb_criteria block = crud_checklist)
       /\ (~ mentions "account" (story_action story) ->
           ~ mentions "manage" (story_action story) ->
           mentions "analytics" (story_action story) ->
           cb_criteria block = dashboard_checklist)
       /\ (~ mentions "account" (story_action story) ->
           ~ mentions "manage" (story_action story) ->
           ~ mentions "analytics" (story_action story) ->
           cb_criteria block = generic_checklist))
  /\ (List.NoDup (map story_id stories) ->
      forall story, In story stories ->
        dict_get (story_id story) (_generate_acceptance_criteria spec stories)
          = Some {| cb_story := story_action story;
                    cb_criteria := story_criteria story |}).
Proof.
  split.
  - intros k block Hk.
    destruct (criteria_origin spec stories k block Hk) as (story & Hin & Hid & ->).
    exists story. split; [exact Hin|]. split; [exact Hid|].
    split; [reflexivity|]. apply story_criteria_cases.
  - intros Hnd story Hin. now apply criteria_lookup.
Qed.

(** The theorem for story US-002 among the stories of the sample idea. *)
Lemma C2_first_match_wins_witness :
  (List.NoDup (map story_id (_generate_user_stories sample_spec)) /\
   In story_us002 (_generate_user_stories sample_spec)) /\
  exists block,
    dict_get "US-002"
      (_generate_acceptance_criteria sample_spec (_generate_user_stories sample_spec))
      = Some block
    /\ cb_story block = "I want to create an account"
    /\ cb_criteria block = auth_checklist.
Proof.
  assert (Hnd : List.NoDup (map story_id (_generate_user_stories sample_spec)))
    by (repeat constructor; simpl; intuition discriminate).
  assert (Hin : In story_us002 (_generate_user_stories sample_spec))
    by (simpl; right; left; reflexivity).
  split; [split; assumption|].
  pose proof (proj2 (C2_first_match_wins sample_spec
                       (_generate_user_stories sample_spec)) Hnd story_us002 Hin)
    as Hget.
  eexists. split; [exact Hget|]. split; reflexivity.
Defined.

(** ** C3: the four checklists *)

(** C3, as stated, fails: the first story generated for the idea
    "account manager" has an action text that contains "manage", and it
    receives the authentication checklist, not the CRUD checklist. *)
Lemma C3_manage_without_precedence_refuted :
  exists story,
    nth_error (stories_of 0 "account manager" None) 0 = Some story
    /\ mentions "manage" (story_action story)
    /\ story_criteria story = auth_checklist
    /\ story_criteria story <> crud_checklist.
Proof.
  eexists. split; [reflexivity|]. split; [|split].
  - apply mentions_spec. reflexivity.
  - reflexivity.
  - discriminate.
Qed.

(** C3, amended: for every story, an action text that mentions "account"
    yields the five-item authentication checklist; one that mentions
    "manage" and not "account" yields the five-item CRUD checklist; one
    that mentions "analytics" and neither "account" nor "manage" yields
    the four-item dashboard checklist; any other action text yields the
    four-item generic checklist. *)
Theorem C3_checklist_by_trigger (story : Story) :
  let a := story_action story in
  (mentions "account" a ->
     story_criteria story = auth_checklist /\ length (story_criteria story) = 5)
  /\ (~ mentions "account" a -> mentions "manage" a ->
     story_criteria story = crud_checklist /\ length (story_criteria story) = 5)
  /\ (~ mentions "account" a -> ~ mentions "manage" a -> mentions "analytics" a ->
     story_criteria story = dashboard_checklist /\
     length (story_criteria story) = 4)
  /\ (~ mentions "account" a -> ~ mentions "manage" a ->
      ~ mentions "analytics" a ->
     story_criteria story = generic_checklist /\
     length (story_criteria story) = 4).
Proof.
  intros a. destruct (story_criteria_cases story) as (H1 & H2 & H3 & H4).
  fold a in H1, H2, H3, H4.
  repeat split; intros;
    first [ rewrite H1 by assumption | rewrite H2 by assumption
          | rewrite H3 by assumption | rewrite H4 by assumption ];
    reflexivity.
Qed.

(** The theorem for story US-003, which mentions manage only. *)
Lemma C3_checklist_by_trigger_witness :
  (~ mentions "account" (story_action story_us003) /\
   mentions "manage" (story_action story_us003)) /\
  story_criteria story_us003 = crud_checklist /\
  length (story_criteria story_us003) = 5.
Proof.
  assert (Hn : ~ mentions "account" (story_action story_us003))
    by (rewrite mentions_spec; simpl; discriminate).
  assert (Hm : mentions "manage" (story_action story_us003))
    by (apply mentions_spec; reflexivity).
  split; [split; assumption|].
  exact (proj1 (proj2 (C3_checklist_by_trigger story_us003)) Hn Hm).
Defined.

(** ** C4: how many trigger words a story matches *)

Lemma matched_triggers_access (idea : string) :
  matched_triggers ("I want to access " +:+ idea) = matched_triggers idea.
Proof.
  unfold matched_triggers, trigger_words.
  rewrite !filter_cons, filter_nil.
  rewrite !access_prefix_transparent by (simpl; tauto).
  reflexivity.
Qed.

Lemma stories_of_eq (r : nat) (idea : string) (tech_stack : option string) :
  stories_of r idea tech_stack =
    [ mkStory "US-001" "As a user" ("I want to access " +:+ idea)
        "So that I can use the core functionality" "high" 3;
      mkStory "US-002" "As a user" "I want to create an account"
        "So that I can save my data" "high" 5;
      mkStory "US-003" "As a user" "I want to manage my content"
        "So that I can organize my work" "high" 5;
      mkStory "US-004" "As an admin" "I want to view user analytics"
        "So that I can understand usage patterns" "medium" 8;
      mkStory "US-005" "As a user" "I want to export my data"
        "So that I can use it elsewhere" "low" 3;
      mkStory "US-006" "As a user" "I want to receive notifications"
        "So that I stay updated" "low" 5 ].
Proof. reflexivity. Qed.

(** C4, as stated, fails: for the idea "account manager" the first story
    matches two trigger words, and trying "manage" before "account" would
    give it another checklist than the one it receives. *)
Lemma C4_two_triggers_refuted :
  exists story,
    nth_error (stories_of 0 "account manager" None) 0 = Some story
    /\ matched_triggers (story_action story) = ["account"; "manage"]
    /\ first_match [ ("manage", crud_checklist); ("account", auth_checklist);
                     ("analytics", dashboard_checklist) ] (story_action story)
       <> story_criteria story.
Proof.
  eexists. split; [reflexivity|]. split; [reflexivity|]. discriminate.
Qed.

Lemma first_match_any_order (action : string) (order : list (string * list string)) :
  length (matched_triggers action) <= 1 ->
  order ≡ₚ rules ->
  first_match order action = first_match rules action.
Proof.
  intros Hone Hperm.
  symmetry in Hperm. apply permutations_Permutation in Hperm.
  unfold matched_triggers, trigger_words in Hone.
  rewrite !filter_cons, filter_nil in Hone.
  let l := eval vm_compute in (permutations rules) in
    change (permutations rules) with l in Hperm.
  repeat match goal with
         | H : _ ∈ _ :: _ |- _ => apply elem_of_cons in H as [->|H]
         | H : _ ∈ [] |- _ => apply elem_of_nil in H; destruct H
         end;
    unfold first_match, rules;
    destruct (Py.str_in "account" (Py.lower action));
    destruct (Py.str_in "manage" (Py.lower action));
    destruct (Py.str_in "analytics" (Py.lower action));
    repeat case_decide; simpl in Hone; try reflexivity; try congruence; try lia.
Qed.

(** C4, amended: for every idea, each of the five stories US-002 to
    US-006 matches at most one trigger word, and story US-001 matches
    exactly the trigger words the idea matches; so when the idea matches
    at most one trigger word, every story matches at most one, and the
    checks tried in any order select the checklist the story receives. *)
Theorem C4_single_trigger (r : nat) (idea : string) (tech_stack : option string) :
  let stories := stories_of r idea tech_stack in
  Forall (fun story => length (matched_triggers (story_action story)) <= 1)
    (skipn 1 stories)
  /\ (exists story, nth_error stories 0 = Some story /\
        matched_triggers (story_action story) = matched_triggers idea)
  /\ (length (matched_triggers idea) <= 1 ->
      Forall (fun story =>
                length (matched_triggers (story_action story)) <= 1 /\
                forall order, order ≡ₚ rules ->
                  first_match order (story_action story) = story_criteria story)
        stories).
Proof.
  intros stories. split; [|split].
  - subst stories. unfold stories_of, _generate_user_stories. simpl.
    repeat constructor.
  - eexists. split; [reflexivity|]. apply matched_triggers_access.
  - intros Hone.
    assert (Hall : Forall (fun story =>
                     length (matched_triggers (story_action story)) <= 1) stories).
    { subst stories. rewrite stories_of_eq.
      constructor; [cbv [story_action]; now rewrite matched_triggers_access|].
      repeat constructor. }
    eapply Forall_impl; [exact Hall|]. intros story Hs. simpl in Hs.
    split; [exact Hs|]. intros order Hp.
    rewrite story_criteria_first_match. now apply first_match_any_order.
Qed.

(** The theorem for the sample idea, which mentions manage only. *)
Lemma C4_single_trigger_witness :
  length (matched_triggers sample_idea) <= 1 /\
  Forall (fun story =>
            length (matched_triggers (story_action story)) <= 1 /\
            forall order, order ≡ₚ rules ->
              first_match order (story_action story) = story_criteria story)
    (stories_of 0 sample_idea None).
Proof.
  assert (H : length (matched_triggers sample_idea) <= 1) by (vm_compute; lia).
  split; [exact H|].
  exact (proj2 (proj2 (C4_single_trigger 0 sample_idea None)) H).
Defined.

(** ** C10: the idea reaches the checklist of story US-001 *)

Lemma first_match_access (idea : string) :
  first_match rules ("I want to access " +:+ idea) = first_match rules idea.
Proof.
  unfold first_match, rules.
  rewrite !access_prefix_transparent by (simpl; tauto). reflexivity.
Qed.

Lemma first_match_cases (text : string) :
  (mentions "account" text -> first_match rules text = auth_checklist) /\
  (~ mentions "account" text -> mentions "manage" text ->
     first_match rules text = crud_checklist) /\
  (~ mentions "account" text -> ~ mentions "manage" text ->
   mentions "analytics" text -> first_match rules text = dashboard_checklist).
Proof.
  unfold first_match, rules. rewrite !mentions_spec.
  destruct (Py.str_in "account" (Py.lower text));
    destruct (Py.str_in "manage" (Py.lower text));
    destruct (Py.str_in "analytics" (Py.lower text));
    repeat split; intros; congruence.
Qed.

Lemma us001_block (r : nat) (idea : string) (tech_stack : option string) :
  dict_get "US-001" (criteria_of r idea tech_stack) =
    Some {| cb_story := "I want to access " +:+ idea;
            cb_criteria := first_match rules idea |}.
Proof.
  unfold criteria_of. rewrite stories_of_eq.
  rewrite <- first_match_access.
  set (s := mkStory "US-001" "As a user" ("I want to access " +:+ idea)
              "So that I can use the core functionality" "high" 3).
  change "US-001" with (story_id s).
  rewrite criteria_lookup; [reflexivity | | now left].
  repeat constructor; simpl; intuition discriminate.
Qed.

(** C10: the idea is copied into the action text of story US-001, so an
    idea that mentions a trigger word gives US-001 the checklist of the
    first trigger word it mentions ("account", else "manage", else
    "analytics") and never the generic checklist; the idea "Task
    management app" gives US-001 the five-item CRUD checklist. *)
Theorem C10_idea_selects_US001_checklist (r : nat) (tech_stack : option string) :
  (forall idea,
     mentions "account" idea \/ mentions "manage" idea \/ mentions "analytics" idea ->
     exists block,
       dict_get "US-001" (criteria_of r idea tech_stack) = Some block
       /\ cb_story block = "I want to access " +:+ idea
       /\ cb_criteria block <> generic_checklist
       /\ (mentions "account" idea -> cb_criteria block = auth_checklist)
       /\ (~ mentions "account" idea -> mentions "manage" idea ->
           cb_criteria block = crud_checklist)
       /\ (~ mentions "account" idea -> ~ mentions "manage" idea ->
           mentions "analytics" idea -> cb_criteria block = dashboard_checklist))
  /\ (exists block,
        dict_get "US-001" (criteria_of r "Task management app" tech_stack)
          = Some block
        /\ cb_criteria block = crud_checklist
        /\ length (cb_criteria block) = 5).
Proof.
  split.
  - intros idea Hm. eexists. split; [apply us001_block|].
    cbn [cb_story cb_criteria].
    split; [reflexivity|].
    destruct (first_match_cases idea) as (H1 & H2 & H3).
    split; [|repeat split; assumption].
    destruct (mentions_dec "account" idea) as [Ha|Ha];
      [rewrite (H1 Ha); discriminate|].
    destruct (mentions_dec "manage" idea) as [Hb|Hb];
      [rewrite (H2 Ha Hb); discriminate|].
    destruct Hm as [Hm|[Hm|Hm]]; [contradiction..|].
    rewrite (H3 Ha Hb Hm). discriminate.
  - eexists. split; [apply us001_block|]. split; reflexivity.
Qed.

(** The theorem for the sample idea. *)
Lemma C10_idea_selects_US001_checklist_witness :
  (mentions "account" sample_idea \/ mentions "manage" sample_idea \/
   mentions "analytics" sample_idea) /\
  exists block,
    dict_get "US-001" (criteria_of 0 sample_idea None) = Some block
    /\ cb_story block = "I want to access " +:+ sample_idea
    /\ cb_criteria block <> generic_checklist
    /\ (mentions "account" sample_idea -> cb_criteria block = auth_checklist)
    /\ (~ mentions "account" sample_idea -> mentions "manage" sample_idea ->
        cb_criteria block = crud_checklist)
    /\ (~ mentions "account" sample_idea -> ~ mentions "manage" sample_idea ->
        mentions "analytics" sample_idea ->
        cb_criteria block = dashboard_checklist).
Proof.
  assert (H : mentions "account" sample_idea \/ mentions "manage" sample_idea \/
              mentions "analytics" sample_idea).
  { right. left. apply mentions_spec. reflexivity. }
  split; [exact H|].
  exact (proj1 (C10_idea_selects_US001_checklist 0 None) sample_idea H).
Defined.

(** ** C6: the task-management scenario *)

Lemma first_line_append_nl (a b : string) :
  Py.first_line a = a -> Py.first_line (a +:+ String Py.nl b) = a.
Proof.
  induction a as [|c a IH]; simpl; [reflexivity|].
  destruct (Ascii.eqb c Py.nl); [discriminate|].
  intros H. injection H as H. now rewrite IH.
Qed.

Lemma prefix_append (p s x : string) :
  String.prefix p s = true -> String.prefix p (s +:+ x) = true.
Proof.
  rewrite !prefix_spec. intros [b ->]. exists (b +:+ x). apply append_assoc.
Qed.

Lemma prefix_fold_left {A : Type} (g : string -> A -> string) (p : string)
    (l : list A) (s : string) :
  (forall acc y, String.prefix p acc = true -> String.prefix p (g acc y) = true) ->
  String.prefix p s = true -> String.prefix p (fold_left g l s) = true.
Proof.
  intros Hg. revert s. induction l as [|y l IH]; intros s Hs; simpl; [exact Hs|].
  apply IH, Hg, Hs.
Qed.

Ltac prefix_steps :=
  repeat first
    [ assumption
    | solve [apply prefix_spec; eexists; rewrite !append_assoc; reflexivity]
    | apply prefix_append
    | apply prefix_fold_left; [intros ? ? ?|] ].

(** Every later step of [_generate_readme] appends to the text, so the
    summary keeps the heading it starts with. *)
Lemma readme_prefix (d : FeatureData) :
  String.prefix ("# " +:+ spec_title (fd_specification d) +:+ nls)
    (_generate_readme d) = true.
Proof.
  unfold _generate_readme. cbv zeta. prefix_steps.
  unfold readme_story. cbv zeta.
  destruct (dict_get _ _); prefix_steps.
Qed.

(** The summary opens with the heading line of the title. *)
Lemma readme_first_line (d : FeatureData) :
  Py.first_line (spec_title (fd_specification d)) = spec_title (fd_specification d) ->
  Py.first_line (_generate_readme d) = "# " +:+ spec_title (fd_specification d).
Proof.
  intros Ht. destruct (proj1 (prefix_spec _ _) (readme_prefix d)) as [t ->].
  unfold nls. rewrite <- append_assoc.
  change (String Py.nl EmptyString +:+ t) with (String Py.nl t).
  rewrite append_assoc. simpl.
  change (String Py.nl EmptyString +:+ t) with (String Py.nl t).
  do 2 f_equal. now apply first_line_append_nl.
Qed.

(** C6: with the idea "Task management app" and no tech stack, on every
    tree the pipeline can write to, the run returns a record whose
    specification title is "Task management app", whose tech stack is the
    default placeholder "Modern web stack (TBD by Dev team)", whose first
    MVP feature is "Core Task management app functionality", and the
    README.md it leaves in the feature directory starts with the line
    "# Task management app". *)
Theorem C6_task_management_scenario (root : gmap string node)
    (now_id now_created : datetime) (r : nat) :
  writable root (_generate_feature_id root now_id) = true ->
  exists d root' readme,
    generate_feature root now_id now_created r "Task management app" None
      = Some (d, root')
    /\ spec_title (fd_specification d) = "Task management app"
    /\ spec_tech_stack (fd_specification d) = "Modern web stack (TBD by Dev team)"
    /\ nth_error (spec_mvp_features (fd_specification d)) 0
         = Some "Core Task management app functionality"
    /\ file_at root' (fd_id d) "README.md" = Some readme
    /\ readme = _generate_readme d
    /\ Py.first_line readme = "# Task management app".
Proof.
  intros Hw.
  destruct (generate_feature_returns root now_id now_created r
              "Task management app" None Hw)
    as (d & root' & Hrun & _ & _ & Hspec & _ & _ & _ & _ & _ & _ & _ & _ & _ & Hreadme & _).
  exists d, root', (_generate_readme d).
  split; [exact Hrun|]. rewrite Hspec.
  repeat (split; [reflexivity|]).
  split; [exact Hreadme|]. split; [reflexivity|].
  rewrite readme_first_line; rewrite Hspec; reflexivity.
Qed.

(** The theorem on a new root at the sample clock reading. *)
Lemma C6_task_management_scenario_witness :
  writable ∅ (_generate_feature_id ∅ sample_now) = true /\
  exists d root' readme,
    generate_feature ∅ sample_now sample_now 0 "Task management app" None
      = Some (d, root')
    /\ spec_title (fd_specification d) = "Task management app"
    /\ spec_tech_stack (fd_specification d) = "Modern web stack (TBD by Dev team)"
    /\ nth_error (spec_mvp_features (fd_specification d)) 0
         = Some "Core Task management app functionality"
    /\ file_at root' (fd_id d) "README.md" = Some readme
    /\ readme = _generate_readme d
    /\ Py.first_line readme = "# Task management app".
Proof.
  split; [reflexivity|].
  apply (C6_task_management_scenario ∅ sample_now sample_now 0). reflexivity.
Defined.

(** ** C7: the category is not read again *)

(** No generator after the specification builder reads the category. *)
Lemma generators_ignore_type (ty : string) (spec : Spec) (stories : list Story)
    (tech_stack : option string) :
  _generate_user_stories (with_type ty spec) = _generate_user_stories spec
  /\ _generate_acceptance_criteria (with_type ty spec) stories
       = _generate_acceptance_criteria spec stories
  /\ _generate_technical_requirements (with_type ty spec) tech_stack
       = _generate_technical_requirements spec tech_stack
  /\ _generate_api_spec (with_type ty spec) = _generate_api_spec spec
  /\ _generate_database_schema (with_type ty spec) = _generate_database_schema spec.
Proof. repeat split; reflexivity. Qed.

Lemma readme_ignores_category (ty : string) (d : FeatureData) :
  _generate_readme (with_category ty d) = _generate_readme d.
Proof. reflexivity. Qed.

Lemma create_spec_with_type (r1 r2 : nat) (idea : string) (tech_stack : option string) :
  _create_feature_spec r2 idea tech_stack =
  with_type (random_choice r2 feature_types) (_create_feature_spec r1 idea tech_stack).
Proof. reflexivity. Qed.

(** C7: two runs from the same tree, at the same clock readings, on the
    same idea and tech stack, whose random draws [r1] and [r2] may choose
    different categories, return records with the same user stories,
    acceptance criteria, technical requirements, API specification and
    database schema, and write the same summary document; the second
    record is the first with its category replaced.  More generally no
    generator reads the category of the specification it is given. *)
Theorem C7_category_not_read (root : gmap string node)
    (now_id now_created : datetime) (r1 r2 : nat) (idea : string)
    (tech_stack : option string) :
  writable root (_generate_feature_id root now_id) = true ->
  (exists d1 root1 d2 root2,
     generate_feature root now_id now_created r1 idea tech_stack = Some (d1, root1)
     /\ generate_feature root now_id now_created r2 idea tech_stack = Some (d2, root2)
     /\ d2 = with_category (random_choice r2 feature_types) d1
     /\ fd_user_stories d1 = fd_user_stories d2
     /\ fd_acceptance_criteria d1 = fd_acceptance_criteria d2
     /\ fd_technical_requirements d1 = fd_technical_requirements d2
     /\ fd_api_specification d1 = fd_api_specification d2
     /\ fd_database_schema d1 = fd_database_schema d2
     /\ _generate_readme d1 = _generate_readme d2
     /\ file_at root1 (fd_id d1) "README.md" = file_at root2 (fd_id d2) "README.md")
  /\ (forall ty spec stories,
        _generate_user_stories (with_type ty spec) = _generate_user_stories spec
        /\ _generate_acceptance_criteria (with_type ty spec) stories
             = _generate_acceptance_criteria spec stories
        /\ _generate_technical_requirements (with_type ty spec) tech_stack
             = _generate_technical_requirements spec tech_stack
        /\ _generate_api_spec (with_type ty spec) = _generate_api_spec spec
        /\ _generate_database_schema (with_type ty spec)
             = _generate_database_schema spec).
Proof.
  intros Hw. split; [|intros; apply generators_ignore_type].
  destruct (generate_feature_returns root now_id now_created r1 idea tech_stack Hw)
    as (d1 & root1 & Hrun1 & Hid1 & Hidea1 & Hspec1 & Hst1 & Hcr1 & Hrq1 & Hapi1
        & Hdb1 & Hstat1 & Hcre1 & Hpm1 & _ & Hreadme1 & _).
  destruct (generate_feature_returns root now_id now_created r2 idea tech_stack Hw)
    as (d2 & root2 & Hrun2 & Hid2 & Hidea2 & Hspec2 & Hst2 & Hcr2 & Hrq2 & Hapi2
        & Hdb2 & Hstat2 & Hcre2 & Hpm2 & _ & Hreadme2 & _).
  assert (Hd : d2 = with_category (random_choice r2 feature_types) d1).
  { destruct d1, d2. unfold with_category. simpl in *. subst. reflexivity. }
  exists d1, root1, d2, root2.
  split; [exact Hrun1|]. split; [exact Hrun2|]. split; [exact Hd|].
  rewrite Hreadme1, Hreadme2. subst d2.
  repeat split; reflexivity.
Qed.

(** The theorem on a new root for the draws 0 and 4. *)
Lemma C7_category_not_read_witness :
  writable ∅ (_generate_feature_id ∅ sample_now) = true /\
  exists d1 root1 d2 root2,
    generate_feature ∅ sample_now sample_now 0 sample_idea None = Some (d1, root1)
    /\ generate_feature ∅ sample_now sample_now 4 sample_idea None = Some (d2, root2)
    /\ d2 = with_category "data_pipeline" d1
    /\ fd_user_stories d1 = fd_user_stories d2
    /\ fd_acceptance_criteria d1 = fd_acceptance_criteria d2
    /\ _generate_readme d1 = _generate_readme d2.
Proof.
  assert (Hw : writable ∅ (_generate_feature_id ∅ sample_now) = true)
    by reflexivity.
  split; [exact Hw|].
  destruct (proj1 (C7_category_not_read ∅ sample_now sample_now 0 4 sample_idea None
                     Hw))
    as (d1 & root1 & d2 & root2 & H1 & H2 & Hd & Hs & Hc & _ & _ & _ & Hr & _).
  exists d1, root1, d2, root2.
  split; [exact H1|]. split; [exact H2|]. split; [exact Hd|].
  split; [exact Hs|]. split; [exact Hc | exact Hr].
Defined.

(** ** C8: loading the configuration *)

Lemma prefix_single (c d : ascii) (x : string) :
  String.prefix (String c EmptyString) (String d x) =
  if ascii_dec c d then true else false.
Proof. simpl. destruct (ascii_dec c d); [destruct x|]; reflexivity. Qed.

Lemma str_in_single_cons (c d : ascii) (x : string) :
  Py.str_in (String c EmptyString) (String d x) =
  (if ascii_dec c d then true else false) || Py.str_in (String c EmptyString) x.
Proof. rewrite str_in_cons, prefix_single. reflexivity. Qed.

Lemma str_in_single_nil (c : ascii) :
  Py.str_in (String c EmptyString) EmptyString = false.
Proof. reflexivity. Qed.

Lemma lstrip_keeps (p : ascii -> bool) (c : ascii) (s : string) :
  p c = false ->
  Py.str_in (String c EmptyString) (Py.lstrip_by p s) =
  Py.str_in (String c EmptyString) s.
Proof.
  intros Hp. induction s as [|d s IH]; [reflexivity|].
  simpl Py.lstrip_by. destruct (p d) eqn:Hd; [|reflexivity].
  rewrite IH, str_in_single_cons.
  destruct (ascii_dec c d) as [->|]; [congruence | reflexivity].
Qed.

Lemma rstrip_keeps (p : ascii -> bool) (c : ascii) (s : string) :
  p c = false ->
  Py.str_in (String c EmptyString) (Py.rstrip_by p s) =
  Py.str_in (String c EmptyString) s.
Proof.
  intros Hp. induction s as [|d s IH]; [reflexivity|].
  simpl Py.rstrip_by. rewrite (str_in_single_cons c d s), <- IH.
  destruct (Py.rstrip_by p s) as [|e t].
  - rewrite str_in_single_nil, orb_false_r.
    destruct (p d) eqn:Hd.
    + rewrite str_in_single_nil.
      destruct (ascii_dec c d) as [->|]; [congruence | reflexivity].
    + rewrite str_in_single_cons, str_in_single_nil. apply orb_false_r.
  - rewrite (str_in_single_cons c d). reflexivity.
Qed.

Lemma split1_found (c : ascii) (s : string) :
  Py.str_in (String c EmptyString) s = true ->
  exists k v, Py.split1 c s = (k, Some v).
Proof.
  induction s as [|d s IH]; [discriminate|].
  rewrite str_in_single_cons. simpl.
  destruct (Ascii.eqb_spec d c) as [->|Hne].
  - intros _. eauto.
  - destruct (ascii_dec c d) as [->|_]; [contradiction|]. simpl.
    intros H. destruct (IH H) as (k & v & ->). eauto.
Qed.

(** A line that passes the test of the loop unpacks into key and value. *)
Lemma config_line_total (config : gmap string string) (line : string) :
  is_Some (config_line config line).
Proof.
  unfold config_line.
  destruct (Py.str_in "=" line) eqn:Heq; simpl; [|eauto].
  destruct (negb (Py.startswith line "#")); [|eauto].
  destruct (split1_found "=" (Py.strip line)) as (k & v & ->); [|eauto].
  unfold Py.strip, Py.strip_by.
  rewrite rstrip_keeps, lstrip_keeps by reflexivity. exact Heq.
Qed.

Lemma config_lines_total (lines : list string) (config : gmap string string) :
  is_Some (config_lines config lines).
Proof.
  revert config; induction lines as [|l lines IH]; intros config; simpl; [eauto|].
  destruct (config_line_total config l) as [c ->]. simpl. apply IH.
Qed.

(** The overlay of the two credential variables on any configuration. *)
Lemma config_env_overlay (environ config : gmap string string) (key : string) :
  fold_left (config_env environ) credential_keys config !! key =
  overlaid environ config key.
Proof.
  unfold credential_keys, overlaid, env_value, config_env. simpl.
  destruct (decide (key = "ANTHROPIC_API_KEY")) as [->|Hne1].
  - simpl.
    destruct (environ !! "ANTHROPIC_API_KEY") as [v|];
      [destruct (Py.nonempty v)|]; simpl.
    + apply lookup_insert_eq.
    + destruct (environ !! "OPENAI_API_KEY") as [w|];
        [destruct (Py.nonempty w)|]; simpl;
        rewrite ?lookup_insert_ne by discriminate; reflexivity.
    + destruct (environ !! "OPENAI_API_KEY") as [w|];
        [destruct (Py.nonempty w)|]; simpl;
        rewrite ?lookup_insert_ne by discriminate; reflexivity.
  - assert (Hskip : forall m : gmap string string,
               (match environ !! "ANTHROPIC_API_KEY" with
                | Some v => if Py.nonempty v
                            then <["ANTHROPIC_API_KEY" := v]> m else m
                | None => m
                end) !! key = m !! key).
    { intros m. destruct (environ !! "ANTHROPIC_API_KEY") as [v|];
        [destruct (Py.nonempty v)|]; rewrite ?lookup_insert_ne by congruence;
        reflexivity. }
    rewrite Hskip.
    destruct (decide (key = "OPENAI_API_KEY")) as [->|Hne2].
    + simpl. destruct (environ !! "OPENAI_API_KEY") as [w|];
        [destruct (Py.nonempty w)|]; simpl;
        rewrite ?lookup_insert_eq; reflexivity.
    + rewrite bool_decide_eq_false_2.
      * destruct (environ !! "OPENAI_API_KEY") as [w|];
          [destruct (Py.nonempty w)|]; rewrite ?lookup_insert_ne by congruence;
          reflexivity.
      * unfold credential_keys. rewrite !elem_of_cons, elem_of_nil. tauto.
Qed.

(** C8, as stated, fails: with no configuration file and OPENAI_API_KEY
    set to the empty string, the loaded mapping has no entry for that
    variable; and with a file giving the key a value, the variable set to
    the empty string does not override it. *)
Lemma C8_empty_variable_refuted :
  empty_key_environ !! "OPENAI_API_KEY" = Some EmptyString
  /\ (exists m, _load_config None empty_key_environ = Some m /\
                m !! "OPENAI_API_KEY" = None)
  /\ (exists m, _load_config (Some (NFile "OPENAI_API_KEY=abc")) empty_key_environ
                  = Some m /\
                m !! "OPENAI_API_KEY" = Some "abc").
Proof.
  split; [reflexivity|]. split; eexists; split; reflexivity.
Qed.

(** C8, amended: without a configuration file the loader returns, and
    the mapping holds exactly the credential variables (OPENAI_API_KEY,
    ANTHROPIC_API_KEY) that are set to a non-empty value, none if neither
    is; and whatever is at the path of the file, in every mapping the
    loader returns each of those variables that is set to a non-empty
    value has its value from the environment, in place of what the file
    gave for that key.  On a file of text the loader does return, with
    the entries of the file for every key the environment does not
    override. *)
Theorem C8_config_overlay (environ : gmap string string) :
  (exists m,
     _load_config None environ = Some m
     /\ forall key,
          m !! key = if bool_decide (key ∈ credential_keys)
                     then env_value environ key else None)
  /\ (forall at_path m key v,
        _load_config at_path environ = Some m ->
        key ∈ credential_keys ->
        environ !! key = Some v -> v <> EmptyString -> m !! key = Some v)
  /\ (forall text,
        exists file_config m,
          config_lines ∅ (Py.readlines text) = Some file_config
          /\ _load_config (Some (NFile text)) environ = Some m
          /\ (forall key, m !! key = overlaid environ file_config key)).
Proof.
  split; [|split].
  - exists (fold_left (config_env environ) credential_keys ∅).
    split; [reflexivity|]. intros key.
    rewrite config_env_overlay. unfold overlaid. rewrite lookup_empty.
    destruct (bool_decide _); [destruct (env_value environ key)|]; reflexivity.
  - intros at_path m key v Hload Hin Hv Hne. unfold _load_config in Hload.
    destruct (match at_path with
              | None => Some ∅
              | Some (NFile text) => config_lines ∅ (Py.readlines text)
              | Some (NDir _) => None
              | Some NBinary => None
              end) as [config|]; [|discriminate].
    cbn [mbind option_bind] in Hload.
    assert (Hm : m = fold_left (config_env environ) credential_keys config)
      by congruence.
    rewrite Hm, config_env_overlay. unfold overlaid, env_value.
    rewrite bool_decide_eq_true_2 by assumption. rewrite Hv.
    destruct v; [contradiction | reflexivity].
  - intros text.
    destruct (config_lines_total (Py.readlines text) ∅) as [fc Hfc].
    exists fc, (fold_left (config_env environ) credential_keys fc).
    split; [exact Hfc|].
    unfold _load_config. rewrite Hfc. split; [reflexivity|].
    apply config_env_overlay.
Qed.

(** The theorem for a file and a variable that both give OPENAI_API_KEY. *)
Lemma C8_config_overlay_witness :
  exists file_config m,
    config_lines ∅ (Py.readlines "OPENAI_API_KEY=sk-file") = Some file_config
    /\ _load_config (Some (NFile "OPENAI_API_KEY=sk-file")) set_key_environ = Some m
    /\ m !! "OPENAI_API_KEY" = Some "sk-env".
Proof.
  destruct (C8_config_overlay set_key_environ) as (_ & Hover & Hfile).
  destruct (Hfile "OPENAI_API_KEY=sk-file") as (fc & m & Hfc & Hm & _).
  exists fc, m. split; [exact Hfc|]. split; [exact Hm|].
  apply (Hover (Some (NFile "OPENAI_API_KEY=sk-file")) m "OPENAI_API_KEY" "sk-env").
  - exact Hm.
  - unfold credential_keys. apply elem_of_cons. left. reflexivity.
  - reflexivity.
  - discriminate.
Defined.

(** ** Decimal text *)

Lemma uint_of_zeros (k : nat) (s : string) :
  NilEmpty.uint_of_string (Py.zeros k +:+ s) =
  option_map (Nat.iter k D0) (NilEmpty.uint_of_string s).
Proof.
  induction k as [|k IH]; simpl.
  - now destruct (NilEmpty.uint_of_string s).
  - rewrite IH. now destruct (NilEmpty.uint_of_string s).
Qed.

Lemma of_uint_zeros (k : nat) (d : uint) :
  N.of_uint (Nat.iter k D0 d) = N.of_uint d.
Proof. induction k as [|k IH]; simpl; [reflexivity | exact IH]. Qed.

(** A zero-filled number reads back as itself. *)
Lemma nat_of_fmt_0d (w n : nat) : nat_of_string (Py.fmt_0d w n) = Some n.
Proof.
  unfold nat_of_string, Py.fmt_0d, Py.str_nat.
  rewrite uint_of_zeros, NilEmpty.usu. simpl.
  now rewrite of_uint_zeros, DecimalN.Unsigned.of_to, Nnat.Nat2N.id.
Qed.

Lemma fmt_0d_inj (w n m : nat) : Py.fmt_0d w n = Py.fmt_0d w m -> n = m.
Proof.
  intros H. apply (f_equal nat_of_string) in H.
  rewrite !nat_of_fmt_0d in H. now injection H.
Qed.

Lemma all_digits_append (a b : string) :
  all_digits (a +:+ b) = all_digits a && all_digits b.
Proof.
  induction a as [|c a IH]; simpl; [reflexivity|].
  destruct (Json.digit_of c); [exact IH | reflexivity].
Qed.

Lemma all_digits_zeros (k : nat) : all_digits (Py.zeros k) = true.
Proof. induction k; simpl; auto. Qed.

Lemma all_digits_uint (d : uint) : all_digits (NilEmpty.string_of_uint d) = true.
Proof. induction d; simpl; auto. Qed.

Lemma all_digits_fmt_0d (w n : nat) : all_digits (Py.fmt_0d w n) = true.
Proof.
  unfold Py.fmt_0d. rewrite all_digits_append, all_digits_zeros.
  apply all_digits_uint.
Qed.

Lemma length_zeros (k : nat) : String.length (Py.zeros k) = k.
Proof. induction k; simpl; auto. Qed.

Lemma length_fmt_0d (w n : nat) :
  String.length (Py.fmt_0d w n) = Nat.max w (String.length (Py.str_nat n)).
Proof. unfold Py.fmt_0d. rewrite length_append, length_zeros. lia. Qed.

Lemma all_from_spec (k : nat) (p : N -> bool) :
  forall x, all_from k x p = true ->
  forall y, (x <= y < x + N.of_nat k)%N -> p y = true.
Proof.
  induction k as [|k IH]; intros x H y Hy; [lia|].
  simpl in H. apply andb_true_iff in H as [Hx H].
  destruct (N.eq_dec x y) as [<-|Hne]; [exact Hx|].
  apply (IH (N.succ x) H). lia.
Qed.

(** Numbers below ten thousand have at most four digits and numbers below
    a hundred at most two, by enumeration. *)
Lemma digits_below_10000 :
  all_from (10 * 1000) 0
    (fun x => String.length (NilEmpty.string_of_uint (N.to_uint x)) <=? 4) = true.
Proof. vm_compute. reflexivity. Qed.

Lemma digits_below_100 :
  all_from 100 0
    (fun x => String.length (NilEmpty.string_of_uint (N.to_uint x)) <=? 2) = true.
Proof. vm_compute. reflexivity. Qed.

Lemma digits_from_1000 :
  all_from (9 * 1000) 1000
    (fun x => 4 <=? String.length (NilEmpty.string_of_uint (N.to_uint x))) = true.
Proof. vm_compute. reflexivity. Qed.

Lemma all_digits_str_nat (n : nat) : all_digits (Py.str_nat n) = true.
Proof. apply all_digits_uint. Qed.

Lemma length_str_nat_year (n : nat) :
  1000 <= n -> n < 10 * 1000 -> String.length (Py.str_nat n) = 4.
Proof.
  intros Hlo Hhi.
  assert (Hup : String.length (Py.str_nat n) <= 4).
  { apply Nat.leb_le.
    apply (all_from_spec _ _ 0%N digits_below_10000 (N.of_nat n)). lia. }
  assert (Hdown : 4 <= String.length (Py.str_nat n)).
  { apply Nat.leb_le.
    apply (all_from_spec _ _ 1000%N digits_from_1000 (N.of_nat n)). lia. }
  lia.
Qed.

Lemma length_str_nat_4 (n : nat) :
  n < 10 * 1000 -> String.length (Py.str_nat n) <= 4.
Proof.
  intros H. apply Nat.leb_le.
  apply (all_from_spec _ _ 0%N digits_below_10000 (N.of_nat n)). lia.
Qed.

Lemma length_str_nat_2 (n : nat) : n < 100 -> String.length (Py.str_nat n) <= 2.
Proof.
  intros H. apply Nat.leb_le.
  apply (all_from_spec _ _ 0%N digits_below_100 (N.of_nat n)). lia.
Qed.

Lemma length_strftime (now : datetime) :
  valid_datetime now = true -> String.length (strftime_Ymd now) = 8.
Proof.
  unfold valid_datetime. rewrite !andb_true_iff.
  intros (((((((((Hy1 & Hy2) & Hm1) & Hm2) & Hd1) & Hd2) & _) & _) & _) & _).
  apply Nat.leb_le in Hy1, Hm1, Hm2, Hd1, Hd2. apply Nat.ltb_lt in Hy2.
  unfold strftime_Ymd. rewrite !length_append, !length_fmt_0d.
  pose proof (length_str_nat_year (dt_year now) Hy1 Hy2).
  pose proof (length_str_nat_2 (dt_month now)).
  pose proof (length_str_nat_2 (dt_day now)). lia.
Qed.

(** ** C5: feature identifiers *)

Lemma feature_id_eq (root : gmap string node) (now : datetime) :
  _generate_feature_id root now =
  feature_id_text now (length (glob_feat root) + 1).
Proof. reflexivity. Qed.

Lemma feature_id_form_inj (ts ts' : string) (n m : nat) :
  String.length ts = String.length ts' ->
  "feat_" +:+ ts +:+ "_" +:+ Py.fmt_0d 4 n =
  "feat_" +:+ ts' +:+ "_" +:+ Py.fmt_0d 4 m ->
  ts = ts' /\ n = m.
Proof.
  intros Hlen H. simpl in H. injection H as H.
  destruct (append_inj_length _ _ _ _ Hlen H) as [-> H'].
  simpl in H'. injection H' as H'. split; [reflexivity|].
  now apply fmt_0d_inj in H'.
Qed.

Lemma substring_append_r (a b : string) :
  String.substring (String.length a) (String.length b) (a +:+ b) = b.
Proof.
  induction a as [|c a IH]; simpl; [|exact IH].
  induction b as [|d b IHb]; simpl; [reflexivity|]. now rewrite IHb.
Qed.

Lemma feature_seq_text (now : datetime) (n : nat) :
  valid_datetime now = true -> feature_seq (feature_id_text now n) = Some n.
Proof.
  intros Hv. unfold feature_seq, feature_id_text.
  set (p := Py.fmt_0d 4 n).
  replace ("feat_" +:+ strftime_Ymd now +:+ "_" +:+ p)
    with (("feat_" +:+ strftime_Ymd now +:+ "_") +:+ p)
    by (now rewrite !append_assoc).
  assert (Hl : String.length ("feat_" +:+ strftime_Ymd now +:+ "_") = 14).
  { rewrite !length_append, (length_strftime now Hv). reflexivity. }
  rewrite length_append, Hl.
  replace (14 + String.length p - 14) with (String.length p) by lia.
  rewrite <- Hl at 1. rewrite substring_append_r. apply nat_of_fmt_0d.
Qed.

Lemma glob_feat_elem (root : gmap string node) (name : string) :
  is_Some (root !! name) -> is_feat name = true -> name ∈ glob_feat root.
Proof.
  intros [v Hv] Hf. unfold glob_feat. apply list_elem_of_filter. split; [exact Hf|].
  apply list_elem_of_In, in_map_iff. exists (name, v). split; [reflexivity|].
  apply list_elem_of_In, elem_of_map_to_list. exact Hv.
Qed.

(** A root without entries matching [feat_*], such as a new one, is
    numbered. *)
Lemma no_feat_numbered (root : gmap string node) :
  glob_feat root = [] -> numbered root.
Proof.
  intros He name Hs Hf. pose proof (glob_feat_elem root name Hs Hf) as Hin.
  rewrite He in Hin. now apply elem_of_nil in Hin.
Qed.

(** On a numbered root the next identifier is not taken. *)
Lemma numbered_fresh (root : gmap string node) (now : datetime) :
  numbered root -> valid_datetime now = true ->
  root !! _generate_feature_id root now = None.
Proof.
  intros Hn Hv. destruct (root !! _generate_feature_id root now) eqn:E; [|reflexivity].
  exfalso.
  destruct (Hn (_generate_feature_id root now)) as (ts & k & Hlen & Hk & Heq).
  - rewrite E. eauto.
  - apply feature_id_is_feat.
  - rewrite feature_id_eq in Heq. unfold feature_id_text in Heq.
    apply feature_id_form_inj in Heq as [_ Heq]; [lia|].
    now rewrite length_strftime.
Qed.

Lemma writable_fresh (root : gmap string node) (name : string) :
  root !! name = None -> writable root name = true.
Proof. intros H. unfold writable. now rewrite H. Qed.

(** One invocation on a numbered root: it returns, takes the next number
    and leaves a numbered root. *)
Lemma generate_feature_numbered (root : gmap string node)
    (now_id now_created : datetime) (r : nat) (idea : string)
    (tech_stack : option string) :
  numbered root -> valid_datetime now_id = true ->
  exists d root',
    generate_feature root now_id now_created r idea tech_stack = Some (d, root')
    /\ fd_id d = feature_id_text now_id (length (glob_feat root) + 1)
    /\ length (glob_feat root') = length (glob_feat root) + 1
    /\ numbered root'.
Proof.
  intros Hn Hv. pose proof (numbered_fresh root now_id Hn Hv) as Hfresh.
  destruct (generate_feature_returns root now_id now_created r idea tech_stack
              (writable_fresh _ _ Hfresh))
    as (d & root' & Hrun & Hid & _ & _ & _ & _ & _ & _ & _ & _ & _ & _ & _ & _
        & Hother & Hcount).
  exists d, root'. split; [exact Hrun|]. split; [now rewrite Hid|].
  rewrite Hid in Hcount, Hother. specialize (Hcount Hfresh).
  split; [lia|].
  intros name Hs Hf. rewrite Hcount.
  destruct (decide (name = _generate_feature_id root now_id)) as [->|Hne].
  - exists (strftime_Ymd now_id), (S (length (glob_feat root))).
    split; [now apply length_strftime|]. split; [lia|].
    rewrite feature_id_eq. unfold feature_id_text. now rewrite Nat.add_1_r.
  - rewrite (Hother name Hne) in Hs.
    destruct (Hn name Hs Hf) as (ts & k & Hlen & Hk & Heq).
    exists ts, k. split; [exact Hlen|]. split; [lia | exact Heq].
Qed.

Lemma run_numbered (reqs : list request) (root : gmap string node) :
  numbered root ->
  Forall (fun q => valid_datetime (rq_now_id q) = true) reqs ->
  exists ds root',
    run root reqs = Some (ds, root')
    /\ map fd_id ds = expected_ids (length (glob_feat root)) reqs
    /\ map feature_seq (map fd_id ds)
         = map Some (seq (length (glob_feat root) + 1) (length reqs)).
Proof.
  revert root. induction reqs as [|q reqs IH]; intros root Hn Hv.
  - exists [], root. repeat split; reflexivity.
  - inversion Hv as [|? ? Hq Hv']; subst.
    destruct (generate_feature_numbered root (rq_now_id q) (rq_now_created q)
                (rq_draw q) (rq_idea q) (rq_tech_stack q) Hn Hq)
      as (d & root1 & Hrun & Hid & Hcount & Hn1).
    destruct (IH root1 Hn1 Hv') as (ds & root2 & Hruns & Hids & Hseqs).
    exists (d :: ds), root2. simpl. rewrite Hrun. simpl. rewrite Hruns. simpl.
    split; [reflexivity|]. rewrite Hseqs, Hids, Hid, Hcount.
    rewrite (feature_seq_text _ _ Hq). split; [reflexivity|].
    now rewrite (Nat.add_1_r (length (glob_feat root) + 1)).
Qed.

Lemma str_nat_inj (n m : nat) : Py.str_nat n = Py.str_nat m -> n = m.
Proof. intros H. apply (fmt_0d_inj 0). unfold Py.fmt_0d. simpl. exact H. Qed.

Lemma NoDup_map_injective {A B : Type} (f : A -> B) (l : list A) :
  (forall x y, f x = f y -> x = y) -> List.NoDup l -> List.NoDup (map f l).
Proof.
  intros Hf. induction 1 as [|x l Hx Hl IH]; simpl; constructor; [|exact IH].
  intros Hin. apply in_map_iff in Hin as (y & Hy & Hin).
  apply Hf in Hy as ->. contradiction.
Qed.

Lemma crowded_entries_keys (n : nat) :
  List.NoDup (map fst (crowded_entries n)).
Proof.
  unfold crowded_entries. rewrite map_map. simpl.
  apply NoDup_map_injective; [|apply List.seq_NoDup].
  intros i j H. simpl in H. injection H as H. now apply str_nat_inj.
Qed.

Lemma crowded_entries_feat (n : nat) :
  filter (fun name => is_feat name = true) (map fst (crowded_entries n)) =
  map fst (crowded_entries n).
Proof.
  unfold crowded_entries. induction (seq 0 n) as [|i l IH]; [reflexivity|].
  cbn [map fst]. rewrite filter_cons_True; [now rewrite IH|].
  apply prefix_spec. eexists. reflexivity.
Qed.

(** The crowded root has as many matching entries as names were put. *)
Lemma crowded_root_count : length (glob_feat crowded_root) = 9 * 1111.
Proof.
  unfold glob_feat, crowded_root.
  rewrite (glob_feat_perm _ (crowded_entries (9 * 1111))).
  - rewrite crowded_entries_feat. unfold crowded_entries.
    now rewrite !length_map, length_seq.
  - apply map_to_list_to_map.
    assert (Hfmap : forall l : list (string * node), l.*1 = map fst l)
      by (induction l as [|x l IH]; simpl; [|rewrite <- IH]; reflexivity).
    rewrite Hfmap. apply NoDup_ListNoDup, crowded_entries_keys.
Qed.

(** C5, as stated, fails twice.  On a root whose only entry is a
    directory left under the number 2, two successive invocations on the
    same day both return the identifier numbered 2: the sequence number
    does not increase.  And with 9999 entries matching [feat_*] the
    sequence part of the identifier has five digits. *)
Lemma C5_sequence_refuted :
  (exists d1 d2 root',
     run leftover_root [sample_request; sample_request] = Some ([d1; d2], root')
     /\ fd_id d1 = "feat_20260115_0002"
     /\ fd_id d2 = "feat_20260115_0002")
  /\ (length (glob_feat crowded_root) = 9 * 1111
      /\ _generate_feature_id crowded_root sample_now = "feat_20260115_10000").
Proof.
  split.
  - assert (Hid : _generate_feature_id leftover_root sample_now = "feat_20260115_0002")
      by (vm_compute; reflexivity).
    destruct (generate_feature_reuse leftover_root sample_now sample_now 0
                sample_idea None)
      as (d1 & root1 & Hrun1 & Hid1 & Hcount1 & Hs1 & Hw1);
      [rewrite Hid; vm_compute; eauto | rewrite Hid; reflexivity |].
    assert (Hid' : _generate_feature_id root1 sample_now = "feat_20260115_0002").
    { rewrite feature_id_eq, Hcount1, <- feature_id_eq. exact Hid. }
    rewrite Hid in Hid1. rewrite Hid1 in Hs1, Hw1.
    destruct (generate_feature_reuse root1 sample_now sample_now 0
                sample_idea None)
      as (d2 & root2 & Hrun2 & Hid2 & _); [now rewrite Hid' ..|].
    exists d1, d2, root2. unfold run, sample_request. simpl.
    rewrite Hrun1. simpl. rewrite Hrun2. simpl.
    split; [reflexivity|]. split; [exact Hid1 | now rewrite Hid2].
  - split; [exact crowded_root_count|].
    rewrite feature_id_eq, crowded_root_count. vm_compute. reflexivity.
Qed.

(** C5, amended: at a valid date the allocator returns
    feat_<YYYYMMDD>_<sequence>, where the sequence is 1 plus the number of
    entries of the artifact root matching [feat_*], whatever their dates,
    written with at least four digits (exactly four up to 9999); an
    invocation that creates its directory raises that number by one; and
    on a root whose matching entries are numbered (a root without such
    entries is), every run of successive invocations returns and takes
    the next sequence numbers in order, whatever the dates. *)
Theorem C5_feature_id_sequence :
  (forall root now,
     valid_datetime now = true ->
     exists ts sq,
       _generate_feature_id root now = "feat_" +:+ ts +:+ "_" +:+ sq
       /\ ts = strftime_Ymd now
       /\ String.length ts = 8 /\ all_digits ts = true
       /\ all_digits sq = true
       /\ nat_of_string sq = Some (1 + length (glob_feat root))
       /\ 4 <= String.length sq
       /\ (1 + length (glob_feat root) < 10 * 1000 -> String.length sq = 4))
  /\ (forall root now_id now_created r idea tech_stack d root',
        generate_feature root now_id now_created r idea tech_stack = Some (d, root') ->
        root !! fd_id d = None ->
        length (glob_feat root') = 1 + length (glob_feat root))
  /\ (forall root, glob_feat root = [] -> numbered root)
  /\ (forall root reqs,
        numbered root ->
        Forall (fun q => valid_datetime (rq_now_id q) = true) reqs ->
        exists ds root',
          run root reqs = Some (ds, root')
          /\ map fd_id ds = expected_ids (length (glob_feat root)) reqs
          /\ map feature_seq (map fd_id ds)
               = map Some (seq (length (glob_feat root) + 1) (length reqs))).
Proof.
  split; [|split; [|split]].
  - intros root now Hv.
    exists (strftime_Ymd now), (Py.fmt_0d 4 (length (glob_feat root) + 1)).
    split; [reflexivity|]. split; [reflexivity|].
    split; [now apply length_strftime|].
    split; [unfold strftime_Ymd;
            now rewrite !all_digits_append, all_digits_str_nat, !all_digits_fmt_0d|].
    split; [apply all_digits_fmt_0d|].
    split; [now rewrite nat_of_fmt_0d, Nat.add_1_r|].
    rewrite length_fmt_0d. split; [lia|]. intros Hlt.
    pose proof (length_str_nat_4 (length (glob_feat root) + 1)). lia.
  - intros root now_id now_created r idea tech_stack d root' Hrun Hfresh.
    assert (Hid : fd_id d = _generate_feature_id root now_id).
    { unfold generate_feature in Hrun.
      destruct (mkdir_exist_ok _ _); [|discriminate]. simpl in Hrun.
      destruct (_save_feature _ _ _); [|discriminate].
      simpl in Hrun. now injection Hrun as <- _. }
    rewrite Hid in Hfresh.
    destruct (generate_feature_returns root now_id now_created r idea tech_stack
                (writable_fresh _ _ Hfresh))
      as (d0 & root0 & Hrun0 & Hid0 & _ & _ & _ & _ & _ & _ & _ & _ & _ & _ & _ & _
          & _ & Hcount).
    rewrite Hrun in Hrun0. injection Hrun0 as <- <-.
    rewrite Hid in Hcount. now apply Hcount.
  - exact no_feat_numbered.
  - intros root reqs. apply run_numbered.
Qed.

(** The theorem on a new root for three requests whose dates are not in
    order: the sequence numbers are 1, 2, 3. *)
Lemma C5_feature_id_sequence_witness :
  (numbered ∅ /\
   Forall (fun q => valid_datetime (rq_now_id q) = true) sample_requests) /\
  exists ds root',
    run ∅ sample_requests = Some (ds, root')
    /\ map fd_id ds = [ "feat_20260115_0001"; "feat_20270301_0002";
                        "feat_20260115_0003" ]
    /\ map feature_seq (map fd_id ds) = [Some 1; Some 2; Some 3].
Proof.
  assert (Hn : numbered ∅) by (apply no_feat_numbered; reflexivity).
  assert (Hv : Forall (fun q => valid_datetime (rq_now_id q) = true) sample_requests)
    by (repeat constructor).
  split; [split; assumption|].
  destruct (proj2 (proj2 (proj2 C5_feature_id_sequence)) ∅ sample_requests Hn Hv)
    as (ds & root' & Hrun & Hids & Hseqs).
  exists ds, root'. split; [exact Hrun|]. split.
  - rewrite Hids. vm_compute. reflexivity.
  - rewrite Hseqs. reflexivity.
Defined.

(** ** Reading back what the encoder wrote *)

(** *** Strings *)

Lemma parse_string_char (c : ascii) (t : string) :
  Json.parse_string (Json.escape_char c +:+ t) =
  '(u, r) ← Json.parse_string t; Some (String c u, r).
Proof. destruct c as [[|] [|] [|] [|] [|] [|] [|] [|]]; reflexivity. Qed.

Lemma parse_string_escape (s rest : string) :
  Json.parse_string (Json.escape s +:+ String Py.dquote rest) = Some (s, rest).
Proof.
  induction s as [|c s IH]; [reflexivity|].
  simpl Json.escape. rewrite append_assoc, parse_string_char, IH. reflexivity.
Qed.

Lemma encode_string_append (s t : string) :
  Json.encode_string s +:+ t =
  String Py.dquote (Json.escape s +:+ String Py.dquote t).
Proof. unfold Json.encode_string. simpl. now rewrite append_assoc. Qed.

(** *** Integers *)

Lemma value_end_digits (rest : string) :
  value_end rest = true -> Json.read_digits rest = (Nil, rest).
Proof.
  destruct rest as [|c t]; [reflexivity|]. simpl. intros H.
  apply orb_true_iff in H as [H|H]; apply Ascii.eqb_eq in H; subst; reflexivity.
Qed.

Lemma value_end_fraction (rest : string) :
  value_end rest = true -> Json.starts_fraction rest = false.
Proof.
  destruct rest as [|c t]; [reflexivity|]. simpl. intros H.
  apply orb_true_iff in H as [H|H]; apply Ascii.eqb_eq in H; subst; reflexivity.
Qed.

Lemma read_digits_uint (d : uint) (rest : string) :
  value_end rest = true ->
  Json.read_digits (NilEmpty.string_of_uint d +:+ rest) = (d, rest).
Proof.
  intros H. induction d; simpl; rewrite ?IHd; try reflexivity.
  now apply value_end_digits.
Qed.

(** The decimal digits of a positive number start with a digit that is
    not zero. *)
Lemma pos_to_uint_head (p : positive) :
  match Pos.to_uint p with
  | Nil | D0 _ => False
  | _ => True
  end.
Proof.
  pose proof (DecimalPos.Unsigned.to_uint_nonzero p) as Hnz.
  pose proof (DecimalN.Unsigned.to_of (Pos.to_uint p)) as Hnorm.
  change (N.of_uint (Pos.to_uint p)) with (Pos.of_uint (Pos.to_uint p)) in Hnorm.
  rewrite DecimalPos.Unsigned.of_to in Hnorm. simpl in Hnorm.
  pose proof (DecimalPos.Unsigned.to_uint_nonnil p) as Hnn.
  destruct (Pos.to_uint p) as [|d| | | | | | | | |]; try exact I; [congruence|].
  unfold unorm in Hnorm. simpl in Hnorm.
  destruct (nzhead d) eqn:E; try (symmetry in Hnorm; discriminate).
  - apply Hnz. injection Hnorm as <-. reflexivity.
  - injection Hnorm as <-. now apply DecimalFacts.nzhead_nonzero in E.
Qed.

Lemma parse_uint_pos (p : positive) (rest : string) :
  value_end rest = true ->
  Json.parse_uint (NilEmpty.string_of_uint (Pos.to_uint p) +:+ rest) =
  Some (Pos.to_uint p, rest).
Proof.
  intros H. pose proof (pos_to_uint_head p) as Hh.
  destruct (Pos.to_uint p) as [|d|d|d|d|d|d|d|d|d|d]; try contradiction;
    unfold Json.parse_uint; simpl;
    rewrite (read_digits_uint d rest H), (value_end_fraction rest H); reflexivity.
Qed.

Lemma parse_number_int (z : Z) (rest : string) :
  value_end rest = true ->
  Json.parse_number (Py.str_int z +:+ rest) = Some (JInt z, rest).
Proof.
  intros H. rewrite <- (DecimalZ.of_to z) at 2.
  unfold Py.str_int. destruct z as [|p|p]; simpl Z.to_int.
  - simpl. now rewrite (value_end_fraction rest H).
  - simpl NilEmpty.string_of_int. pose proof (pos_to_uint_head p) as Hh.
    pose proof (parse_uint_pos p rest H) as Hp.
    destruct (Pos.to_uint p) as [|d|d|d|d|d|d|d|d|d|d]; try contradiction;
      unfold Json.parse_number; simpl String.append in *; rewrite Hp; reflexivity.
  - simpl NilEmpty.string_of_int. simpl String.append.
    unfold Json.parse_number. cbv beta iota.
    now rewrite (parse_uint_pos p rest H).
Qed.

(** *** Whitespace and the first character of a value *)

Lemma skip_ws_spaces (k : nat) (t : string) :
  Json.skip_ws (Json.spaces k +:+ t) = Json.skip_ws t.
Proof. induction k as [|k IH]; simpl; [reflexivity | exact IH]. Qed.

Lemma skip_ws_newline_indent (k : nat) (t : string) :
  Json.skip_ws (Json.newline_indent k +:+ t) = Json.skip_ws t.
Proof. unfold Json.newline_indent. cbn. apply skip_ws_spaces. Qed.

Lemma value_end_newline_indent (k : nat) (t : string) :
  value_end (Json.newline_indent k +:+ t) = true.
Proof. reflexivity. Qed.

Lemma length_newline_indent (k : nat) :
  1 <= String.length (Json.newline_indent k).
Proof. unfold Json.newline_indent. simpl. lia. Qed.

#[local] Opaque Json.newline_indent.

(** No value starts with whitespace or with a closing bracket. *)
Lemma encode_head (level : nat) (j : json) :
  exists c s, Json.encode level j = String c s
              /\ Json.is_ws c = false
              /\ Ascii.eqb c "]" = false /\ Ascii.eqb c "}" = false.
Proof.
  destruct j as [|[|]|z|s|[|x xs]|[|[k v] ms]]; simpl;
    try (eexists _, _; repeat split; reflexivity).
  unfold Py.str_int. destruct z as [|p|p]; simpl;
    try (eexists _, _; repeat split; reflexivity).
  pose proof (pos_to_uint_head p) as Hh.
  destruct (Pos.to_uint p); try contradiction; simpl;
    eexists _, _; repeat split; reflexivity.
Qed.

Lemma skip_ws_encode (level : nat) (j : json) (t : string) :
  Json.skip_ws (Json.encode level j +:+ t) = Json.encode level j +:+ t.
Proof.
  destruct (encode_head level j) as (c & s & -> & Hws & _). simpl. now rewrite Hws.
Qed.

Lemma json_size_pos (j : json) : 1 <= json_size j.
Proof. destruct j; simpl; lia. Qed.

(** *** Arrays and objects *)

Lemma parse_items_S (f : nat) (s : string) :
  Json.parse_items (S f) s =
  '(v, r) ← Json.parse_value f s;
  match Json.skip_ws r with
  | String "," r' =>
      '(l, r'') ← Json.parse_items f (Json.skip_ws r'); Some (v :: l, r'')
  | String "]" r' => Some ([v], r')
  | _ => None
  end.
Proof. reflexivity. Qed.

Lemma parse_members_S (f : nat) (s' : string) :
  Json.parse_members (S f) (String Py.dquote s') =
  '(k, r) ← Json.parse_string s';
  match Json.skip_ws r with
  | String ":" r' =>
      '(v, r'') ← Json.parse_value f (Json.skip_ws r');
      match Json.skip_ws r'' with
      | String "," r3 =>
          '(l, r4) ← Json.parse_members f (Json.skip_ws r3);
          Some ((k, v) :: l, r4)
      | String "}" r3 => Some ([(k, v)], r3)
      | _ => None
      end
  | _ => None
  end.
Proof. reflexivity. Qed.

Lemma encode_items_nil (level : nat) (t : string) :
  Json.encode_items level [] +:+ t = t.
Proof. reflexivity. Qed.

Lemma encode_members_nil (level : nat) (t : string) :
  Json.encode_members level [] +:+ t = t.
Proof. reflexivity. Qed.

Lemma parse_items_encoded (xs : list json) :
  forall x level fuel rest,
    reads_back x -> Forall reads_back xs ->
    json_wf x = true -> items_wf xs = true ->
    S (json_size x + items_size xs) <= fuel ->
    Json.parse_items fuel
      (Json.encode (S level) x +:+ Json.encode_items level xs +:+
       Json.newline_indent level +:+ String "]" rest)
    = Some (x :: xs, rest).
Proof.
  induction xs as [|y ys IH]; intros x level fuel rest Hx Hxs Hwx Hwxs Hfuel;
    (destruct fuel as [|f]; [lia|]); rewrite parse_items_S.
  - rewrite encode_items_nil.
    rewrite (Hx (S level) f _ Hwx) by (simpl in Hfuel; first [lia | reflexivity]).
    simpl. rewrite skip_ws_newline_indent. reflexivity.
  - simpl in Hwxs. apply andb_true_iff in Hwxs as [Hwy Hwys].
    inversion Hxs as [|? ? Hy Hys]; subst.
    change (Json.encode_items level (y :: ys))
      with ("," +:+ Json.newline_indent (S level) +:+ Json.encode (S level) y +:+
            Json.encode_items level ys).
    rewrite !append_assoc.
    simpl in Hfuel.
    rewrite (Hx (S level) f _ Hwx) by first [lia | reflexivity].
    simpl. rewrite skip_ws_newline_indent, skip_ws_encode.
    rewrite (IH y level f rest Hy Hys Hwy Hwys) by lia. reflexivity.
Qed.

Lemma parse_members_encoded (ms : list (string * json)) :
  forall k v level fuel rest,
    reads_back v -> Forall (fun kv => reads_back (snd kv)) ms ->
    json_wf v = true -> members_wf ms = true ->
    S (json_size v + members_size ms) <= fuel ->
    Json.parse_members fuel
      (Json.encode_string k +:+ ": " +:+ Json.encode (S level) v +:+
       Json.encode_members level ms +:+
       Json.newline_indent level +:+ String "}" rest)
    = Some ((k, v) :: ms, rest).
Proof.
  induction ms as [|[k' v'] ms IH]; intros k v level fuel rest Hv Hms Hwv Hwms Hfuel;
    (destruct fuel as [|f]; [lia|]);
    rewrite encode_string_append, parse_members_S, parse_string_escape.
  - rewrite encode_members_nil. simpl. rewrite skip_ws_encode.
    rewrite (Hv (S level) f _ Hwv) by (simpl in Hfuel; first [lia | reflexivity]).
    simpl. rewrite skip_ws_newline_indent. reflexivity.
  - simpl in Hwms. apply andb_true_iff in Hwms as [Hwv' Hwms].
    inversion Hms as [|? ? Hv' Hms']; subst. simpl in Hv'.
    change (Json.encode_members level ((k', v') :: ms))
      with ("," +:+ Json.newline_indent (S level) +:+ Json.encode_string k' +:+
            ": " +:+ Json.encode (S level) v' +:+ Json.encode_members level ms).
    rewrite !append_assoc. simpl in Hfuel. simpl. rewrite skip_ws_encode.
    rewrite (Hv (S level) f _ Hwv) by first [lia | reflexivity].
    simpl. rewrite skip_ws_newline_indent.
    pose proof (IH k' v' level f rest Hv' Hms' Hwv' Hwms) as Hrec.
    rewrite encode_string_append in Hrec.
    simpl in Hrec. simpl. rewrite append_assoc. simpl.
    rewrite Hrec by lia. reflexivity.
Qed.

(** *** Dicts from distinct keys *)

Lemma distinct_cons (k : string) (l : list string) :
  distinct (k :: l) = true <-> ~ In k l /\ distinct l = true.
Proof.
  simpl. rewrite andb_true_iff, negb_true_iff. split; intros [H1 H2]; split; auto.
  - intros Hin. assert (existsb (String.eqb k) l = true); [|congruence].
    apply existsb_exists. exists k. split; [exact Hin | apply String.eqb_refl].
  - destruct (existsb (String.eqb k) l) eqn:E; [|reflexivity]. exfalso.
    apply existsb_exists in E as (x & Hin & Hx).
    apply String.eqb_eq in Hx as <-. contradiction.
Qed.

Lemma dict_set_fresh {V : Type} (d : list (string * V)) (k : string) (v : V) :
  ~ In k (dict_keys d) -> dict_set k v d = d ++ [(k, v)].
Proof.
  induction d as [|[k0 v0] d IH]; simpl; [reflexivity|].
  intros Hnin. destruct (String.eqb k k0) eqn:E.
  - apply String.eqb_eq in E as ->. exfalso. apply Hnin. now left.
  - f_equal. apply IH. intros Hin. apply Hnin. now right.
Qed.

Lemma dict_of_pairs_app (l acc : list (string * json)) :
  distinct (map fst (acc ++ l)) = true ->
  fold_left (fun d kv => dict_set (fst kv) (snd kv) d) l acc = acc ++ l.
Proof.
  revert acc. induction l as [|[k v] l IH]; intros acc Hd; simpl.
  - now rewrite app_nil_r.
  - assert (Hfresh : ~ In k (dict_keys acc)).
    { clear IH. unfold dict_keys. induction acc as [|[k0 v0] acc IHacc]; simpl in *.
      - tauto.
      - apply andb_true_iff in Hd as [Hk0 Hd]. apply negb_true_iff in Hk0.
        intros [->|Hin]; [|now apply IHacc].
        assert (existsb (String.eqb k) (map fst (acc ++ (k, v) :: l)) = true);
          [|congruence].
        apply existsb_exists. exists k. split; [|apply String.eqb_refl].
        rewrite map_app. apply in_or_app. right. now left. }
    rewrite (dict_set_fresh acc k v Hfresh).
    rewrite IH; rewrite <- app_assoc; [reflexivity | exact Hd].
Qed.

Lemma dict_of_pairs_distinct (ms : list (string * json)) :
  distinct (map fst ms) = true -> Json.dict_of_pairs ms = ms.
Proof. intros H. unfold Json.dict_of_pairs. now rewrite dict_of_pairs_app. Qed.

(** *** Every well-formed value reads back *)

Lemma parse_value_number (f : nat) (z : Z) (rest : string) :
  Json.parse_value (S f) (Py.str_int z +:+ rest) =
  Json.parse_number (Py.str_int z +:+ rest).
Proof.
  unfold Py.str_int. destruct z as [|p|p]; try reflexivity.
  simpl Z.to_int. simpl NilEmpty.string_of_int.
  pose proof (pos_to_uint_head p) as Hh.
  destruct (Pos.to_uint p); try contradiction; reflexivity.
Qed.

Lemma parse_array_open (f : nat) (s' t : string) :
  Json.skip_ws s' = t ->
  (exists c r, t = String c r /\ Ascii.eqb c "]" = false) ->
  Json.parse_value (S f) (String "[" s') =
  '(l, r') ← Json.parse_items f t; Some (JArr l, r').
Proof. intros <- (c & r & H1 & H2). simpl. rewrite H1, H2. reflexivity. Qed.

Lemma parse_object_open (f : nat) (s' t : string) :
  Json.skip_ws s' = t ->
  (exists c r, t = String c r /\ Ascii.eqb c "}" = false) ->
  Json.parse_value (S f) (String "{" s') =
  '(l, r') ← Json.parse_members f t;
  Some (JObj (Json.dict_of_pairs l), r').
Proof. intros <- (c & r & H1 & H2). simpl. rewrite H1, H2. reflexivity. Qed.

Lemma encode_arr_cons (level : nat) (x : json) (xs : list json) (rest : string) :
  Json.encode level (JArr (x :: xs)) +:+ rest =
  String "[" (Json.newline_indent (S level) +:+ Json.encode (S level) x +:+
              Json.encode_items level xs +:+
              Json.newline_indent level +:+ String "]" rest).
Proof.
  change (Json.encode level (JArr (x :: xs)))
    with ("[" +:+ Json.newline_indent (S level) +:+ Json.encode (S level) x +:+
          Json.encode_items level xs +:+ Json.newline_indent level +:+ "]").
  rewrite !append_assoc. reflexivity.
Qed.

Lemma encode_obj_cons (level : nat) (k : string) (v : json)
    (ms : list (string * json)) (rest : string) :
  Json.encode level (JObj ((k, v) :: ms)) +:+ rest =
  String "{" (Json.newline_indent (S level) +:+ Json.encode_string k +:+ ": " +:+
              Json.encode (S level) v +:+ Json.encode_members level ms +:+
              Json.newline_indent level +:+ String "}" rest).
Proof.
  change (Json.encode level (JObj ((k, v) :: ms)))
    with ("{" +:+ Json.newline_indent (S level) +:+ Json.encode_string k +:+ ": " +:+
          Json.encode (S level) v +:+ Json.encode_members level ms +:+
          Json.newline_indent level +:+ "}").
  rewrite !append_assoc. reflexivity.
Qed.

Lemma skip_ws_encode_string (k t : string) :
  Json.skip_ws (Json.encode_string k +:+ t) = Json.encode_string k +:+ t.
Proof. reflexivity. Qed.

Lemma encode_reads_back (j : json) : reads_back j.
Proof.
  induction j as [|b|z|s|l IH|ms IH] using json_induction;
    intros level fuel rest Hwf Hfuel Hend;
    (destruct fuel as [|f]; [simpl in Hfuel; lia|]).
  - reflexivity.
  - destruct b; reflexivity.
  - simpl Json.encode. rewrite parse_value_number. now apply parse_number_int.
  - simpl Json.encode. rewrite encode_string_append. simpl.
    now rewrite parse_string_escape.
  - destruct l as [|x xs]; [reflexivity|].
    rewrite encode_arr_cons.
    destruct (encode_head (S level) x) as (c & t & Hc & _ & Hnot & _).
    inversion IH as [|? ? Hx Hxs]; subst.
    change (json_wf (JArr (x :: xs))) with (json_wf x && items_wf xs) in Hwf.
    apply andb_true_iff in Hwf as [Hwx Hwxs].
    change (json_size (JArr (x :: xs)))
      with (S (S (json_size x + items_size xs))) in Hfuel.
    erewrite parse_array_open;
      [ | rewrite skip_ws_newline_indent, skip_ws_encode; reflexivity
        | rewrite Hc; eexists _, _; split; [reflexivity | exact Hnot] ].
    rewrite parse_items_encoded; auto with lia.
  - destruct ms as [|[k v] ms]; [reflexivity|].
    rewrite encode_obj_cons.
    inversion IH as [|? ? Hv Hms]; subst. simpl in Hv.
    change (json_wf (JObj ((k, v) :: ms)))
      with (distinct (map fst ((k, v) :: ms)) && (json_wf v && members_wf ms)) in Hwf.
    apply andb_true_iff in Hwf as [Hd Hwf].
    apply andb_true_iff in Hwf as [Hwv Hwms].
    change (json_size (JObj ((k, v) :: ms)))
      with (S (S (json_size v + members_size ms))) in Hfuel.
    erewrite parse_object_open;
      [ | rewrite skip_ws_newline_indent, skip_ws_encode_string; reflexivity
        | eexists _, _; split; reflexivity ].
    rewrite parse_members_encoded; auto with lia.
    simpl. now rewrite dict_of_pairs_distinct.
Qed.

(** *** Fuel: the length of the text bounds the size of the value *)

Lemma items_size_length (level : nat) (xs : list json) :
  Forall (fun x => forall level, json_size x <= String.length (Json.encode level x)) xs ->
  items_size xs <= String.length (Json.encode_items level xs).
Proof.
  induction 1 as [|y ys Hy _ IH]; [simpl; lia|].
  change (Json.encode_items level (y :: ys))
    with ("," +:+ Json.newline_indent (S level) +:+ Json.encode (S level) y +:+
          Json.encode_items level ys).
  change (items_size (y :: ys)) with (S (json_size y + items_size ys)).
  rewrite !length_append. specialize (Hy (S level)).
  pose proof (length_newline_indent (S level)). simpl String.length. lia.
Qed.

Lemma members_size_length (level : nat) (ms : list (string * json)) :
  Forall (fun kv => forall level,
            json_size (snd kv) <= String.length (Json.encode level (snd kv))) ms ->
  members_size ms <= String.length (Json.encode_members level ms).
Proof.
  induction 1 as [|[k v] ms Hv _ IH]; [simpl; lia|].
  change (Json.encode_members level ((k, v) :: ms))
    with ("," +:+ Json.newline_indent (S level) +:+ Json.encode_string k +:+ ": " +:+
          Json.encode (S level) v +:+ Json.encode_members level ms).
  change (members_size ((k, v) :: ms)) with (S (json_size v + members_size ms)).
  rewrite !length_append. specialize (Hv (S level)). simpl in Hv.
  simpl String.length. lia.
Qed.

Lemma json_size_length (j : json) (level : nat) :
  json_size j <= String.length (Json.encode level j).
Proof.
  revert level.
  induction j as [|b|z|s|l IH|ms IH] using json_induction; intros level.
  - simpl. lia.
  - destruct b; simpl; lia.
  - destruct (encode_head level (JInt z)) as (c & t & -> & _). simpl. lia.
  - simpl. lia.
  - destruct l as [|x xs]; [simpl; lia|].
    inversion IH as [|? ? Hx Hxs]; subst.
    pose proof (encode_arr_cons level x xs EmptyString) as He.
    rewrite append_nil_r in He. rewrite He.
    change (json_size (JArr (x :: xs))) with (S (S (json_size x + items_size xs))).
    simpl String.length. rewrite !length_append.
    pose proof (items_size_length level xs Hxs). specialize (Hx (S level)).
    simpl String.length. lia.
  - destruct ms as [|[k v] ms]; [simpl; lia|].
    inversion IH as [|? ? Hv Hms]; subst. simpl in Hv.
    change (Json.encode level (JObj ((k, v) :: ms)))
      with ("{" +:+ Json.newline_indent (S level) +:+ Json.encode_string k +:+ ": " +:+
            Json.encode (S level) v +:+ Json.encode_members level ms +:+
            Json.newline_indent level +:+ "}").
    change (json_size (JObj ((k, v) :: ms)))
      with (S (S (json_size v + members_size ms))).
    rewrite !length_append.
    pose proof (members_size_length level ms Hms). specialize (Hv (S level)).
    change (String.length "{") with 1. change (String.length ": ") with 2. lia.
Qed.

(** Reading the encoded text of a well-formed value returns the value. *)
Lemma loads_dumps (j : json) :
  json_wf j = true -> Json.loads (Json.dumps j) = Some j.
Proof.
  intros Hwf. unfold Json.loads, Json.dumps.
  rewrite <- (append_nil_r (Json.encode 0 j)) at 2.
  rewrite skip_ws_encode.
  rewrite (encode_reads_back j 0 _ EmptyString Hwf (json_size_length j 0) eq_refl).
  reflexivity.
Qed.

(** ** C9: the structured data file reads back *)

Lemma JStrs_wf (l : list string) : json_wf (JStrs l) = true.
Proof. unfold JStrs. simpl. induction l; simpl; auto. Qed.

Lemma json_wf_obj (ms : list (string * json)) :
  json_wf (JObj ms) = distinct (map fst ms) && members_wf ms.
Proof. reflexivity. Qed.

Lemma members_wf_cons (k : string) (v : json) (ms : list (string * json)) :
  members_wf ((k, v) :: ms) = json_wf v && members_wf ms.
Proof. reflexivity. Qed.

Lemma spec_json_wf (s : Spec) : json_wf (spec_json s) = true.
Proof.
  unfold spec_json. rewrite json_wf_obj, !members_wf_cons, !JStrs_wf.
  reflexivity.
Qed.

Lemma stories_json_wf (l : list Story) : items_wf (map story_json l) = true.
Proof. induction l as [|s l IH]; simpl; auto. Qed.

Lemma criteria_json_wf (d : list (string * CriteriaBlock)) :
  distinct (dict_keys d) = true -> json_wf (criteria_json d) = true.
Proof.
  intros Hd. unfold criteria_json. rewrite json_wf_obj.
  assert (Hk : forall (f : string * CriteriaBlock -> json),
             map fst (map (fun kb => (fst kb, f kb)) d) = dict_keys d).
  { intros f. unfold dict_keys. induction d as [|kb d IH]; simpl; [reflexivity|].
    f_equal. apply IH. now apply distinct_cons in Hd. }
  rewrite Hk, Hd. cbn [andb].
  clear Hd Hk. induction d as [|[k b] d IH]; [reflexivity|].
  cbn [map]. rewrite members_wf_cons, json_wf_obj, !members_wf_cons, JStrs_wf.
  exact IH.
Qed.

Lemma feature_json_wf (d : FeatureData) :
  json_wf (feature_json d) =
  json_wf (spec_json (fd_specification d))
  && items_wf (map story_json (fd_user_stories d))
  && json_wf (criteria_json (fd_acceptance_criteria d))
  && items_wf (map req_json (fd_technical_requirements d))
  && json_wf (api_json (fd_api_specification d))
  && json_wf (schema_json (fd_database_schema d)).
Proof.
  unfold feature_json. rewrite json_wf_obj, !members_wf_cons.
  change (json_wf (JArr ?l)) with (items_wf l).
  cbn. rewrite !andb_true_r, !andb_assoc. reflexivity.
Qed.

(** The record the pipeline assembles is a proper dict: every object in
    it has distinct keys. *)
Lemma generated_json_wf (d : FeatureData) (r : nat) (idea : string)
    (tech_stack : option string) :
  fd_specification d = _create_feature_spec r idea tech_stack ->
  fd_user_stories d = _generate_user_stories (fd_specification d) ->
  fd_acceptance_criteria d =
    _generate_acceptance_criteria (fd_specification d) (fd_user_stories d) ->
  fd_technical_requirements d =
    _generate_technical_requirements (fd_specification d) tech_stack ->
  fd_api_specification d = _generate_api_spec (fd_specification d) ->
  fd_database_schema d = _generate_database_schema (fd_specification d) ->
  json_wf (feature_json d) = true.
Proof.
  intros Hspec Hst Hcr Hrq Hapi Hdb. rewrite feature_json_wf.
  rewrite spec_json_wf, stories_json_wf, Hrq, Hapi, Hdb.
  rewrite criteria_json_wf; [reflexivity|].
  rewrite Hcr, Hst, Hspec. reflexivity.
Qed.

(** *** The dict layout determines the record *)

Lemma map_injective {A B : Type} (f : A -> B) (l l' : list A) :
  (forall x y, f x = f y -> x = y) -> map f l = map f l' -> l = l'.
Proof.
  intros Hf. revert l'. induction l as [|x l IH]; intros [|y l'] H;
    simpl in H; try discriminate; [reflexivity|].
  injection H as Hxy H. f_equal; auto.
Qed.

Lemma JStrs_inj (l l' : list string) : map JStr l = map JStr l' -> l = l'.
Proof. apply (map_injective JStr). now intros x y [= ->]. Qed.

Lemma shape_json_inj (d d' : list (string * string)) :
  map (fun kv : string * string => (fst kv, JStr (snd kv))) d =
  map (fun kv : string * string => (fst kv, JStr (snd kv))) d' -> d = d'.
Proof.
  apply map_injective. intros [k v] [k' v'] [= -> ->]. reflexivity.
Qed.

Lemma spec_json_inj (s s' : Spec) : spec_json s = spec_json s' -> s = s'.
Proof.
  destruct s, s'. unfold spec_json. simpl. intros H.
  injection H as -> -> -> -> Hm Hv -> Hs.
  apply JStrs_inj in Hm, Hv, Hs. now subst.
Qed.

Lemma story_json_inj (s s' : Story) : story_json s = story_json s' -> s = s'.
Proof.
  destruct s, s'. unfold story_json. simpl. intros H.
  injection H as -> -> -> -> -> ->. reflexivity.
Qed.

Lemma criteria_json_inj (d d' : list (string * CriteriaBlock)) :
  criteria_json d = criteria_json d' -> d = d'.
Proof.
  unfold criteria_json. intros H. injection H as H.
  eapply map_injective; [|exact H].
  intros [k [s c]] [k' [s' c']]. simpl. intros Hkb.
  injection Hkb as -> -> Hc. apply JStrs_inj in Hc. now subst.
Qed.

Lemma req_json_inj (r r' : TechReq) : req_json r = req_json r' -> r = r'.
Proof.
  destruct r, r'. unfold req_json. simpl. intros H.
  injection H as -> -> Ht ->. apply JStrs_inj in Ht. now subst.
Qed.

Lemma endpoint_json_inj (e e' : Endpoint) :
  endpoint_json e = endpoint_json e' -> e = e'.
Proof.
  destruct e as [p m ds [a|] [rq|] rs], e' as [p' m' ds' [a'|] [rq'|] rs'];
    unfold endpoint_json; simpl; intros H; injection H; intros; subst;
    repeat match goal with
           | H : map _ _ = map _ _ |- _ => apply shape_json_inj in H
           end;
    subst; try reflexivity; try discriminate.
Qed.

Lemma api_json_inj (a a' : ApiSpec) : api_json a = api_json a' -> a = a'.
Proof.
  destruct a, a'. unfold api_json. simpl. intros H. injection H as -> -> He.
  apply (map_injective endpoint_json) in He; [now subst|].
  apply endpoint_json_inj.
Qed.

Lemma column_json_inj (c c' : Column) : column_json c = column_json c' -> c = c'.
Proof.
  destruct c as [n t [pk|] [u|] [fk|]], c' as [n' t' [pk'|] [u'|] [fk'|]];
    unfold column_json; simpl; intros H; injection H; intros; subst;
    try reflexivity; try discriminate.
Qed.

Lemma table_json_inj (t t' : Table) : table_json t = table_json t' -> t = t'.
Proof.
  destruct t, t'. unfold table_json. simpl. intros H. injection H as -> Hc.
  apply (map_injective column_json) in Hc; [now subst|].
  apply column_json_inj.
Qed.

Lemma schema_json_inj (s s' : DbSchema) : schema_json s = schema_json s' -> s = s'.
Proof.
  destruct s, s'. unfold schema_json. simpl. intros H. injection H as -> Ht.
  apply (map_injective table_json) in Ht; [now subst|].
  apply table_json_inj.
Qed.

(** Two records with the same dict are the same record. *)
Lemma feature_json_inj (d d' : FeatureData) :
  feature_json d = feature_json d' -> d = d'.
Proof.
  destruct d as [i1 a1 sp1 st1 cr1 rq1 ap1 db1 s1 c1 v1],
           d' as [i2 a2 sp2 st2 cr2 rq2 ap2 db2 s2 c2 v2].
  unfold feature_json.
  cbn [fd_id fd_idea fd_specification fd_user_stories fd_acceptance_criteria
       fd_technical_requirements fd_api_specification fd_database_schema
       fd_status fd_created_at fd_pm_agent].
  intros H.
  remember (spec_json sp1) as j1 eqn:E1.
  remember (spec_json sp2) as j1' eqn:E1'.
  remember (criteria_json cr1) as j2 eqn:E2.
  remember (criteria_json cr2) as j2' eqn:E2'.
  remember (api_json ap1) as j3 eqn:E3.
  remember (api_json ap2) as j3' eqn:E3'.
  remember (schema_json db1) as j4 eqn:E4.
  remember (schema_json db2) as j4' eqn:E4'.
  remember (map story_json st1) as l1 eqn:F1.
  remember (map story_json st2) as l1' eqn:F1'.
  remember (map req_json rq1) as l2 eqn:F2.
  remember (map req_json rq2) as l2' eqn:F2'.
  injection H as -> -> Hsp Hst Hcr Hrq Hapi Hdb -> -> ->. subst.
  apply spec_json_inj in Hsp. apply criteria_json_inj in Hcr.
  apply api_json_inj in Hapi. apply schema_json_inj in Hdb.
  apply (map_injective story_json) in Hst; [|apply story_json_inj].
  apply (map_injective req_json) in Hrq; [|apply req_json_inj].
  now subst.
Qed.

(** C9: whenever the pipeline returns a record, the feature_spec.json it
    has written holds the indented JSON text of that record, every
    object of the record has pairwise distinct keys, reading that text
    back as JSON returns the dict of the record as it was (every key with
    its value, lists and keys in their order), and the record is the only
    one with that dict. *)
Theorem C9_feature_spec_round_trip (root : gmap string node)
    (now_id now_created : datetime) (r : nat) (idea : string)
    (tech_stack : option string) (d : FeatureData) (root' : gmap string node) :
  generate_feature root now_id now_created r idea tech_stack = Some (d, root') ->
  exists text,
    file_at root' (fd_id d) "feature_spec.json" = Some text
    /\ text = Json.dumps (feature_json d)
    /\ json_wf (feature_json d) = true
    /\ Json.loads text = Some (feature_json d)
    /\ (forall d', Json.loads text = Some (feature_json d') -> d' = d).
Proof.
  intros Hrun.
  destruct (generate_feature_returns root now_id now_created r idea tech_stack
              (generate_feature_writable _ _ _ _ _ _ _ _ Hrun))
    as (d0 & root0 & Hrun0 & _ & _ & Hspec & Hst & Hcr & Hrq & Hapi & Hdb & _ & _
        & _ & Hfile & _).
  rewrite Hrun in Hrun0. injection Hrun0 as <- <-.
  assert (Hwf : json_wf (feature_json d) = true)
    by (eapply generated_json_wf; eassumption).
  exists (Json.dumps (feature_json d)).
  split; [exact Hfile|]. split; [reflexivity|]. split; [exact Hwf|].
  rewrite (loads_dumps _ Hwf). split; [reflexivity|].
  intros d' Hd'. apply feature_json_inj. congruence.
Qed.

(** The theorem for the run on a new root with the sample inputs. *)
Lemma C9_feature_spec_round_trip_witness :
  exists d root' text,
    generate_feature ∅ sample_now sample_now 0 sample_idea None = Some (d, root')
    /\ file_at root' (fd_id d) "feature_spec.json" = Some text
    /\ Json.loads text = Some (feature_json d).
Proof.
  assert (Hw : writable ∅ (_generate_feature_id ∅ sample_now) = true)
    by reflexivity.
  destruct (generate_feature_returns ∅ sample_now sample_now 0 sample_idea None
              Hw) as (d & root' & Hrun & _).
  destruct (C9_feature_spec_round_trip _ _ _ _ _ _ _ _ Hrun)
    as (text & Hfile & _ & _ & Hloads & _).
  exists d, root', text. split; [exact Hrun|]. split; [exact Hfile | exact Hloads].
Defined.

(** ** The configuration file, line by line *)

Lemma lines_from_whole (t rest : string) (cur : string -> string) :
  Py.lines_from cur (t +:+ nls +:+ rest) =
  Py.lines_from cur (t +:+ nls) ++ Py.readlines rest.
Proof.
  revert cur. induction t as [|c t IH]; intros cur.
  - reflexivity.
  - simpl. destruct (Ascii.eqb c Py.nl).
    + rewrite IH. reflexivity.
    + apply IH.
Qed.

Lemma readlines_whole (text rest : string) :
  whole_lines text ->
  Py.readlines (text +:+ rest) = Py.readlines text ++ Py.readlines rest.
Proof.
  intros [-> | [t ->]]; [reflexivity|].
  unfold Py.readlines. rewrite append_assoc. apply lines_from_whole.
Qed.

Lemma lines_from_single (s : string) (cur : string -> string) :
  Py.str_in nls s = false ->
  Py.lines_from cur (s +:+ nls) = [cur (s +:+ nls)].
Proof.
  revert cur. induction s as [|c s IH]; intros cur H.
  - reflexivity.
  - unfold nls in H. rewrite str_in_single_cons in H.
    apply orb_false_iff in H as [Hc Hs].
    simpl. destruct (Ascii.eqb_spec c Py.nl) as [->|Hne].
    + destruct (ascii_dec Py.nl Py.nl); [discriminate | contradiction].
    + apply (IH (fun t => cur (String c t))). exact Hs.
Qed.

Lemma str_in_single_app (c : ascii) (a b : string) :
  Py.str_in (String c EmptyString) (a +:+ b) =
  Py.str_in (String c EmptyString) a || Py.str_in (String c EmptyString) b.
Proof.
  induction a as [|d a IH]; [reflexivity|].
  change (String d a +:+ b) with (String d (a +:+ b)).
  rewrite !str_in_single_cons, IH. now rewrite orb_assoc.
Qed.

Lemma config_lines_app (l1 l2 : list string) (config : gmap string string) :
  config_lines config (l1 ++ l2) =
  config' ← config_lines config l1; config_lines config' l2.
Proof.
  revert config. induction l1 as [|l l1 IH]; intros config; [reflexivity|].
  simpl. destruct (config_line config l) as [c|]; [apply IH | reflexivity].
Qed.

Lemma lstrip_length (p : ascii -> bool) (s : string) :
  String.length (Py.lstrip_by p s) <= String.length s.
Proof.
  induction s as [|c s IH]; simpl; [lia|].
  destruct (p c); simpl; lia.
Qed.

Lemma lstrip_blank (p : ascii -> bool) (ws t : string) :
  Py.lstrip_by p ws = EmptyString ->
  Py.lstrip_by p (ws +:+ t) = Py.lstrip_by p t.
Proof.
  induction ws as [|c ws IH]; intros H; [reflexivity|].
  simpl in *. destruct (p c); [auto | discriminate].
Qed.

Lemma lstrip_fixed (p : ascii -> bool) (k : string) (c : ascii) (v : string) :
  Py.lstrip_by p k = k -> p c = false ->
  Py.lstrip_by p (k +:+ String c v) = k +:+ String c v.
Proof.
  intros Hk Hc. destruct k as [|d k]; simpl.
  - now rewrite Hc.
  - simpl in Hk. destruct (p d); [|reflexivity].
    pose proof (lstrip_length p k) as Hlen. rewrite Hk in Hlen. simpl in Hlen. lia.
Qed.

Lemma rstrip_snoc_drop (p : ascii -> bool) (s : string) (c : ascii) :
  p c = true ->
  Py.rstrip_by p (s +:+ String c EmptyString) = Py.rstrip_by p s.
Proof.
  intros Hc. induction s as [|d s IH]; simpl.
  - now rewrite Hc.
  - now rewrite IH.
Qed.

Lemma rstrip_head (p : ascii -> bool) (c : ascii) (v : string) :
  p c = false -> Py.rstrip_by p v = v ->
  Py.rstrip_by p (String c v) = String c v.
Proof.
  intros Hc Hv. simpl. rewrite Hv. destruct v; [now rewrite Hc | reflexivity].
Qed.

Lemma rstrip_app_fixed (p : ascii -> bool) (a t : string) :
  Py.rstrip_by p t = t -> t <> EmptyString ->
  Py.rstrip_by p (a +:+ t) = a +:+ t.
Proof.
  intros Ht Hne. induction a as [|d a IH]; [exact Ht|].
  simpl. rewrite IH. destruct (a +:+ t) eqn:E; [|reflexivity].
  destruct a; [contradiction | discriminate].
Qed.

Lemma split1_first (sep : ascii) (k v : string) :
  Py.str_in (String sep EmptyString) k = false ->
  Py.split1 sep (k +:+ String sep v) = (k, Some v).
Proof.
  induction k as [|d k IH]; intros H; simpl.
  - now rewrite Ascii.eqb_refl.
  - rewrite str_in_single_cons in H. apply orb_false_iff in H as [Hd Hk].
    destruct (Ascii.eqb_spec d sep) as [->|_].
    + destruct (ascii_dec sep sep); [discriminate | contradiction].
    + now rewrite (IH Hk).
Qed.

Lemma prefix_single_app (c : ascii) (k : string) (d : ascii) (v : string) :
  String.prefix (String c EmptyString) k = false -> c <> d ->
  String.prefix (String c EmptyString) (k +:+ String d v) = false.
Proof.
  intros Hk Hne. destruct k as [|e k].
  - simpl String.append. rewrite prefix_single.
    destruct (ascii_dec c d); [contradiction | reflexivity].
  - change (String e k +:+ String d v) with (String e (k +:+ String d v)).
    rewrite prefix_single in *. exact Hk.
Qed.

(** The loop body on a line [ws key=value] and its newline: [ws] is
    blank, [key] has no [=] and starts with neither a blank nor, when
    [ws] is empty, [#]; [value] ends with no blank. *)
Lemma config_line_assign (config : gmap string string) (ws key value : string) :
  Py.lstrip_by Py.is_space ws = EmptyString ->
  Py.lstrip_by Py.is_space key = key ->
  Py.startswith (ws +:+ key) "#" = false ->
  Py.str_in "=" key = false ->
  Py.rstrip_by Py.is_space value = value ->
  config_line config (ws +:+ key +:+ "=" +:+ value +:+ nls) =
    Some (<[key := Py.strip_char Py.dquote value]> config).
Proof.
  intros Hws Hkey Hhash Heq Hval. unfold config_line.
  assert (Hin : Py.str_in "=" (ws +:+ key +:+ "=" +:+ value +:+ nls) = true).
  { apply str_in_spec. exists (ws +:+ key), (value +:+ nls).
    now rewrite append_assoc. }
  rewrite Hin. unfold Py.startswith in *.
  assert (Hstart : String.prefix "#" (ws +:+ key +:+ "=" +:+ value +:+ nls) = false).
  { rewrite <- append_assoc. apply prefix_single_app; [exact Hhash | discriminate]. }
  rewrite Hstart. simpl andb. cbv iota.
  assert (Hstrip : Py.strip (ws +:+ key +:+ "=" +:+ value +:+ nls) =
                   key +:+ String "=" value).
  { unfold Py.strip, Py.strip_by. rewrite (lstrip_blank _ _ _ Hws).
    change (key +:+ "=" +:+ value +:+ nls)
      with (key +:+ String "=" (value +:+ nls)).
    rewrite (lstrip_fixed _ _ _ _ Hkey) by reflexivity.
    change (String "=" (value +:+ nls)) with (String "=" value +:+ nls).
    rewrite <- append_assoc. unfold nls.
    rewrite rstrip_snoc_drop by reflexivity.
    apply rstrip_app_fixed; [|discriminate].
    apply rstrip_head; [reflexivity | exact Hval]. }
  rewrite Hstrip, (split1_first "=" key value Heq). reflexivity.
Qed.

Lemma no_newline_assign (key value : string) :
  Py.str_in nls key = false -> Py.str_in nls value = false ->
  Py.str_in nls (key +:+ "=" +:+ value) = false.
Proof.
  unfold nls. intros Hk Hv.
  change (key +:+ "=" +:+ value) with (key +:+ String "=" value).
  rewrite str_in_single_app, str_in_single_cons, Hk, Hv. reflexivity.
Qed.

(** What [_load_config] returns for a file that ends with the line
    [ws key=value]: the entries of the lines before it with [key] set. *)
Lemma load_config_last (text ws key value : string)
    (environ : gmap string string) :
  whole_lines text ->
  Py.str_in nls (ws +:+ key +:+ "=" +:+ value) = false ->
  Py.lstrip_by Py.is_space ws = EmptyString ->
  Py.lstrip_by Py.is_space key = key ->
  Py.startswith (ws +:+ key) "#" = false ->
  Py.str_in "=" key = false ->
  Py.rstrip_by Py.is_space value = value ->
  exists earlier,
    config_lines ∅ (Py.readlines text) = Some earlier
    /\ _load_config
         (Some (NFile (text +:+ ws +:+ key +:+ "=" +:+ value +:+ nls))) environ
       = Some (fold_left (config_env environ) credential_keys
                 (<[key := Py.strip_char Py.dquote value]> earlier)).
Proof.
  intros Hwhole Hnl Hws Hkey Hhash Heq Hval.
  destruct (config_lines_total (Py.readlines text) ∅) as [earlier Hearlier].
  exists earlier. split; [exact Hearlier|].
  unfold _load_config.
  rewrite (readlines_whole _ _ Hwhole), config_lines_app, Hearlier.
  assert (Hline : Py.readlines (ws +:+ key +:+ "=" +:+ value +:+ nls) =
                  [ws +:+ key +:+ "=" +:+ value +:+ nls]).
  { replace (ws +:+ key +:+ "=" +:+ value +:+ nls)
      with ((ws +:+ key +:+ "=" +:+ value) +:+ nls)
      by now rewrite !append_assoc.
    apply (lines_from_single _ (fun t => t) Hnl). }
  rewrite Hline. cbn [mbind option_bind config_lines].
  rewrite (config_line_assign earlier ws key value Hws Hkey Hhash Heq Hval).
  reflexivity.
Qed.

Lemma overlaid_file (environ file_config : gmap string string) (key : string) :
  key ∉ credential_keys \/ env_value environ key = None ->
  overlaid environ file_config key = file_config !! key.
Proof.
  unfold overlaid. intros [Hk | He].
  - now rewrite bool_decide_eq_false_2.
  - rewrite He. now destruct (bool_decide _).
Qed.

(** X1: the last line of the configuration file, [key=value] with its
    newline after any whole lines, gives [key] the text after the first
    [=] without the double quotes around it, whatever the lines before
    gave for [key], unless a credential variable of the environment
    overrides it; every other key is as the lines before leave it.  The
    key has no [=], does not start with a blank or [#]; blanks around the
    [=] stay in the key and in the value. *)
Theorem config_last_assignment_wins (text key value : string)
    (environ : gmap string string) :
  whole_lines text ->
  Py.str_in nls key = false -> Py.str_in nls value = false ->
  Py.lstrip_by Py.is_space key = key ->
  Py.startswith key "#" = false ->
  Py.str_in "=" key = false ->
  Py.rstrip_by Py.is_space value = value ->
  exists earlier config,
    config_lines ∅ (Py.readlines text) = Some earlier
    /\ _load_config (Some (NFile (text +:+ key +:+ "=" +:+ value +:+ nls))) environ
       = Some config
    /\ (key ∉ credential_keys \/ env_value environ key = None ->
        config !! key = Some (Py.strip_char Py.dquote value))
    /\ (forall k, k <> key -> config !! k = overlaid environ earlier k).
Proof.
  intros Hwhole Hnlk Hnlv Hkey Hhash Heq Hval.
  destruct (load_config_last text EmptyString key value environ)
    as (earlier & Hearlier & Hload); try assumption;
    [now apply no_newline_assign | reflexivity |].
  exists earlier, (fold_left (config_env environ) credential_keys
                     (<[key := Py.strip_char Py.dquote value]> earlier)).
  split; [exact Hearlier|]. split; [exact Hload|]. split.
  - intros Hfile. rewrite config_env_overlay, (overlaid_file _ _ _ Hfile).
    apply lookup_insert_eq.
  - intros k Hne. rewrite !config_env_overlay. unfold overlaid.
    now rewrite lookup_insert_ne by congruence.
Qed.

(** The theorem on a file of two lines that both set MODEL, the second
    with blanks around [=]. *)
Lemma config_last_assignment_wins_witness :
  exists earlier config,
    config_lines ∅ (Py.readlines ("MODEL=a" +:+ nls)) = Some earlier
    /\ _load_config
         (Some (NFile (("MODEL=a" +:+ nls) +:+ "MODEL" +:+ "=" +:+ "b c" +:+ nls))) ∅
       = Some config
    /\ (("MODEL" : string) ∉ credential_keys \/ env_value ∅ "MODEL" = None ->
        config !! "MODEL" = Some (Py.strip_char Py.dquote "b c"))
    /\ (forall k, k <> "MODEL" -> config !! k = overlaid ∅ earlier k).
Proof.
  apply (config_last_assignment_wins ("MODEL=a" +:+ nls) "MODEL" "b c" ∅).
  - right. exists "MODEL=a". reflexivity.
  - reflexivity.
  - reflexivity.
  - reflexivity.
  - reflexivity.
  - reflexivity.
  - reflexivity.
Defined.

Lemma rstrip_length (p : ascii -> bool) (s : string) :
  String.length (Py.rstrip_by p s) <= String.length s.
Proof.
  induction s as [|c s IH]; simpl; [lia|].
  destruct (Py.rstrip_by p s); [destruct (p c)|]; simpl in *; lia.
Qed.

Lemma rstrip_snoc_keep (p : ascii -> bool) (s : string) (c : ascii) :
  p c = false ->
  Py.rstrip_by p (s +:+ String c EmptyString) = s +:+ String c EmptyString.
Proof.
  intros Hc. apply rstrip_app_fixed; [|discriminate]. simpl. now rewrite Hc.
Qed.

(** [strip] of a text between two characters it removes. *)
Lemma strip_between (p : ascii -> bool) (c : ascii) (v : string) :
  p c = true -> Py.lstrip_by p v = v -> Py.rstrip_by p v = v ->
  Py.strip_by p (String c (v +:+ String c EmptyString)) = v.
Proof.
  intros Hc Hl Hr. unfold Py.strip_by. simpl Py.lstrip_by. rewrite Hc.
  destruct v as [|d v].
  - simpl. now rewrite Hc.
  - assert (Hd : p d = false).
    { simpl in Hl. destruct (p d); [|reflexivity].
      pose proof (lstrip_length p v) as Hlen. rewrite Hl in Hlen.
      simpl in Hlen. lia. }
    change (String d v +:+ String c EmptyString)
      with (String d (v +:+ String c EmptyString)).
    simpl Py.lstrip_by. rewrite Hd.
    change (String d (v +:+ String c EmptyString))
      with (String d v +:+ String c EmptyString).
    rewrite rstrip_snoc_drop by exact Hc. exact Hr.
Qed.

(** X2: a value written between double quotes is stored without them,
    blanks inside the quotes included: after whole lines, the last line
    [key="value"] gives [key] the text [value], when that text neither
    starts nor ends with a double quote (and no credential variable of
    the environment overrides the key). *)
Theorem config_quoted_value (text key value : string)
    (environ : gmap string string) :
  whole_lines text ->
  Py.str_in nls key = false -> Py.str_in nls value = false ->
  Py.lstrip_by Py.is_space key = key ->
  Py.startswith key "#" = false ->
  Py.str_in "=" key = false ->
  Py.lstrip_by (Ascii.eqb Py.dquote) value = value ->
  Py.rstrip_by (Ascii.eqb Py.dquote) value = value ->
  key ∉ credential_keys \/ env_value environ key = None ->
  exists config,
    _load_config
      (Some (NFile (text +:+ key +:+ "=" +:+
                    String Py.dquote (value +:+ String Py.dquote EmptyString)
                    +:+ nls))) environ
    = Some config
    /\ config !! key = Some value.
Proof.
  intros Hwhole Hnlk Hnlv Hkey Hhash Heq Hl Hr Hfile.
  set (quoted := String Py.dquote (value +:+ String Py.dquote EmptyString)).
  destruct (load_config_last text EmptyString key quoted environ)
    as (earlier & _ & Hload); try assumption.
  - apply no_newline_assign; [exact Hnlk|]. unfold nls, quoted in *.
    rewrite str_in_single_cons, str_in_single_app, Hnlv. reflexivity.
  - reflexivity.
  - subst quoted.
    change (String Py.dquote (value +:+ String Py.dquote EmptyString))
      with ((String Py.dquote value) +:+ String Py.dquote EmptyString).
    apply rstrip_snoc_keep. reflexivity.
  - eexists. split; [exact Hload|].
    rewrite config_env_overlay, (overlaid_file _ _ _ Hfile), lookup_insert_eq.
    unfold Py.strip_char, quoted.
    now rewrite strip_between.
Qed.

(** The theorem on the one-line file [NAME=" my app "]. *)
Lemma config_quoted_value_witness :
  exists config,
    _load_config
      (Some (NFile (EmptyString +:+ "NAME" +:+ "=" +:+
                    String Py.dquote (" my app " +:+ String Py.dquote EmptyString)
                    +:+ nls))) ∅
    = Some config
    /\ config !! "NAME" = Some " my app ".
Proof.
  apply (config_quoted_value EmptyString "NAME" " my app " ∅).
  - left. reflexivity.
  - reflexivity.
  - reflexivity.
  - reflexivity.
  - reflexivity.
  - reflexivity.
  - reflexivity.
  - reflexivity.
  - right. reflexivity.
Defined.

Lemma config_line_skip (config : gmap string string) (line : string) :
  Py.str_in "=" line = false \/ Py.startswith line "#" = true ->
  config_line config line = Some config.
Proof.
  unfold config_line. intros [-> | ->]; [reflexivity|].
  now rewrite andb_false_r.
Qed.

(** X3: a line without [=] (a blank line, a bare word) and a line that
    starts with [#] in its first column are ignored: a file with such a
    line after whole lines loads as the file without it. *)
Theorem config_ignores_line (text line : string) (environ : gmap string string) :
  whole_lines text ->
  Py.str_in nls line = false ->
  Py.str_in "=" line = false \/ Py.startswith line "#" = true ->
  _load_config (Some (NFile (text +:+ line +:+ nls))) environ =
  _load_config (Some (NFile text)) environ.
Proof.
  intros Hwhole Hnl Hskip. unfold _load_config.
  rewrite (readlines_whole _ _ Hwhole), config_lines_app.
  destruct (config_lines ∅ (Py.readlines text)) as [earlier|]; [|reflexivity].
  unfold Py.readlines at 1. rewrite (lines_from_single _ _ Hnl).
  cbv beta. cbn [mbind option_bind config_lines].
  rewrite config_line_skip; [reflexivity|].
  destruct Hskip as [Heq | Hhash]; [left | right].
  - unfold nls. rewrite str_in_single_app, Heq. reflexivity.
  - now apply prefix_append.
Qed.

(** The theorem for a comment that holds an assignment. *)
Lemma config_ignores_line_witness :
  _load_config (Some (NFile (("A=1" +:+ nls) +:+ "# B=2" +:+ nls))) ∅ =
  _load_config (Some (NFile ("A=1" +:+ nls))) ∅.
Proof.
  apply (config_ignores_line ("A=1" +:+ nls) "# B=2" ∅).
  - right. exists "A=1". reflexivity.
  - reflexivity.
  - right. reflexivity.
Defined.

Lemma hash_key_no_credential (note : string) :
  String "#" note ∉ credential_keys.
Proof.
  unfold credential_keys. intros H.
  apply elem_of_cons in H as [H|H]; [discriminate|].
  apply elem_of_cons in H as [H|H]; [discriminate|].
  now apply elem_of_nil in H.
Qed.

(** X4: the test for a comment is made on the line as read, before the
    blanks are stripped, so a comment that is indented and holds an [=]
    is taken for an assignment: the loaded configuration has an entry
    whose key is the stripped text up to the [=], [#] included. *)
Theorem config_indented_comment_is_read (text ws note value : string) (c : ascii)
    (environ : gmap string string) :
  whole_lines text ->
  Py.is_space c = true -> Py.lstrip_by Py.is_space ws = EmptyString ->
  Py.str_in nls (String c ws) = false ->
  Py.str_in nls note = false -> Py.str_in nls value = false ->
  Py.str_in "=" note = false ->
  Py.rstrip_by Py.is_space value = value ->
  exists config,
    _load_config
      (Some (NFile (text +:+ String c ws +:+ "#" +:+ note +:+ "=" +:+ value
                    +:+ nls))) environ
    = Some config
    /\ config !! ("#" +:+ note) = Some (Py.strip_char Py.dquote value).
Proof.
  intros Hwhole Hc Hws Hnlw Hnln Hnlv Heq Hval.
  destruct (load_config_last text (String c ws) (String "#" note) value environ)
    as (earlier & _ & Hload); try assumption.
  - unfold nls in *.
    change (String c ws +:+ String "#" note +:+ "=" +:+ value)
      with (String c ws +:+ String "#" (note +:+ String "=" value)).
    rewrite str_in_single_app, Hnlw. rewrite str_in_single_cons, str_in_single_app,
      str_in_single_cons, Hnln, Hnlv. reflexivity.
  - simpl. now rewrite Hc.
  - reflexivity.
  - unfold Py.startswith.
    change (String c ws +:+ String "#" note)
      with (String c (ws +:+ String "#" note)).
    rewrite prefix_single. destruct (ascii_dec "#" c) as [<-|]; [discriminate Hc|reflexivity].
  - eexists. split; [exact Hload|].
    rewrite config_env_overlay, overlaid_file
      by (left; apply hash_key_no_credential).
    apply lookup_insert_eq.
Qed.

(** The theorem for a comment indented by a blank, after a line that
    sets A. *)
Lemma config_indented_comment_is_read_witness :
  exists config,
    _load_config
      (Some (NFile (("A=1" +:+ nls) +:+ String " " EmptyString +:+ "#" +:+ " B"
                    +:+ "=" +:+ "2" +:+ nls))) ∅
    = Some config
    /\ config !! ("#" +:+ " B") = Some (Py.strip_char Py.dquote "2").
Proof.
  apply (config_indented_comment_is_read ("A=1" +:+ nls) EmptyString " B" "2" " " ∅).
  - right. exists "A=1". reflexivity.
  - reflexivity.
  - reflexivity.
  - reflexivity.
  - reflexivity.
  - reflexivity.
  - reflexivity.
  - reflexivity.
Defined.

(** ** The specification and what depends on it *)

(** X5: whatever the draw, the idea and the tech stack given, the
    category of the specification is one of the six listed types, and
    its tech stack is never the empty string. *)
Theorem spec_category_and_stack (r : nat) (idea : string)
    (tech_stack : option string) :
  In (spec_type (_create_feature_spec r idea tech_stack)) feature_types
  /\ spec_tech_stack (_create_feature_spec r idea tech_stack) <> EmptyString.
Proof.
  split.
  - apply List.nth_In. apply Nat.mod_upper_bound. discriminate.
  - simpl. destruct tech_stack as [[|c t]|]; discriminate.
Qed.

Lemma generate_feature_falsy_stack (root : gmap string node)
    (now_id now_created : datetime) (r : nat) (idea : string) :
  generate_feature root now_id now_created r idea (Some EmptyString) =
  generate_feature root now_id now_created r idea None.
Proof. reflexivity. Qed.

(** X6: the tech stack given to [generate_feature] reaches the record in
    one place only, the tech stack of the specification: two runs from
    the same tree, clock readings, draw and idea with any two tech stacks
    return records that differ in that field alone, so the technical
    requirements, which receive the tech stack, do not depend on it; and
    an empty tech stack gives the run of no tech stack. *)
Theorem tech_stack_only_in_specification (root : gmap string node)
    (now_id now_created : datetime) (r : nat) (idea : string)
    (ts1 ts2 : option string) :
  (writable root (_generate_feature_id root now_id) = true ->
   exists d1 root1 d2 root2,
     generate_feature root now_id now_created r idea ts1 = Some (d1, root1)
     /\ generate_feature root now_id now_created r idea ts2 = Some (d2, root2)
     /\ d2 = with_tech_stack (tech_stack_or_default ts2) d1
     /\ fd_technical_requirements d2 = fd_technical_requirements d1
     /\ fd_id d2 = fd_id d1)
  /\ generate_feature root now_id now_created r idea (Some EmptyString) =
     generate_feature root now_id now_created r idea None.
Proof.
  split; [|apply generate_feature_falsy_stack].
  intros Hw.
  destruct (generate_feature_returns root now_id now_created r idea ts1 Hw)
    as (d1 & root1 & Hrun1 & Hid1 & Hidea1 & Hspec1 & Hst1 & Hcr1 & Hrq1 & Hapi1
        & Hdb1 & Hstat1 & Hcre1 & Hpm1 & _).
  destruct (generate_feature_returns root now_id now_created r idea ts2 Hw)
    as (d2 & root2 & Hrun2 & Hid2 & Hidea2 & Hspec2 & Hst2 & Hcr2 & Hrq2 & Hapi2
        & Hdb2 & Hstat2 & Hcre2 & Hpm2 & _).
  assert (Hd : d2 = with_tech_stack (tech_stack_or_default ts2) d1).
  { destruct d1, d2. unfold with_tech_stack. simpl in *. subst. reflexivity. }
  exists d1, root1, d2, root2.
  split; [exact Hrun1|]. split; [exact Hrun2|]. split; [exact Hd|].
  subst d2. split; reflexivity.
Qed.

(** The theorem on a new root for no tech stack and for Go. *)
Lemma tech_stack_only_in_specification_witness :
  exists d1 root1 d2 root2,
    generate_feature ∅ sample_now sample_now 0 sample_idea None = Some (d1, root1)
    /\ generate_feature ∅ sample_now sample_now 0 sample_idea (Some "Go")
       = Some (d2, root2)
    /\ d2 = with_tech_stack "Go" d1
    /\ fd_technical_requirements d2 = fd_technical_requirements d1
    /\ fd_id d2 = fd_id d1.
Proof.
  apply (tech_stack_only_in_specification ∅ sample_now sample_now 0 sample_idea
           None (Some "Go")).
  reflexivity.
Defined.

(** ** The criteria as a dictionary *)

Lemma criteria_fold_keys (stories : list Story)
    (d : list (string * CriteriaBlock)) :
  List.NoDup (dict_keys d) ->
  List.NoDup (dict_keys (fold_left criteria_step stories d))
  /\ forall k, In k (dict_keys (fold_left criteria_step stories d)) <->
               In k (dict_keys d) \/ In k (map story_id stories).
Proof.
  revert d. induction stories as [|s stories IH]; intros d Hnd.
  - simpl. split; [exact Hnd | tauto].
  - cbn [fold_left map].
    assert (Hstep : List.NoDup (dict_keys (criteria_step d s))
                    /\ forall k, In k (dict_keys (criteria_step d s)) <->
                                 In k (dict_keys d) \/ story_id s = k).
    { unfold criteria_step.
      destruct (in_dec string_dec (story_id s) (dict_keys d)) as [Hin|Hnin].
      - rewrite dict_keys_set_in by exact Hin. split; [exact Hnd|].
        intros k. split; [tauto|]. intros [H| <-]; assumption.
      - rewrite dict_keys_set_fresh by exact Hnin. split.
        + apply NoDup_ListNoDup, NoDup_app. split; [now apply NoDup_ListNoDup|].
          split.
          * intros x Hx Hx'. apply list_elem_of_singleton in Hx' as ->.
            apply Hnin. now apply list_elem_of_In.
          * apply NoDup_singleton.
        + intros k. rewrite in_app_iff. simpl. tauto. }
    destruct Hstep as [Hnd' Hkeys].
    destruct (IH _ Hnd') as [Hnd'' Hkeys'']. split; [exact Hnd''|].
    intros k. rewrite Hkeys'', Hkeys. simpl. tauto.
Qed.

Lemma criteria_fold_distinct (stories : list Story)
    (d : list (string * CriteriaBlock)) :
  List.NoDup (dict_keys d ++ map story_id stories) ->
  fold_left criteria_step stories d =
  d ++ map (fun s => (story_id s, block_of s)) stories.
Proof.
  revert d. induction stories as [|s stories IH]; intros d Hnd.
  - simpl. now rewrite app_nil_r.
  - cbn [fold_left map].
    assert (Hfresh : ~ In (story_id s) (dict_keys d)).
    { intros Hin. apply List.NoDup_remove_2 in Hnd. apply Hnd.
      apply in_or_app. now left. }
    unfold criteria_step at 2. rewrite dict_set_fresh by exact Hfresh.
    rewrite IH.
    + now rewrite <- app_assoc.
    + unfold dict_keys in *. rewrite map_app, <- app_assoc. exact Hnd.
Qed.

Lemma criteria_last_wins (spec : Spec) (before after : list Story) (s : Story) :
  ~ In (story_id s) (map story_id after) ->
  dict_get (story_id s)
    (_generate_acceptance_criteria spec (before ++ s :: after)) =
  Some (block_of s).
Proof.
  intros Hnin. unfold _generate_acceptance_criteria.
  change (fun criteria story =>
            dict_set (story_id story)
              {| cb_story := story_action story;
                 cb_criteria := story_criteria story |} criteria)
    with criteria_step.
  rewrite fold_left_app. cbn [fold_left].
  rewrite criteria_fold_other by exact Hnin.
  apply dict_get_set_eq.
Qed.

(** X7: the acceptance criteria of any list of stories, ids repeated or
    not: the keys are pairwise distinct and are exactly the ids of the
    stories; of several stories with one id the last one gives the block
    filed under it; and when the ids are distinct the criteria are the
    blocks of the stories, one per story in the order of the stories. *)
Theorem criteria_keys_follow_stories (spec : Spec) (stories : list Story) :
  List.NoDup (dict_keys (_generate_acceptance_criteria spec stories))
  /\ (forall k, In k (dict_keys (_generate_acceptance_criteria spec stories))
                <-> In k (map story_id stories))
  /\ (forall before s after,
        stories = before ++ s :: after ->
        ~ In (story_id s) (map story_id after) ->
        dict_get (story_id s) (_generate_acceptance_criteria spec stories)
        = Some (block_of s))
  /\ (List.NoDup (map story_id stories) ->
      _generate_acceptance_criteria spec stories =
      map (fun s => (story_id s, block_of s)) stories).
Proof.
  pose proof (criteria_fold_keys stories [] (List.NoDup_nil _)) as [Hnd Hkeys].
  split; [exact Hnd|]. split; [|split].
  - intros k. unfold _generate_acceptance_criteria.
    change (fun criteria story =>
              dict_set (story_id story)
                {| cb_story := story_action story;
                   cb_criteria := story_criteria story |} criteria)
      with criteria_step.
    rewrite Hkeys. simpl. tauto.
  - intros before s after -> Hnin. now apply criteria_last_wins.
  - intros Hids. apply (criteria_fold_distinct stories []). exact Hids.
Qed.

(** The theorem for two stories that share the id US-002. *)
Lemma criteria_keys_follow_stories_witness :
  dict_get "US-002"
    (_generate_acceptance_criteria sample_spec [story_us002; story_us003;
       mkStory "US-002" "As a user" "I want to view analytics" "So" "low" 1])
  = Some {| cb_story := "I want to view analytics";
            cb_criteria := dashboard_checklist |}.
Proof.
  pose proof (criteria_keys_follow_stories sample_spec
    [story_us002; story_us003;
     mkStory "US-002" "As a user" "I want to view analytics" "So" "low" 1])
    as (_ & _ & Hlast & _).
  apply (Hlast [story_us002; story_us003]
           (mkStory "US-002" "As a user" "I want to view analytics" "So" "low" 1)
           []).
  - reflexivity.
  - simpl. tauto.
Defined.

Lemma criteria_of_eq (r : nat) (idea : string) (tech_stack : option string) :
  criteria_of r idea tech_stack =
    [ ("US-001", {| cb_story := "I want to access " +:+ idea;
                    cb_criteria := first_match rules idea |});
      ("US-002", {| cb_story := "I want to create an account";
                    cb_criteria := auth_checklist |});
      ("US-003", {| cb_story := "I want to manage my content";
                    cb_criteria := crud_checklist |});
      ("US-004", {| cb_story := "I want to view user analytics";
                    cb_criteria := dashboard_checklist |});
      ("US-005", {| cb_story := "I want to export my data";
                    cb_criteria := generic_checklist |});
      ("US-006", {| cb_story := "I want to receive notifications";
                    cb_criteria := generic_checklist |}) ].
Proof.
  unfold criteria_of. rewrite stories_of_eq.
  unfold _generate_acceptance_criteria.
  change (fun criteria story =>
            dict_set (story_id story)
              {| cb_story := story_action story;
                 cb_criteria := story_criteria story |} criteria)
    with criteria_step.
  rewrite (criteria_fold_distinct _ [])
    by (repeat constructor; simpl; intuition discriminate).
  rewrite <- first_match_access.
  cbn [app map story_id]. unfold block_of.
  rewrite story_criteria_first_match. reflexivity.
Qed.

Lemma first_match_length (text : string) :
  length (first_match rules text) =
  if Py.str_in "account" (Py.lower text) || Py.str_in "manage" (Py.lower text)
  then 5 else 4.
Proof.
  unfold first_match, rules.
  destruct (Py.str_in "account" (Py.lower text));
    destruct (Py.str_in "manage" (Py.lower text));
    destruct (Py.str_in "analytics" (Py.lower text)); reflexivity.
Qed.

(** X8: for every idea, draw and tech stack the pipeline derives six
    criteria blocks, filed under US-001 to US-006 in this order: the
    first holds the idea in its action text and the checklist the idea
    selects, the others the authentication, CRUD, dashboard, generic and
    generic checklists. *)
Theorem criteria_of_every_idea (root : gmap string node)
    (now_id now_created : datetime) (r : nat) (idea : string)
    (tech_stack : option string) :
  writable root (_generate_feature_id root now_id) = true ->
  exists d root',
    generate_feature root now_id now_created r idea tech_stack = Some (d, root')
    /\ fd_acceptance_criteria d =
       [ ("US-001", {| cb_story := "I want to access " +:+ idea;
                       cb_criteria := first_match rules idea |});
         ("US-002", {| cb_story := "I want to create an account";
                       cb_criteria := auth_checklist |});
         ("US-003", {| cb_story := "I want to manage my content";
                       cb_criteria := crud_checklist |});
         ("US-004", {| cb_story := "I want to view user analytics";
                       cb_criteria := dashboard_checklist |});
         ("US-005", {| cb_story := "I want to export my data";
                       cb_criteria := generic_checklist |});
         ("US-006", {| cb_story := "I want to receive notifications";
                       cb_criteria := generic_checklist |}) ].
Proof.
  intros Hw.
  destruct (generate_feature_returns root now_id now_created r idea tech_stack Hw)
    as (d & root' & Hrun & _ & _ & Hspec & Hst & Hcr & _).
  exists d, root'. split; [exact Hrun|].
  rewrite Hcr, Hst, Hspec. apply (criteria_of_eq r idea tech_stack).
Qed.

(** The theorem on a new root for the sample idea. *)
Lemma criteria_of_every_idea_witness :
  exists d root',
    generate_feature ∅ sample_now sample_now 0 sample_idea None = Some (d, root')
    /\ fd_acceptance_criteria d =
       [ ("US-001", {| cb_story := "I want to access " +:+ sample_idea;
                       cb_criteria := first_match rules sample_idea |});
         ("US-002", {| cb_story := "I want to create an account";
                       cb_criteria := auth_checklist |});
         ("US-003", {| cb_story := "I want to manage my content";
                       cb_criteria := crud_checklist |});
         ("US-004", {| cb_story := "I want to view user analytics";
                       cb_criteria := dashboard_checklist |});
         ("US-005", {| cb_story := "I want to export my data";
                       cb_criteria := generic_checklist |});
         ("US-006", {| cb_story := "I want to receive notifications";
                       cb_criteria := generic_checklist |}) ].
Proof.
  apply (criteria_of_every_idea ∅ sample_now sample_now 0 sample_idea None).
  reflexivity.
Defined.

(** X9: the three numbers of the closing progress lines never vary but
    in one unit: every run that returns reports six user stories, six
    technical requirements, and 27 acceptance criteria when the idea
    contains "account" or "manage" in any letter case, 26 otherwise. *)
Theorem reported_counts_of_run (root : gmap string node)
    (now_id now_created : datetime) (r : nat) (idea : string)
    (tech_stack : option string) :
  writable root (_generate_feature_id root now_id) = true ->
  exists d root',
    generate_feature root now_id now_created r idea tech_stack = Some (d, root')
    /\ reported_counts d =
       (6,
        if Py.str_in "account" (Py.lower idea) || Py.str_in "manage" (Py.lower idea)
        then 27 else 26,
        6).
Proof.
  intros Hw.
  destruct (generate_feature_returns root now_id now_created r idea tech_stack Hw)
    as (d & root' & Hrun & _ & _ & Hspec & Hst & Hcr & Hrq & _).
  exists d, root'. split; [exact Hrun|].
  unfold reported_counts. rewrite Hrq, Hcr, Hst, Hspec.
  change (_generate_acceptance_criteria (_create_feature_spec r idea tech_stack)
            (_generate_user_stories (_create_feature_spec r idea tech_stack)))
    with (criteria_of r idea tech_stack).
  rewrite criteria_of_eq.
  cbn [map snd cb_criteria list_sum fold_right]. rewrite first_match_length.
  destruct (Py.str_in "account" (Py.lower idea) || Py.str_in "manage" (Py.lower idea));
    reflexivity.
Qed.

(** The theorem on a new root for the sample idea, which contains
    "manage". *)
Lemma reported_counts_of_run_witness :
  exists d root',
    generate_feature ∅ sample_now sample_now 0 sample_idea None = Some (d, root')
    /\ reported_counts d = (6, 27, 6).
Proof.
  apply (reported_counts_of_run ∅ sample_now sample_now 0 sample_idea None).
  reflexivity.
Defined.

(** ** The pipeline and the tree *)

(** The tree a run leaves: the root with the directory of the feature
    replaced by what it held before and the two files. *)
Lemma generate_feature_tree (root : gmap string node)
    (now_id now_created : datetime) (r : nat) (idea : string)
    (tech_stack : option string) :
  writable root (_generate_feature_id root now_id) = true ->
  exists d,
    generate_feature root now_id now_created r idea tech_stack =
      Some (d, <[fd_id d := NDir (saved_dir d (dir_at root (fd_id d)))]> root)
    /\ fd_id d = _generate_feature_id root now_id.
Proof.
  intros Hw. unfold generate_feature, writable, dir_at in *.
  set (id := _generate_feature_id root now_id) in *.
  unfold mkdir_exist_ok.
  destruct (root !! id) as [[t|dir|]|] eqn:Hid; [discriminate | | discriminate |].
  - apply andb_true_iff in Hw as [H1 H2].
    apply negb_true_iff in H1, H2. simpl.
    rewrite (save_feature_ok root dir id _ Hid H1 H2).
    refine (ex_intro _ (mkFeature id _ _ _ _ _ _ _ _ _ _) _).
    split; [|reflexivity]. cbn [fd_id]. rewrite Hid. reflexivity.
  - simpl.
    rewrite (save_feature_ok _ ∅ id); [ | apply lookup_insert_eq | reflexivity..].
    refine (ex_intro _ (mkFeature id _ _ _ _ _ _ _ _ _ _) _).
    split; [|reflexivity]. cbn [fd_id]. rewrite Hid.
    rewrite insert_insert_eq. reflexivity.
Qed.

(** The method for its value and the tree raises in two cases, both
    decided by the entry that has the name of the new identifier. *)
Lemma generate_feature_none_iff (root : gmap string node)
    (now_id now_created : datetime) (r : nat) (idea : string)
    (tech_stack : option string) :
  generate_feature root now_id now_created r idea tech_stack = None <->
  (is_Some (root !! _generate_feature_id root now_id)
   /\ is_dir (root !! _generate_feature_id root now_id) = false)
  \/ (exists dir,
        root !! _generate_feature_id root now_id = Some (NDir dir)
        /\ (is_dir (dir !! "feature_spec.json") = true
            \/ is_dir (dir !! "README.md") = true)).
Proof.
  split.
  - intros Hnone.
    destruct (writable root (_generate_feature_id root now_id)) eqn:Hw.
    + destruct (generate_feature_returns root now_id now_created r idea
                  tech_stack Hw) as (d & root' & Hrun & _).
      congruence.
    + unfold writable in Hw.
      destruct (root !! _generate_feature_id root now_id) as [[t|dir|]|];
        [left; split; [eauto | reflexivity] | right
        | left; split; [eauto | reflexivity] | discriminate].
      exists dir. split; [reflexivity|].
      destruct (is_dir (dir !! "feature_spec.json")); [now left|].
      destruct (is_dir (dir !! "README.md")); [now right | discriminate].
  - intros Hcase.
    destruct (generate_feature root now_id now_created r idea tech_stack)
      as [[d root']|] eqn:Hrun; [|reflexivity].
    apply generate_feature_writable in Hrun. unfold writable in Hrun.
    destruct Hcase as [[Hs Hd] | (dir & Hdir & Hsub)].
    + destruct (root !! _generate_feature_id root now_id) as [[t|dir|]|];
        [discriminate | discriminate | discriminate | destruct Hs; discriminate].
    + rewrite Hdir in Hrun. apply andb_true_iff in Hrun as [H1 H2].
      apply negb_true_iff in H1, H2. destruct Hsub; congruence.
Qed.

Lemma save_feature_io_eq (st : streams) (root : gmap string node) (id : string)
    (d : FeatureData) :
  _save_feature_io st root id d =
  if takes_files st d then _save_feature root id d else None.
Proof.
  unfold _save_feature_io, _save_feature, takes_files, write_text.
  destruct (root !! id) as [[t|dir|]|];
    try (destruct (_ && _); reflexivity).
  destruct (write_file dir "feature_spec.json" (Json.dumps (feature_json d)))
    as [dir1|]; cbn [mbind option_bind];
    [|destruct (_ && _); reflexivity].
  destruct (forallb (file_takes st) (codes (Json.dumps (feature_json d))));
    cbn [mbind option_bind andb]; [|reflexivity].
  destruct (write_file dir1 "README.md" (_generate_readme d)) as [dir2|];
    cbn [mbind option_bind];
    [|destruct (forallb _ _); reflexivity].
  destruct (forallb (file_takes st) (codes (_generate_readme d))); reflexivity.
Qed.

(** Six lines printed around a step that may fail. *)
Lemma print_around {A : Type} (st : streams) (out : list (list N))
    (l1 l2 l3 l4 l5 l6 : list N) (step : option (gmap string node))
    (ok : bool) (d : A) :
  (out ← print st out l1;
   out ← print st out l2;
   root ← (if ok then step else None);
   out ← print st out l3;
   out ← print st out l4;
   out ← print st out l5;
   out ← print st out l6;
   Some (d, out, root)) =
  match step with
  | Some root' =>
      if takes_lines (stdout_takes st) [l1; l2; l3; l4; l5; l6] && ok
      then Some (d, out ++ [l1; l2; l3; l4; l5; l6], root')
      else None
  | None => None
  end.
Proof.
  unfold print, takes_lines. cbn [forallb].
  generalize (forallb (stdout_takes st) (l1 ++ [10%N])),
    (forallb (stdout_takes st) (l2 ++ [10%N])),
    (forallb (stdout_takes st) (l3 ++ [10%N])),
    (forallb (stdout_takes st) (l4 ++ [10%N])),
    (forallb (stdout_takes st) (l5 ++ [10%N])),
    (forallb (stdout_takes st) (l6 ++ [10%N])).
  intros b1 b2 b3 b4 b5 b6.
  destruct step as [root'|], ok, b1, b2, b3, b4, b5, b6;
    cbn [mbind option_bind andb]; try reflexivity.
  rewrite <- !app_assoc. reflexivity.
Qed.

(** The whole method is the method for its value and the tree, on
    streams that take its six progress lines and its two files. *)
Lemma generate_feature_io_eq (st : streams) (out : list (list N))
    (root : gmap string node) (now_id now_created : datetime) (r : nat)
    (idea : string) (tech_stack : option string) :
  generate_feature_io st out root now_id now_created r idea tech_stack =
  match generate_feature root now_id now_created r idea tech_stack with
  | Some (d, root') =>
      if takes_lines (stdout_takes st) (progress_lines d) && takes_files st d
      then Some (d, out ++ progress_lines d, root')
      else None
  | None => None
  end.
Proof.
  unfold generate_feature_io, generate_feature.
  destruct (mkdir_exist_ok root (_generate_feature_id root now_id)) as [root1|];
    [|reflexivity].
  cbn [mbind option_bind]. cbv zeta. rewrite save_feature_io_eq.
  match goal with
  | |- context [_save_feature root1 ?i ?D] =>
      rewrite (print_around st out _ _ _ _ _ _ (_save_feature root1 i D) _ D)
  end.
  destruct (_save_feature root1 _ _); reflexivity.
Qed.

(** X10: when [generate_feature] raises.  The method with its progress
    lines and its files raises exactly when the entry of the artifact
    root that has the name of the new identifier is a regular file; or
    it is a directory in which [feature_spec.json] or [README.md] is
    itself a directory; or standard output does not take a code point of
    one of the six progress lines; or the encoding of the files does not
    take a code point of the JSON text or of the summary.  The tree has
    no permissions and no full device, and a string holds code points
    below 256. *)
Theorem generate_feature_fails_iff (st : streams) (out : list (list N))
    (root : gmap string node) (now_id now_created : datetime) (r : nat)
    (idea : string) (tech_stack : option string) :
  generate_feature_io st out root now_id now_created r idea tech_stack = None <->
  (is_Some (root !! _generate_feature_id root now_id)
   /\ is_dir (root !! _generate_feature_id root now_id) = false)
  \/ (exists dir,
        root !! _generate_feature_id root now_id = Some (NDir dir)
        /\ (is_dir (dir !! "feature_spec.json") = true
            \/ is_dir (dir !! "README.md") = true))
  \/ (exists d root',
        generate_feature root now_id now_created r idea tech_stack = Some (d, root')
        /\ (takes_lines (stdout_takes st) (progress_lines d) = false
            \/ takes_files st d = false)).
Proof.
  rewrite generate_feature_io_eq.
  pose proof (generate_feature_none_iff root now_id now_created r idea tech_stack)
    as Hnone.
  destruct (generate_feature root now_id now_created r idea tech_stack)
    as [[d root']|] eqn:Hrun.
  - split.
    + intros Hio. right. right. exists d, root'. split; [reflexivity|].
      destruct (takes_lines _ _); [|now left].
      destruct (takes_files st d); [discriminate | now right].
    + intros [Hcase | [Hcase | (d0 & root0 & Heq & Hst)]].
      * assert (Some (d, root') = None) by (apply Hnone; now left). discriminate.
      * assert (Some (d, root') = None) by (apply Hnone; now right). discriminate.
      * injection Heq as <- <-.
        destruct Hst as [-> | ->]; [reflexivity | now rewrite andb_false_r].
  - split; [|reflexivity]. intros _.
    destruct (proj1 Hnone eq_refl) as [H | H]; [now left | right; now left].
Qed.

(** The theorem on the root where a file has the name of the next
    identifier, and on an empty root with a standard output that takes
    ASCII only. *)
Lemma generate_feature_fails_iff_witness :
  generate_feature_io utf8 [] {[ "feat_20260115_0002" := NFile EmptyString ]}
    sample_now sample_now 0 sample_idea None = None
  /\ generate_feature_io ascii_stdout [] ∅ sample_now sample_now 0 "Shop" None
     = None.
Proof.
  split.
  - apply (generate_feature_fails_iff utf8 []
             {[ "feat_20260115_0002" := NFile EmptyString ]}
             sample_now sample_now 0 sample_idea None).
    left. split; [exists (NFile EmptyString)|]; reflexivity.
  - apply (generate_feature_fails_iff ascii_stdout [] ∅ sample_now sample_now 0
             "Shop" None).
    right. right.
    assert (Hw : writable ∅ (_generate_feature_id ∅ sample_now) = true)
      by reflexivity.
    destruct (generate_feature_returns ∅ sample_now sample_now 0 "Shop" None Hw)
      as (d & root' & Hrun & _).
    exists d, root'. split; [exact Hrun|]. left. reflexivity.
Defined.

(** X11: a run that returns changes one entry of the artifact root, the
    directory named by the identifier: every other entry is as before,
    the directory holds the two files of the record, and whatever else
    it held before the run is still there; a directory the run created
    holds the two files and nothing else. *)
Theorem generate_feature_touches_one_directory (root : gmap string node)
    (now_id now_created : datetime) (r : nat) (idea : string)
    (tech_stack : option string) :
  writable root (_generate_feature_id root now_id) = true ->
  exists d root' dir',
    generate_feature root now_id now_created r idea tech_stack = Some (d, root')
    /\ (forall name, name <> fd_id d -> root' !! name = root !! name)
    /\ root' !! fd_id d = Some (NDir dir')
    /\ dir' !! "feature_spec.json" = Some (NFile (Json.dumps (feature_json d)))
    /\ dir' !! "README.md" = Some (NFile (_generate_readme d))
    /\ (forall file, file <> "feature_spec.json" -> file <> "README.md" ->
          dir' !! file = dir_at root (fd_id d) !! file)
    /\ (root !! fd_id d = None ->
        forall file, is_Some (dir' !! file) ->
          file = "feature_spec.json" \/ file = "README.md").
Proof.
  intros Hw.
  destruct (generate_feature_tree root now_id now_created r idea tech_stack Hw)
    as (d & Hrun & Hid).
  exists d, (<[fd_id d := NDir (saved_dir d (dir_at root (fd_id d)))]> root),
    (saved_dir d (dir_at root (fd_id d))).
  split; [exact Hrun|]. split; [|split; [|split; [|split; [|split]]]].
  - intros name Hne. now rewrite lookup_insert_ne.
  - apply lookup_insert_eq.
  - unfold saved_dir. rewrite lookup_insert_ne by discriminate.
    apply lookup_insert_eq.
  - unfold saved_dir. apply lookup_insert_eq.
  - intros file H1 H2. unfold saved_dir.
    now rewrite !lookup_insert_ne by congruence.
  - intros Hnone file Hsome. unfold saved_dir, dir_at in Hsome.
    rewrite Hnone in Hsome.
    destruct (decide (file = "README.md")) as [->|H2]; [now right|].
    destruct (decide (file = "feature_spec.json")) as [->|H1]; [now left|].
    rewrite !lookup_insert_ne, lookup_empty in Hsome by congruence.
    destruct Hsome as [x Hx]. discriminate.
Qed.

(** The theorem on a root that holds a file of another name. *)
Lemma generate_feature_touches_one_directory_witness :
  exists d root' dir',
    generate_feature {[ "notes.txt" := NFile "keep" ]} sample_now sample_now 0
      sample_idea None = Some (d, root')
    /\ root' !! "notes.txt" = Some (NFile "keep")
    /\ root' !! fd_id d = Some (NDir dir')
    /\ dir' !! "README.md" = Some (NFile (_generate_readme d)).
Proof.
  assert (Hw : writable {[ "notes.txt" := NFile "keep" ]}
                 (_generate_feature_id {[ "notes.txt" := NFile "keep" ]} sample_now)
               = true) by reflexivity.
  destruct (generate_feature_touches_one_directory
              {[ "notes.txt" := NFile "keep" ]} sample_now sample_now 0
              sample_idea None Hw)
    as (d & root' & dir' & Hrun & Hother & Hdir & _ & Hreadme & _).
  exists d, root', dir'. split; [exact Hrun|]. split; [|split; assumption].
  rewrite Hother; [reflexivity|].
  destruct (generate_feature_tree {[ "notes.txt" := NFile "keep" ]} sample_now
              sample_now 0 sample_idea None Hw) as (d0 & Hrun0 & Hid0).
  assert (d0 = d) as -> by congruence.
  rewrite Hid0. discriminate.
Defined.

(** X12: a run of invocations on an artifact root whose [feat_*] entries
    are numbered up to their count (an empty root for one) returns one
    record per request, with pairwise distinct identifiers that were all
    free at the start; every entry the root had is unchanged at the end;
    the number of [feat_*] entries has grown by the number of requests;
    and the two files of every record are at the end as they were written:
    no invocation of the run overwrites the files of another. *)
Theorem run_keeps_every_feature (reqs : list request) (root : gmap string node) :
  numbered root ->
  Forall (fun q => valid_datetime (rq_now_id q) = true) reqs ->
  exists ds root',
    run root reqs = Some (ds, root')
    /\ length ds = length reqs
    /\ length (glob_feat root') = length (glob_feat root) + length reqs
    /\ (forall name, is_Some (root !! name) -> root' !! name = root !! name)
    /\ (forall d, In d ds -> root !! fd_id d = None)
    /\ List.NoDup (map fd_id ds)
    /\ (forall d, In d ds ->
          file_at root' (fd_id d) "feature_spec.json"
            = Some (Json.dumps (feature_json d))
          /\ file_at root' (fd_id d) "README.md" = Some (_generate_readme d)).
Proof.
  revert root. induction reqs as [|q reqs IH]; intros root Hn Hv.
  - exists [], root. simpl. repeat split; try tauto; try lia. constructor.
  - inversion Hv as [|? ? Hq Hv']; subst.
    pose proof (numbered_fresh root (rq_now_id q) Hn Hq) as Hfresh.
    destruct (generate_feature_numbered root (rq_now_id q) (rq_now_created q)
                (rq_draw q) (rq_idea q) (rq_tech_stack q) Hn Hq)
      as (d & root1 & Hrun & _ & Hcount & Hn1).
    destruct (generate_feature_returns root (rq_now_id q) (rq_now_created q)
                (rq_draw q) (rq_idea q) (rq_tech_stack q)
                (writable_fresh _ _ Hfresh))
      as (d' & root1' & Hrun' & Hid & _ & _ & _ & _ & _ & _ & _ & _ & _ & _
          & Hjson & Hreadme & Hother & _).
    assert (d' = d) as -> by congruence.
    assert (root1' = root1) as -> by congruence.
    rewrite <- Hid in Hfresh.
    assert (Hd1 : is_Some (root1 !! fd_id d)).
    { unfold file_at in Hreadme. destruct (root1 !! fd_id d); [eauto | discriminate]. }
    destruct (IH root1 Hn1 Hv')
      as (ds & root2 & Hruns & Hlen & Hcount2 & Hkeep & Hnew & Hnd & Hfiles).
    exists (d :: ds), root2. simpl. rewrite Hrun. simpl. rewrite Hruns. simpl.
    split; [reflexivity|]. split; [now rewrite Hlen|]. split; [lia|].
    assert (Hold : forall name, is_Some (root !! name) ->
                     root1 !! name = root !! name).
    { intros name Hs. apply Hother. intros ->. rewrite Hfresh in Hs.
      destruct Hs; discriminate. }
    split; [|split; [|split; [|]]].
    + intros name Hs. rewrite Hkeep; [now apply Hold|]. now rewrite Hold.
    + intros x [<-|Hx]; [exact Hfresh|].
      destruct (root !! fd_id x) eqn:E; [|reflexivity].
      rewrite <- (Hold (fd_id x)), (Hnew x Hx) in E by (rewrite E; eauto).
      discriminate.
    + constructor; [|exact Hnd].
      intros Hin. apply in_map_iff in Hin as (x & Hx & Hin).
      apply Hnew in Hin. rewrite Hx in Hin. rewrite Hin in Hd1.
      destruct Hd1; discriminate.
    + intros x [<-|Hx]; [|now apply Hfiles].
      unfold file_at in *. rewrite (Hkeep _ Hd1). split; assumption.
Qed.


(** The theorem for the three sample requests on an empty root. *)
Lemma run_keeps_every_feature_witness :
  exists ds root',
    run ∅ sample_requests = Some (ds, root')
    /\ length ds = 3
    /\ length (glob_feat root') = 3
    /\ List.NoDup (map fd_id ds).
Proof.
  assert (Hn : numbered ∅) by (apply no_feat_numbered; reflexivity).
  assert (Hv : Forall (fun q => valid_datetime (rq_now_id q) = true) sample_requests)
    by (repeat constructor).
  destruct (run_keeps_every_feature sample_requests ∅ Hn Hv)
    as (ds & root' & Hrun & Hlen & Hcount & _ & _ & Hnd & _).
  exists ds, root'. repeat split; assumption.
Defined.

(** X13: the sequence number of the next identifier counts the entries
    of the artifact root whose name starts with [feat_], files and
    directories alike and whatever follows the prefix: adding an entry of
    such a name raises it by one, adding an entry of any other name and
    replacing an entry that exists leave the next identifier as it is. *)
Theorem next_id_counts_feat_entries (root : gmap string node) (now : datetime)
    (name : string) (v : node) :
  (root !! name = None ->
   _generate_feature_id (<[name := v]> root) now =
   feature_id_text now
     (length (glob_feat root) + (if String.prefix "feat_" name then 2 else 1)))
  /\ (is_Some (root !! name) ->
      _generate_feature_id (<[name := v]> root) now = _generate_feature_id root now).
Proof.
  split; intros H; rewrite !feature_id_eq.
  - rewrite (glob_feat_insert_fresh _ _ _ H). unfold is_feat.
    destruct (String.prefix "feat_" name); f_equal; lia.
  - now rewrite (glob_feat_insert_present _ _ _ H).
Qed.

(** The theorem for a file named [feat_x] added to an empty root. *)
Lemma next_id_counts_feat_entries_witness :
  _generate_feature_id (<["feat_x" := NFile EmptyString]> ∅) sample_now =
  feature_id_text sample_now 2.
Proof.
  assert (Hnone : (∅ : gmap string node) !! "feat_x" = None) by reflexivity.
  exact (proj1 (next_id_counts_feat_entries ∅ sample_now "feat_x"
                  (NFile EmptyString)) Hnone).
Defined.

(** ** What the summary document shows *)

Lemma prefix_refl (s : string) : String.prefix s s = true.
Proof. apply prefix_spec. exists EmptyString. now rewrite append_nil_r. Qed.

Ltac extends_steps :=
  intros; repeat first
    [ apply prefix_refl
    | assumption
    | apply prefix_append
    | apply prefix_fold_left; [intros ? ? ?|] ].

Lemma readme_story_prefix (d : FeatureData) (p acc : string) (story : Story) :
  String.prefix p acc = true -> String.prefix p (readme_story d acc story) = true.
Proof.
  intros Hp. unfold readme_story. cbv zeta. destruct (dict_get _ _); extends_steps.
Qed.

Lemma readme_story_extends (d : FeatureData) (acc : string) (story : Story) :
  String.prefix acc (readme_story d acc story) = true.
Proof. apply readme_story_prefix, prefix_refl. Qed.

(** *** Whole lines *)

Lemma ends_nls : ends_newline nls.
Proof. exists EmptyString. reflexivity. Qed.

Lemma ends_app (a b : string) : ends_newline b -> ends_newline (a +:+ b).
Proof. intros [t ->]. exists (a +:+ t). now rewrite append_assoc. Qed.

Lemma whole_app (a b : string) : ends_newline b -> whole_lines (a +:+ b).
Proof. intros Hb. right. now apply ends_app. Qed.

Ltac ends_steps := repeat first [ apply ends_nls | apply ends_app ].
Ltac whole_steps := first [ assumption | apply whole_app; ends_steps ].

Lemma lines_end (a p : string) :
  whole_lines a -> ends_newline p -> lines_of p (a +:+ p).
Proof.
  intros Ha Hp. exists a, EmptyString. now rewrite append_nil_r.
Qed.

Lemma lines_app_l (p a b : string) : lines_of p a -> lines_of p (a +:+ b).
Proof.
  intros (x & y & -> & Hx & Hp). exists x, (y +:+ b).
  now rewrite !append_assoc.
Qed.

Lemma lines_extends (p a b : string) :
  lines_of p a -> String.prefix a b = true -> lines_of p b.
Proof.
  intros Hp Hb. apply prefix_spec in Hb as [t ->]. now apply lines_app_l.
Qed.

Lemma lines_occurs (p text : string) : lines_of p text -> occurs p text.
Proof. intros (x & y & -> & _). now exists x, y. Qed.

Lemma fold_left_keeps_lines {A : Type} (g : string -> A -> string) (p : string)
    (l : list A) (s : string) :
  (forall acc y, String.prefix acc (g acc y) = true) ->
  lines_of p s -> lines_of p (fold_left g l s).
Proof.
  intros Hg. revert s. induction l as [|y l IH]; intros s Hs; simpl; [exact Hs|].
  apply IH. apply (lines_extends p s); [exact Hs | apply Hg].
Qed.

(** A loop whose body appends whole lines holds, as whole lines, what
    the body appends for each element. *)
Lemma fold_left_lines {A : Type} (g : string -> A -> string) (p : string)
    (x : A) (l : list A) (s : string) :
  (forall acc y, String.prefix acc (g acc y) = true) ->
  (forall acc y, whole_lines acc -> whole_lines (g acc y)) ->
  (forall acc, whole_lines acc -> lines_of p (g acc x)) ->
  whole_lines s -> In x l -> lines_of p (fold_left g l s).
Proof.
  intros Hg Hw Hx. revert s.
  induction l as [|y l IH]; intros s Hs Hin; [destruct Hin|].
  simpl. destruct Hin as [->|Hin]; [|apply IH; [apply Hw, Hs | exact Hin]].
  apply fold_left_keeps_lines; [exact Hg | apply Hx, Hs].
Qed.

Lemma readme_story_whole (d : FeatureData) (acc : string) (story : Story) :
  whole_lines (readme_story d acc story).
Proof.
  unfold readme_story. cbv zeta. destruct (dict_get _ _); whole_steps.
Qed.

(** The four runs of lines that open the section of a story. *)
Lemma readme_story_heading_lines (d : FeatureData) (acc : string)
    (story : Story) :
  whole_lines acc ->
  lines_of ("### " +:+ story_id story +:+ " (" +:+
            Py.upper (story_priority story) +:+ ")" +:+ nls)
    (readme_story d acc story)
  /\ lines_of (nls +:+ "**" +:+ story_role story +:+ ",** " +:+
               story_action story +:+ nls)
       (readme_story d acc story)
  /\ lines_of ("*" +:+ story_benefit story +:+ "*" +:+ nls +:+ nls)
       (readme_story d acc story)
  /\ lines_of ("**Story Points:** " +:+ Py.str_int (story_points story) +:+
               nls +:+ nls)
       (readme_story d acc story).
Proof.
  intros Hacc. unfold readme_story. cbv zeta.
  repeat split;
    (destruct (dict_get _ _);
     [ apply lines_app_l, fold_left_keeps_lines; [extends_steps|];
       apply lines_app_l | ]).
  all: first [ apply lines_end; [whole_steps | ends_steps]
             | apply lines_app_l, lines_end; [whole_steps | ends_steps]
             | do 2 apply lines_app_l; apply lines_end;
               [whole_steps | ends_steps]
             | do 3 apply lines_app_l; apply lines_end;
               [whole_steps | ends_steps] ].
Qed.

Lemma readme_story_criteria_lines (d : FeatureData) (acc : string)
    (story : Story) (block : CriteriaBlock) (c : string) :
  dict_get (story_id story) (fd_acceptance_criteria d) = Some block ->
  In c (cb_criteria block) ->
  lines_of ("- [ ] " +:+ c +:+ nls) (readme_story d acc story).
Proof.
  intros Hget Hin. unfold readme_story. cbv zeta. rewrite Hget.
  apply lines_app_l.
  apply (fold_left_lines _ _ c); [extends_steps | | | whole_steps | exact Hin].
  - intros acc0 y _. whole_steps.
  - intros acc0 Hacc0. apply lines_end; [exact Hacc0 | ends_steps].
Qed.

Lemma readme_mvp_lines (d : FeatureData) (feat : string) :
  In feat (spec_mvp_features (fd_specification d)) ->
  lines_of ("- " +:+ feat +:+ nls) (_generate_readme d).
Proof.
  intros Hin. unfold _generate_readme. cbv zeta. do 4 apply lines_app_l.
  apply fold_left_keeps_lines; [extends_steps|]. apply lines_app_l.
  apply fold_left_keeps_lines; [intros; apply readme_story_extends|].
  apply lines_app_l.
  apply (fold_left_lines _ _ feat); [extends_steps | | | whole_steps | exact Hin].
  - intros acc y _. whole_steps.
  - intros acc Hacc. apply lines_end; [exact Hacc | ends_steps].
Qed.

(** What the section of one of the first four stories holds as whole
    lines, the document holds as whole lines. *)
Lemma readme_story_part_lines (d : FeatureData) (story : Story) (p : string) :
  In story (firstn 4 (fd_user_stories d)) ->
  (forall acc, whole_lines acc -> lines_of p (readme_story d acc story)) ->
  lines_of p (_generate_readme d).
Proof.
  intros Hin Hp. unfold _generate_readme. cbv zeta. do 4 apply lines_app_l.
  apply fold_left_keeps_lines; [extends_steps|]. apply lines_app_l.
  apply (fold_left_lines _ _ story);
    [ intros; apply readme_story_extends
    | intros; apply readme_story_whole
    | exact Hp
    | whole_steps
    | exact Hin ].
Qed.

Lemma readme_endpoint_whole_lines (d : FeatureData) (e : Endpoint) :
  In e (api_endpoints (fd_api_specification d)) ->
  lines_of (("### " +:+ ep_method e +:+ " " +:+ ep_path e +:+ nls) +:+
            ep_description e +:+ nls +:+ nls)
    (_generate_readme d).
Proof.
  intros Hin. unfold _generate_readme. cbv zeta. do 4 apply lines_app_l.
  apply (fold_left_lines _ _ e); [extends_steps | | | whole_steps | exact Hin].
  - intros acc y _. whole_steps.
  - intros acc Hacc. exists acc, EmptyString.
    split; [now rewrite append_nil_r, !append_assoc|].
    split; [exact Hacc | ends_steps].
Qed.

Lemma readme_status_whole_lines (d : FeatureData) :
  lines_of ("- Current Status: " +:+ fd_status d +:+ nls) (_generate_readme d)
  /\ lines_of ("- Created: " +:+ fd_created_at d +:+ nls) (_generate_readme d).
Proof.
  unfold _generate_readme. cbv zeta. split.
  - do 2 apply lines_app_l. apply lines_end; [whole_steps | ends_steps].
  - apply lines_app_l, lines_end; [whole_steps | ends_steps].
Qed.

(** X14: the summary document of any record shows, each as a run of
    whole lines (at the start of the text or after a newline, and ending
    with its newline): every MVP feature of the specification as a list
    item; for each of the first four user stories its heading with id
    and upper-cased priority, its role and action after an empty line,
    its benefit, its story points and, when the criteria hold a block
    under its id, every criterion of the block as an unchecked box;
    every API endpoint with method, path and description; and the status
    and the creation time of the record.  The heading is stated for a
    priority whose capitals stay below code point 256, where [Py.upper]
    is [str.upper]. *)
Theorem readme_shows_record (d : FeatureData) :
  (forall feat, In feat (spec_mvp_features (fd_specification d)) ->
     lines_of ("- " +:+ feat +:+ nls) (_generate_readme d))
  /\ (forall story, In story (firstn 4 (fd_user_stories d)) ->
        (Py.upper_exact (story_priority story) = true ->
         lines_of ("### " +:+ story_id story +:+ " (" +:+
                   Py.upper (story_priority story) +:+ ")" +:+ nls)
           (_generate_readme d))
        /\ lines_of (nls +:+ "**" +:+ story_role story +:+ ",** " +:+
                     story_action story +:+ nls)
             (_generate_readme d)
        /\ lines_of ("*" +:+ story_benefit story +:+ "*" +:+ nls +:+ nls)
             (_generate_readme d)
        /\ lines_of ("**Story Points:** " +:+ Py.str_int (story_points story) +:+
                     nls +:+ nls)
             (_generate_readme d)
        /\ forall block c,
             dict_get (story_id story) (fd_acceptance_criteria d) = Some block ->
             In c (cb_criteria block) ->
             lines_of ("- [ ] " +:+ c +:+ nls) (_generate_readme d))
  /\ (forall e, In e (api_endpoints (fd_api_specification d)) ->
        lines_of (("### " +:+ ep_method e +:+ " " +:+ ep_path e +:+ nls) +:+
                  ep_description e +:+ nls +:+ nls)
          (_generate_readme d))
  /\ lines_of ("- Current Status: " +:+ fd_status d +:+ nls) (_generate_readme d)
  /\ lines_of ("- Created: " +:+ fd_created_at d +:+ nls) (_generate_readme d).
Proof.
  split; [|split; [|split]].
  - intros feat. apply readme_mvp_lines.
  - intros story Hin.
    split; [intros _|split; [|split; [|split; [|intros block c Hget Hc]]]];
      apply (readme_story_part_lines d story _ Hin); intros acc Hacc.
    1-4: now apply readme_story_heading_lines.
    now apply (readme_story_criteria_lines d acc story block c).
  - intros e. apply readme_endpoint_whole_lines.
  - apply readme_status_whole_lines.
Qed.

(** The theorem for the record of the sample idea: an MVP feature, the
    heading of US-003 and one of its criteria. *)
Lemma readme_shows_record_witness :
  lines_of ("- " +:+ "User authentication" +:+ nls) (_generate_readme sample_feature)
  /\ lines_of ("### " +:+ "US-003" +:+ " (" +:+ Py.upper "high" +:+ ")" +:+ nls)
       (_generate_readme sample_feature)
  /\ lines_of ("- [ ] " +:+ "User can delete items" +:+ nls)
       (_generate_readme sample_feature).
Proof.
  destruct (readme_shows_record sample_feature) as (Hfeat & Hstory & _).
  assert (Hin : In story_us003 (firstn 4 (fd_user_stories sample_feature)))
    by (simpl; tauto).
  destruct (Hstory story_us003 Hin) as (Hhead & _ & _ & _ & Hcrit).
  split; [|split].
  - apply Hfeat. simpl. tauto.
  - apply Hhead. reflexivity.
  - apply (Hcrit {| cb_story := "I want to manage my content";
                    cb_criteria := crud_checklist |}).
    + reflexivity.
    + simpl. tauto.
Defined.

(** X15: the summary document a run writes, for any idea: the file
    [README.md] holds the first MVP feature built from the idea, the
    tech stack given or the default one under its heading, the action of
    story US-001 with the idea, every criterion of the checklist the idea
    selects as an unchecked box, the status [spec_ready] and the second
    reading of the clock as creation time. *)
Theorem generated_readme_shows_idea (root : gmap string node)
    (now_id now_created : datetime) (r : nat) (idea : string)
    (tech_stack : option string) :
  writable root (_generate_feature_id root now_id) = true ->
  exists d root' text,
    generate_feature root now_id now_created r idea tech_stack = Some (d, root')
    /\ file_at root' (fd_id d) "README.md" = Some text
    /\ occurs ("- " +:+ ("Core " +:+ idea +:+ " functionality") +:+ nls) text
    /\ String.prefix
         ("# " +:+ idea +:+ nls +:+ nls +:+ "## Description" +:+ nls +:+
          ("A comprehensive solution for " +:+ idea) +:+ nls +:+ nls +:+
          "## Tech Stack" +:+ nls +:+ tech_stack_or_default tech_stack +:+ nls)
         text = true
    /\ occurs (nls +:+ "**" +:+ "As a user" +:+ ",** " +:+
               ("I want to access " +:+ idea) +:+ nls) text
    /\ (forall c, In c (first_match rules idea) ->
          occurs ("- [ ] " +:+ c +:+ nls) text)
    /\ occurs ("- Current Status: " +:+ "spec_ready" +:+ nls) text
    /\ occurs ("- Created: " +:+ isoformat now_created +:+ nls) text.
Proof.
  intros Hw.
  destruct (generate_feature_returns root now_id now_created r idea tech_stack Hw)
    as (d & root' & Hrun & _ & _ & Hspec & Hst & Hcr & _ & _ & _ & Hstat & Hcre
        & _ & _ & Hreadme & _).
  exists d, root', (_generate_readme d).
  split; [exact Hrun|]. split; [exact Hreadme|].
  destruct (readme_status_whole_lines d) as [Hstatus Hcreated].
  apply lines_occurs in Hstatus, Hcreated.
  assert (Hstories : fd_user_stories d = stories_of r idea tech_stack)
    by (now rewrite Hst, Hspec).
  assert (Hcriteria : fd_acceptance_criteria d = criteria_of r idea tech_stack)
    by (now rewrite Hcr, Hst, Hspec).
  rewrite stories_of_eq in Hstories.
  set (us001 := mkStory "US-001" "As a user" ("I want to access " +:+ idea)
                  "So that I can use the core functionality" "high" 3) in *.
  assert (Hin : In us001 (firstn 4 (fd_user_stories d)))
    by (rewrite Hstories; now left).
  split; [|split; [|split; [|split; [|split]]]].
  - apply lines_occurs, readme_mvp_lines. rewrite Hspec. now left.
  - unfold _generate_readme. cbv zeta. rewrite Hspec.
    cbn [spec_title spec_description spec_tech_stack _create_feature_spec].
    repeat first
      [ solve [apply prefix_spec; eexists; rewrite !append_assoc; reflexivity]
      | apply prefix_append
      | apply prefix_fold_left; [intros ? ? ?|]
      | assumption
      | apply readme_story_prefix ].
  - apply lines_occurs, (readme_story_part_lines d us001 _ Hin).
    intros acc Hacc. now apply (readme_story_heading_lines d acc us001).
  - intros c Hc. apply lines_occurs, (readme_story_part_lines d us001 _ Hin).
    intros acc Hacc.
    apply (readme_story_criteria_lines d acc us001
             {| cb_story := "I want to access " +:+ idea;
                cb_criteria := first_match rules idea |}); [|exact Hc].
    rewrite Hcriteria. apply us001_block.
  - now rewrite <- Hstat.
  - now rewrite <- Hcre.
Qed.

(** The theorem on a new root for the sample idea. *)
Lemma generated_readme_shows_idea_witness :
  exists d root' text,
    generate_feature ∅ sample_now sample_now 0 sample_idea None = Some (d, root')
    /\ file_at root' (fd_id d) "README.md" = Some text
    /\ occurs ("- " +:+ ("Core " +:+ sample_idea +:+ " functionality") +:+ nls) text
    /\ occurs ("- [ ] " +:+ "User can update items" +:+ nls) text.
Proof.
  destruct (generated_readme_shows_idea ∅ sample_now sample_now 0 sample_idea None)
    as (d & root' & text & Hrun & Hfile & Hfeat & _ & _ & Hcrit & _).
  - reflexivity.
  - exists d, root', text. split; [exact Hrun|]. split; [exact Hfile|].
    split; [exact Hfeat|]. apply Hcrit. simpl. tauto.
Defined.

(** ** The characters of the JSON file *)

Lemma plain_ascii_app (a b : string) :
  plain_ascii (a +:+ b) = plain_ascii a && plain_ascii b.
Proof.
  induction a as [|c a IH]; [reflexivity|].
  change (plain_ascii (String c a +:+ b))
    with (plain_char c && plain_ascii (a +:+ b)).
  change (plain_ascii (String c a)) with (plain_char c && plain_ascii a).
  now rewrite IH, andb_assoc.
Qed.

Lemma plain_escape_char (c : ascii) : plain_ascii (Json.escape_char c) = true.
Proof. destruct c as [[] [] [] [] [] [] [] []]; reflexivity. Qed.

Lemma plain_escape (s : string) : plain_ascii (Json.escape s) = true.
Proof.
  induction s as [|c s IH]; [reflexivity|].
  cbn [Json.escape]. now rewrite plain_ascii_app, plain_escape_char, IH.
Qed.

Lemma plain_encode_string (s : string) :
  plain_ascii (Json.encode_string s) = true.
Proof.
  unfold Json.encode_string.
  change (String Py.dquote (Json.escape s +:+ String Py.dquote EmptyString))
    with (String Py.dquote EmptyString +:+ Json.escape s +:+
          String Py.dquote EmptyString).
  now rewrite !plain_ascii_app, plain_escape.
Qed.

Lemma plain_spaces (k : nat) : plain_ascii (Json.spaces k) = true.
Proof. induction k as [|k IH]; [reflexivity | exact IH]. Qed.

#[local] Transparent Json.newline_indent.

Lemma plain_newline_indent (level : nat) :
  plain_ascii (Json.newline_indent level) = true.
Proof. unfold Json.newline_indent. apply plain_spaces. Qed.

#[local] Opaque Json.newline_indent.

Lemma plain_uint (d : uint) : plain_ascii (NilEmpty.string_of_uint d) = true.
Proof. induction d; [reflexivity | exact IHd ..]. Qed.

Lemma plain_str_int (z : Z) : plain_ascii (Py.str_int z) = true.
Proof.
  unfold Py.str_int, NilEmpty.string_of_int.
  destruct (Z.to_int z); [|cbn [plain_ascii]]; apply plain_uint.
Qed.

Lemma plain_encode_items (level : nat) (xs : list json) :
  Forall (fun x => forall level, plain_ascii (Json.encode level x) = true) xs ->
  plain_ascii (Json.encode_items level xs) = true.
Proof.
  induction 1 as [|y ys Hy _ IH]; [reflexivity|].
  change (Json.encode_items level (y :: ys))
    with ("," +:+ Json.newline_indent (S level) +:+ Json.encode (S level) y +:+
          Json.encode_items level ys).
  now rewrite !plain_ascii_app, plain_newline_indent, Hy, IH.
Qed.

Lemma plain_encode_members (level : nat) (ms : list (string * json)) :
  Forall (fun kv => forall level,
            plain_ascii (Json.encode level (snd kv)) = true) ms ->
  plain_ascii (Json.encode_members level ms) = true.
Proof.
  induction 1 as [|[k v] ms Hv _ IH]; [reflexivity|].
  change (Json.encode_members level ((k, v) :: ms))
    with ("," +:+ Json.newline_indent (S level) +:+ Json.encode_string k +:+ ": " +:+
          Json.encode (S level) v +:+ Json.encode_members level ms).
  simpl in Hv.
  now rewrite !plain_ascii_app, plain_newline_indent, plain_encode_string, Hv, IH.
Qed.

Lemma plain_encode (j : json) (level : nat) :
  plain_ascii (Json.encode level j) = true.
Proof.
  revert level.
  induction j as [|b|z|s|l IH|ms IH] using json_induction; intros level.
  - reflexivity.
  - destruct b; reflexivity.
  - apply plain_str_int.
  - apply plain_encode_string.
  - destruct l as [|x xs]; [reflexivity|].
    inversion IH as [|? ? Hx Hxs]; subst.
    change (Json.encode level (JArr (x :: xs)))
      with ("[" +:+ Json.newline_indent (S level) +:+ Json.encode (S level) x +:+
            Json.encode_items level xs +:+ Json.newline_indent level +:+ "]").
    now rewrite !plain_ascii_app, !plain_newline_indent, Hx,
      (plain_encode_items level xs Hxs).
  - destruct ms as [|[k v] ms]; [reflexivity|].
    inversion IH as [|? ? Hv Hms]; subst. simpl in Hv.
    change (Json.encode level (JObj ((k, v) :: ms)))
      with ("{" +:+ Json.newline_indent (S level) +:+ Json.encode_string k +:+ ": " +:+
            Json.encode (S level) v +:+ Json.encode_members level ms +:+
            Json.newline_indent level +:+ "}").
    now rewrite !plain_ascii_app, !plain_newline_indent, plain_encode_string, Hv,
      (plain_encode_members level ms Hms).
Qed.

(** X16: the JSON text written for any value holds newlines and
    printable ASCII characters only, quotes, backslashes, control
    characters and the code points from 127 on being written as escapes;
    so the file [feature_spec.json] of every run that returns is such a
    text, whatever characters the idea and the tech stack hold. *)
Theorem feature_spec_file_is_ascii (root : gmap string node)
    (now_id now_created : datetime) (r : nat) (idea : string)
    (tech_stack : option string) :
  (forall j, plain_ascii (Json.dumps j) = true)
  /\ (writable root (_generate_feature_id root now_id) = true ->
      exists d root' text,
        generate_feature root now_id now_created r idea tech_stack = Some (d, root')
        /\ file_at root' (fd_id d) "feature_spec.json" = Some text
        /\ plain_ascii text = true).
Proof.
  split; [intros j; apply plain_encode|].
  intros Hw.
  destruct (generate_feature_returns root now_id now_created r idea tech_stack Hw)
    as (d & root' & Hrun & _ & _ & _ & _ & _ & _ & _ & _ & _ & _ & _ & Hjson & _).
  exists d, root', (Json.dumps (feature_json d)).
  split; [exact Hrun|]. split; [exact Hjson | apply plain_encode].
Qed.

(** The theorem on a new root for an idea with a quote, a newline and a
    code point above 127. *)
Lemma feature_spec_file_is_ascii_witness :
  exists d root' text,
    generate_feature ∅ sample_now sample_now 0
      (String Py.dquote (String Py.nl (String "233" "t"))) None = Some (d, root')
    /\ file_at root' (fd_id d) "feature_spec.json" = Some text
    /\ plain_ascii text = true.
Proof.
  apply (proj2 (feature_spec_file_is_ascii ∅ sample_now sample_now 0
                  (String Py.dquote (String Py.nl (String "233" "t"))) None)).
  reflexivity.
Defined.

(** ** The script *)

Lemma takes_codes (takes : N -> bool) (s : string) :
  takes_text takes -> forallb takes (codes s) = true.
Proof.
  intros Ht. unfold codes. apply forallb_forall. intros n Hn.
  apply in_map_iff in Hn as (c & <- & _). apply Ht, N_ascii_bounded.
Qed.

(** Streams that take every character and the six emoji take the
    progress lines, the closing lines and the two files of any record. *)
Lemma takes_all_lines (st : streams) (d : FeatureData) :
  takes_all st ->
  takes_lines (stdout_takes st) (progress_lines d) = true
  /\ takes_lines (stdout_takes st) (closing_lines d) = true
  /\ takes_files st d = true.
Proof.
  intros (Hout & Hemoji & Hfile).
  unfold emoji in Hemoji. cbn [forallb] in Hemoji.
  repeat (apply andb_true_iff in Hemoji as [? Hemoji]).
  assert (Hnl : stdout_takes st 10%N = true) by (apply Hout; reflexivity).
  unfold takes_lines, progress_lines, closing_lines, takes_files.
  cbn [forallb].
  rewrite ?forallb_app. cbn [forallb].
  rewrite ?forallb_app. cbn [forallb].
  rewrite !(takes_codes _ _ Hout), !(takes_codes _ _ Hfile), Hnl.
  repeat match goal with H : stdout_takes st _ = true |- _ => rewrite H; clear H end.
  repeat split; reflexivity.
Qed.

(** With an idea on the command line the script is [generate_feature] on
    the directory [projects] of the working directory, taken as empty
    when it is missing, followed by its two closing lines; before that
    it raises when [config/.env] is a directory or a file that is not
    text, or [projects] is a regular file. *)
Lemma main_eq (st : streams) (argv : list string) (cwd : gmap string node)
    (environ : gmap string string) (now_id now_created : datetime) (r : nat) :
  2 <= length argv ->
  main st argv cwd environ now_id now_created r =
  if loads (lookup_path cwd default_config_path) then
    match cwd !! "projects" with
    | Some (NFile _) | Some NBinary => Raised
    | _ =>
        match generate_feature_io st [] (dir_at cwd "projects") now_id
                now_created r (idea_of argv) (tech_stack_of argv) with
        | Some (d, out, root') =>
            if takes_lines (stdout_takes st) (closing_lines d)
            then Finished d (<["projects" := NDir root']> cwd)
                   (out ++ closing_lines d)
            else Raised
        | None => Raised
        end
    end
  else Raised.
Proof.
  intros Hlen. unfold main, idea_of, tech_stack_of.
  destruct (Nat.ltb_spec (length argv) 2) as [Hlt|_]; [lia|].
  unfold __init__.
  assert (Hload : forall o, loads o = true ->
            exists config, _load_config o environ = Some config).
  { intros [[t|dir|]|] Ho; try discriminate Ho; [|eexists; reflexivity].
    unfold _load_config.
    destruct (config_lines_total (Py.readlines t) ∅) as [c ->].
    eexists; reflexivity. }
  assert (Hclose : forall (d : FeatureData) (out : list (list N))
                     (root' : gmap string node),
            (out ← print st out
                     (10%N :: emoji_folder ::
                      codes (" Feature saved to: projects/" +:+ fd_id d +:+ "/"));
             out ← print st out
                     (emoji_page ::
                      codes (" View spec: projects/" +:+ fd_id d +:+ "/README.md"));
             Some (d, root', out)) =
            if takes_lines (stdout_takes st) (closing_lines d)
            then Some (d, root', out ++ closing_lines d) else None).
  { intros d out root'. unfold print, takes_lines, closing_lines.
    cbn [forallb].
    repeat match goal with
    | |- context [forallb (stdout_takes st) ?l] =>
        let b := fresh "b" in
        generalize (forallb (stdout_takes st) l); intros b
    end.
    repeat match goal with b : bool |- _ => destruct b end;
      cbn [mbind option_bind andb]; try reflexivity.
    now rewrite <- app_assoc. }
  destruct (loads (lookup_path cwd default_config_path)) eqn:Hcfg.
  - destruct (Hload _ Hcfg) as [config ->]. cbn [mbind option_bind].
    unfold mkdir_exist_ok, dir_at.
    destruct (cwd !! "projects") as [[t|root|]|] eqn:Hp;
      cbn [mbind option_bind]; try reflexivity.
    + unfold in_projects. rewrite Hp.
      destruct (generate_feature_io st [] root now_id now_created r _ _)
        as [[[d out] root']|]; cbn [mbind option_bind]; [|reflexivity].
      rewrite Hclose. destruct (takes_lines _ _); reflexivity.
    + unfold in_projects. rewrite lookup_insert_eq.
      destruct (generate_feature_io st [] ∅ now_id now_created r _ _)
        as [[[d out] root']|]; cbn [mbind option_bind]; [|reflexivity].
      rewrite Hclose, insert_insert_eq. destruct (takes_lines _ _); reflexivity.
  - destruct (lookup_path cwd default_config_path) as [[t|dir|]|];
      try discriminate Hcfg; reflexivity.
Qed.

(** X17: how the script ends.  Without an idea on the command line it
    prints the two usage lines and exits with status 1, when standard
    output takes them.  With one, it raises when [config/.env] is a
    directory or a file that is not text, when [projects] is a regular
    file, when [generate_feature] raises on the directory [projects]
    (empty when the script had to create it), or when standard output
    does not take one of the two closing lines; otherwise it finishes
    with the record of that invocation, for the first argument as the
    idea and the second, if any, as the tech stack, leaves the working
    directory changed in [projects] alone, and has printed the lines of
    the invocation and the two closing lines. *)
Theorem main_outcome (st : streams) (argv : list string)
    (cwd : gmap string node) (environ : gmap string string)
    (now_id now_created : datetime) (r : nat) :
  (length argv < 2 ->
   main st argv cwd environ now_id now_created r =
   if takes_lines (stdout_takes st) (map codes usage_lines)
   then Usage 1 (map codes usage_lines) else Raised)
  /\ (2 <= length argv ->
      main st argv cwd environ now_id now_created r =
      if loads (lookup_path cwd default_config_path) then
        match cwd !! "projects" with
        | Some (NFile _) | Some NBinary => Raised
        | _ =>
            match generate_feature_io st [] (dir_at cwd "projects") now_id
                    now_created r (nth 1 argv EmptyString)
                    (if 2 <? length argv then Some (nth 2 argv EmptyString)
                     else None) with
            | Some (d, out, root') =>
                if takes_lines (stdout_takes st) (closing_lines d)
                then Finished d (<["projects" := NDir root']> cwd)
                       (out ++ closing_lines d)
                else Raised
            | None => Raised
            end
        end
      else Raised).
Proof.
  split.
  - intros Hlt. unfold main.
    destruct (Nat.ltb_spec (length argv) 2) as [_|Hge]; [|lia].
    unfold print, takes_lines, usage_lines. cbn [map forallb app].
    repeat match goal with
    | |- context [forallb (stdout_takes st) ?l] =>
        let b := fresh "b" in
        generalize (forallb (stdout_takes st) l); intros b
    end.
    repeat match goal with b : bool |- _ => destruct b end; reflexivity.
  - apply main_eq.
Qed.

(** The theorem for the script name alone on UTF-8 streams, and for a
    working directory where [projects] is a regular file. *)
Lemma main_outcome_witness :
  main utf8 [ "pm_agent.py" ] ∅ ∅ sample_now sample_now 0
    = Usage 1 (map codes usage_lines)
  /\ main utf8 [ "pm_agent.py"; "Shop" ] {[ "projects" := NFile EmptyString ]} ∅
       sample_now sample_now 0 = Raised.
Proof.
  split.
  - assert (Hlt : length [ "pm_agent.py" : string ] < 2) by (simpl; lia).
    exact (proj1 (main_outcome utf8 [ "pm_agent.py" ] ∅ ∅ sample_now sample_now 0)
             Hlt).
  - exact (proj2 (main_outcome utf8 [ "pm_agent.py"; "Shop" ]
                    {[ "projects" := NFile EmptyString ]} ∅
                    sample_now sample_now 0) (le_n 2)).
Defined.

(** X18: the configuration is loaded and never read: on given streams
    the script ends in the same way, with the same record, tree and
    output, whatever values the two credential variables have in the
    environment, and it makes the same record whatever text the file
    [config/.env] holds. *)
Theorem main_ignores_configuration (st : streams) (argv : list string)
    (cwd : gmap string node) (environ environ' : gmap string string)
    (now_id now_created : datetime) (r : nat) (config_dir : gmap string node)
    (text text' : string) :
  (same_but_credentials environ environ' ->
   main st argv cwd environ now_id now_created r =
   main st argv cwd environ' now_id now_created r)
  /\ record_of
       (main st argv
          (<["config" := NDir (<[".env" := NFile text]> config_dir)]> cwd)
          environ now_id now_created r) =
     record_of
       (main st argv
          (<["config" := NDir (<[".env" := NFile text']> config_dir)]> cwd)
          environ now_id now_created r).
Proof.
  destruct (Nat.ltb_spec (length argv) 2) as [Hlt|Hge].
  - unfold main. destruct (Nat.ltb_spec (length argv) 2) as [_|Hge]; [|lia].
    split; reflexivity.
  - rewrite !main_eq by exact Hge. split; [reflexivity|].
    assert (Hcfg : forall t,
              lookup_path (<["config" := NDir (<[".env" := NFile t]> config_dir)]> cwd)
                default_config_path = Some (NFile t)).
    { intros t. unfold default_config_path. cbn [lookup_path].
      now rewrite !lookup_insert_eq. }
    rewrite !Hcfg. cbn [loads]. unfold dir_at.
    rewrite !lookup_insert_ne by discriminate.
    destruct (cwd !! "projects") as [[t|root|]|]; try reflexivity;
      destruct (generate_feature_io st [] _ now_id now_created r _ _)
        as [[[d out] root']|]; try reflexivity;
      destruct (takes_lines _ _); reflexivity.
Qed.

(** The theorem for an environment with and without a credential. *)
Lemma main_ignores_configuration_witness :
  main utf8 [ "pm_agent.py"; "Shop" ] ∅ set_key_environ sample_now sample_now 0 =
  main utf8 [ "pm_agent.py"; "Shop" ] ∅ ∅ sample_now sample_now 0.
Proof.
  apply (proj1 (main_ignores_configuration utf8 [ "pm_agent.py"; "Shop" ] ∅
                  set_key_environ ∅ sample_now sample_now 0 ∅
                  EmptyString EmptyString)).
  intros key Hkey. unfold set_key_environ.
  rewrite lookup_singleton_ne, lookup_empty; [reflexivity|].
  intros <-. apply Hkey. unfold credential_keys. apply elem_of_cons. now left.
Defined.

(** X19: in a working directory without [projects], where
    [config/.env] is absent or a file of text, and on streams that take
    every character of a string and the six emoji (UTF-8 for one), the
    script run with an idea finishes: it creates [projects] and in it the
    directory of the first identifier of the day, [feat_<date>_0001],
    with the two files of the record, leaves every other entry of the
    working directory as it was, and has printed the six progress lines
    and the two closing lines. *)
Theorem main_first_run (st : streams) (argv : list string)
    (cwd : gmap string node) (environ : gmap string string)
    (now_id now_created : datetime) (r : nat) :
  2 <= length argv ->
  loads (lookup_path cwd default_config_path) = true ->
  cwd !! "projects" = None ->
  takes_all st ->
  exists d cwd' root',
    main st argv cwd environ now_id now_created r
      = Finished d cwd' (progress_lines d ++ closing_lines d)
    /\ fd_idea d = nth 1 argv EmptyString
    /\ fd_id d = feature_id_text now_id 1
    /\ cwd' !! "projects" = Some (NDir root')
    /\ (forall name, name <> "projects" -> cwd' !! name = cwd !! name)
    /\ (forall name, is_Some (root' !! name) -> name = fd_id d)
    /\ file_at root' (fd_id d) "feature_spec.json"
         = Some (Json.dumps (feature_json d))
    /\ file_at root' (fd_id d) "README.md" = Some (_generate_readme d).
Proof.
  intros Hlen Hcfg Hp Hst. rewrite (main_eq _ _ _ _ _ _ _ Hlen), Hcfg, Hp.
  unfold dir_at. rewrite Hp, generate_feature_io_eq.
  assert (Hw : writable ∅ (_generate_feature_id ∅ now_id) = true)
    by reflexivity.
  destruct (generate_feature_returns ∅ now_id now_created r (idea_of argv)
              (tech_stack_of argv) Hw)
    as (d & root' & Hrun & Hid & Hidea & _ & _ & _ & _ & _ & _ & _ & _ & _
        & Hjson & Hreadme & Hother & _).
  rewrite Hrun.
  destruct (takes_all_lines st d Hst) as (Hprogress & Hclosing & Hfiles).
  rewrite Hprogress, Hfiles. cbn [andb app]. rewrite Hclosing.
  exists d, (<["projects" := NDir root']> cwd), root'.
  split; [reflexivity|]. split; [exact Hidea|]. split; [exact Hid|].
  split; [apply lookup_insert_eq|]. split; [|split; [|split; assumption]].
  - intros name Hne. now rewrite lookup_insert_ne.
  - intros name Hs. destruct (decide (name = fd_id d)) as [->|Hne]; [reflexivity|].
    rewrite (Hother name Hne), lookup_empty in Hs. destruct Hs; discriminate.
Qed.

Lemma utf8_takes_all : takes_all utf8.
Proof.
  split; [|split; [reflexivity|]]; intros n Hn; unfold utf8; cbn;
    unfold utf8_takes; apply orb_true_iff; left; apply N.ltb_lt; lia.
Qed.

(** The theorem in an empty working directory, on UTF-8 streams. *)
Lemma main_first_run_witness :
  exists d cwd' root',
    main utf8 [ "pm_agent.py"; "Task management app"; "Go" ] ∅ ∅
      sample_now sample_now 0
      = Finished d cwd' (progress_lines d ++ closing_lines d)
    /\ fd_idea d = "Task management app"
    /\ fd_id d = feature_id_text sample_now 1
    /\ cwd' !! "projects" = Some (NDir root').
Proof.
  destruct (main_first_run utf8 [ "pm_agent.py"; "Task management app"; "Go" ]
              ∅ ∅ sample_now sample_now 0)
    as (d & cwd' & root' & Hmain & Hidea & Hid & Hp & _).
  - simpl. lia.
  - reflexivity.
  - reflexivity.
  - apply utf8_takes_all.
  - exists d, cwd', root'. repeat split; assumption.
Defined.

(** ** Where the idea goes *)

(** The record of a run, field by field. *)
Lemma generate_feature_record (root : gmap string node)
    (now_id now_created : datetime) (r : nat) (idea : string)
    (tech_stack : option string) :
  writable root (_generate_feature_id root now_id) = true ->
  exists root',
    generate_feature root now_id now_created r idea tech_stack =
    Some ({| fd_id := _generate_feature_id root now_id;
             fd_idea := idea;
             fd_specification := _create_feature_spec r idea tech_stack;
             fd_user_stories := stories_of r idea tech_stack;
             fd_acceptance_criteria := criteria_of r idea tech_stack;
             fd_technical_requirements :=
               _generate_technical_requirements
                 (_create_feature_spec r idea tech_stack) tech_stack;
             fd_api_specification :=
               _generate_api_spec (_create_feature_spec r idea tech_stack);
             fd_database_schema :=
               _generate_database_schema (_create_feature_spec r idea tech_stack);
             fd_status := "spec_ready";
             fd_created_at := isoformat now_created;
             fd_pm_agent := "v1.0" |}, root').
Proof.
  intros Hw.
  destruct (generate_feature_returns root now_id now_created r idea tech_stack Hw)
    as (d & root' & Hrun & Hid & Hidea & Hspec & Hst & Hcr & Hrq & Hapi
        & Hdb & Hstat & Hcre & Hpm & _).
  exists root'. rewrite Hrun. do 2 f_equal.
  destruct d. simpl in *. subst. reflexivity.
Qed.

(** X20: where the idea goes.  The idea reaches the record in these
    places and nowhere else: the idea of the record; the title, the
    description and the first MVP feature of the specification; the
    action of story US-001; and the criteria block of US-001, in its
    action text and in the checklist the idea selects.  Two runs from
    the same tree, clock readings, draw and tech stack on any two ideas
    return records each of which is the other with its idea replaced in
    these places: the identifier, the type, the tech stack, the other
    MVP features, the v2 features, the target users and the success
    metrics, the id, role, benefit, priority and points of US-001, the
    other stories and criteria blocks, the technical requirements, the
    API specification, the database schema, the status, the creation
    time and the version are the same. *)
Theorem idea_reaches_first_story (root : gmap string node)
    (now_id now_created : datetime) (r : nat) (idea1 idea2 : string)
    (tech_stack : option string) :
  writable root (_generate_feature_id root now_id) = true ->
  exists d1 root1 d2 root2,
    generate_feature root now_id now_created r idea1 tech_stack = Some (d1, root1)
    /\ generate_feature root now_id now_created r idea2 tech_stack = Some (d2, root2)
    /\ d2 = with_idea idea2 d1
    /\ d1 = with_idea idea1 d2.
Proof.
  intros Hw.
  destruct (generate_feature_record root now_id now_created r idea1 tech_stack Hw)
    as (root1 & Hrun1).
  destruct (generate_feature_record root now_id now_created r idea2 tech_stack Hw)
    as (root2 & Hrun2).
  eexists _, root1, _, root2.
  split; [exact Hrun1|]. split; [exact Hrun2|].
  unfold with_idea. cbn [fd_id fd_idea fd_specification fd_user_stories
    fd_acceptance_criteria fd_technical_requirements fd_api_specification
    fd_database_schema fd_status fd_created_at fd_pm_agent].
  rewrite !stories_of_eq, !criteria_of_eq.
  split; reflexivity.
Qed.

(** The theorem on a new root for the sample idea and the idea Shop. *)
Lemma idea_reaches_first_story_witness :
  exists d1 root1 d2 root2,
    generate_feature ∅ sample_now sample_now 0 sample_idea None = Some (d1, root1)
    /\ generate_feature ∅ sample_now sample_now 0 "Shop" None = Some (d2, root2)
    /\ d2 = with_idea "Shop" d1
    /\ d1 = with_idea sample_idea d2.
Proof.
  apply (idea_reaches_first_story ∅ sample_now sample_now 0 sample_idea "Shop"
           None).
  reflexivity.
Defined.
